(** * Cart, pricing and order finalisation of the ordering chatbot

    A shallow embedding of the pricing engine
    ([DatabaseService.get_product_pricing]), the session cart
    ([EnhancedOrderService] and the add and remove branches of
    [process_message]), the order finalisers
    ([OrderService.create_order_from_cart],
    [EnhancedOrderService.create_order_from_cart] and [confirm_cart]), the
    order queries of [DatabaseService] and the onboarding part of
    [process_message].

    Conventions of the embedding.
    - Python [int] is [Z]; [//] and [%] with a positive divisor are
      [Z.div] and [Z.modulo] (both floor).
    - Python [float] money is idealised as an exact rational [Q]; [round(x, 2)]
      is rounding to the nearest hundredth, ties to even.  The rounding of
      each binary floating-point operation is outside the embedding.
    - The Flask [session] is a dictionary with string keys: a [gmap string].
    - A Python dict with a fixed set of keys is a record; a key that some
      creation path leaves out is an [option] field.
    - [try/except] blocks are written out: the exceptional path returns what
      the handler returns.
    - What the sources take from outside is an argument: the clock ([now]),
      [uuid.uuid4()], the order id made by the model class, the groups that
      [re.search] finds, the answer of the classification service and the
      method [Product.update_available_quantity] of the model class. *)

From Stdlib Require Import ZArith QArith Ascii String List Lia Bool.
From stdpp Require Import base option gmap strings list fin_maps.

Local Open Scope string_scope.
Local Open Scope Z_scope.

(** ** Python helpers *)

Module Py.

(** [needle in hay] on strings. *)
Fixpoint contains (needle hay : string) : bool :=
  String.prefix needle hay
  || match hay with
     | EmptyString => false
     | String _ rest => contains needle rest
     end.

(** Rounding of a rational to the nearest integer, ties to even. *)
Definition round_half_even (q : Q) : Z :=
  let n := Qnum q in
  let d := Z.pos (Qden q) in
  let fl := n / d in
  let r := n mod d in
  match 2 * r ?= d with
  | Lt => fl
  | Gt => fl + 1
  | Eq => if Z.even fl then fl else fl + 1
  end.

(** [round(x, 2)] of the exact value; the source rounds the binary float. *)
Definition round2 (q : Q) : Q :=
  Qred (round_half_even (q * 100) # 100).

(** Truthiness of a float. *)
Definition truthy_Q (q : Q) : bool := negb (Qeq_bool q 0).

(** Truthiness of a string. *)
Definition truthy_str (s : string) : bool :=
  match s with EmptyString => false | _ => true end.

(** [a > b] on floats. *)
Definition Qgtb (a b : Q) : bool := negb (Qle_bool a b).

(** [str.lower()] on ASCII text. *)
Definition lower_ascii (c : ascii) : ascii :=
  let n := nat_of_ascii c in
  if (Nat.leb 65 n && Nat.leb n 90)%bool then ascii_of_nat (n + 32) else c.

Fixpoint lower (s : string) : string :=
  match s with
  | EmptyString => EmptyString
  | String c r => String (lower_ascii c) (lower r)
  end.

(** [str.upper()] on ASCII text. *)
Definition upper_ascii (c : ascii) : ascii :=
  let n := nat_of_ascii c in
  if (Nat.leb 97 n && Nat.leb n 122)%bool then ascii_of_nat (n - 32) else c.

Fixpoint upper (s : string) : string :=
  match s with
  | EmptyString => EmptyString
  | String c r => String (upper_ascii c) (upper r)
  end.

(** ASCII white space, as [str.strip()] and [str.split()] see it. *)
Definition is_space (c : ascii) : bool :=
  let n := nat_of_ascii c in
  ((Nat.leb 9 n && Nat.leb n 13) || (Nat.leb 28 n && Nat.leb n 32))%bool.

Fixpoint lstrip (s : string) : string :=
  match s with
  | EmptyString => EmptyString
  | String c r => if is_space c then lstrip r else s
  end.

(** [rstrip]: drop the trailing white space. *)
Fixpoint rstrip (s : string) : string :=
  match s with
  | EmptyString => EmptyString
  | String c r =>
    match rstrip r with
    | EmptyString => if is_space c then EmptyString else String c EmptyString
    | r' => String c r'
    end
  end.

Definition strip (s : string) : string := rstrip (lstrip s).

(** [str.split()]: the maximal runs of non-space characters.  [cur] is the
    word being read, in reverse. *)
Fixpoint split_aux (cur : list ascii) (s : string) : list string :=
  let flush (k : list string) :=
    match cur with
    | [] => k
    | _ => string_of_list_ascii (List.rev cur) :: k
    end in
  match s with
  | EmptyString => flush []
  | String c r =>
    if is_space c then flush (split_aux [] r) else split_aux (c :: cur) r
  end.

Definition split (s : string) : list string := split_aux [] s.

Definition is_digit (c : ascii) : bool :=
  let n := nat_of_ascii c in (Nat.leb 48 n && Nat.leb n 57)%bool.

(** [str.isdigit()] on ASCII text. *)
Definition isdigit (s : string) : bool :=
  match s with
  | EmptyString => false
  | _ => List.forallb is_digit (list_ascii_of_string s)
  end.

(** [int(s)] for a string of decimal digits; [None] is [ValueError]. *)
Definition int (s : string) : option Z :=
  if isdigit s
  then Some (fold_left (fun acc c => 10 * acc + Z.of_nat (nat_of_ascii c - 48))
               (list_ascii_of_string s) 0)
  else None.

End Py.

(** ** The product table *)

Module Product.
(** A row of the [Product] model.  [discount] and [scheme] are nullable. *)
Record t := mk {
  id : Z;
  product_code : string;
  product_name : string;
  warehouse_id : Z;
  price_of_product : Q;
  discount : option Q;
  scheme : option string;
  product_quantity : Z;
  blocked_quantity : Z;
  available_for_sale : Z
}.

Definition set_available_for_sale (v : Z) (p : t) : t :=
  mk (id p) (product_code p) (product_name p) (warehouse_id p)
     (price_of_product p) (discount p) (scheme p)
     (product_quantity p) (blocked_quantity p) v.
End Product.

(** [Product.query.get(product_id)] *)
Definition query_get (products : list Product.t) (product_id : Z) : option Product.t :=
  List.find (fun p => Product.id p =? product_id) products.

(** [get_product_by_code]: [Product.query.filter_by(product_code=...).first()] *)
Definition get_product_by_code (products : list Product.t) (code : string) : option Product.t :=
  List.find (fun p => String.eqb (Product.product_code p) code) products.

(** [get_product_by_code_and_warehouse] *)
Definition get_product_by_code_and_warehouse
    (products : list Product.t) (code : string) (wid : Z) : option Product.t :=
  List.find (fun p => String.eqb (Product.product_code p) code
                      && (Product.warehouse_id p =? wid)) products.

(** [get_products_by_warehouse] *)
Definition get_products_by_warehouse (products : list Product.t) (wid : Z) : list Product.t :=
  List.filter (fun p => Product.warehouse_id p =? wid) products.

(** ** The pricing engine *)

Module Pricing.
(** The dictionary returned by [get_product_pricing]. *)
Record t := mk {
  final_price : Q;
  discount_percentage : Q;
  scheme_name : option string;
  total_amount : Q;
  total_quantity : Z;
  paid_quantity : Z;
  free_quantity : Z;
  base_price : Q;
  discount_amount : Q
}.
End Pricing.

(** The [if scheme: ... elif ...] chain of [get_product_pricing]: from the
    scheme label, the quantity and the price after the flat discount to
    [(final_price, paid_quantity, free_quantity)]. *)
Definition apply_scheme (scheme : option string) (quantity : Z) (price_after_discount : Q)
  : Q * Z * Z :=
  let unchanged := (price_after_discount, quantity, 0) in
  match scheme with
  | None => unchanged
  | Some s =>
    if negb (Py.truthy_str s) then unchanged
    else if Py.contains "Buy 3 Get 2 Free" s && (3 <=? quantity) then
      let scheme_groups := quantity / 5 in
      let remaining_items := quantity mod 5 in
      let free_quantity := scheme_groups * 2 in
      let paid_quantity := scheme_groups * 3 in
      if 3 <=? remaining_items
      then (price_after_discount, paid_quantity + 3, free_quantity + 2)
      else (price_after_discount, paid_quantity + remaining_items, free_quantity)
    else if Py.contains "Buy 2 Get 1 Free" s && (2 <=? quantity) then
      let scheme_groups := quantity / 3 in
      let remaining_items := quantity mod 3 in
      let free_quantity := scheme_groups * 1 in
      let paid_quantity := scheme_groups * 2 in
      if 2 <=? remaining_items
      then (price_after_discount, paid_quantity + remaining_items, free_quantity)
      else if remaining_items =? 1
      then (price_after_discount, paid_quantity + 1, free_quantity)
      else (price_after_discount, paid_quantity, free_quantity)
    else if Py.contains "Buy 1 Get 20% Off" s && (1 <=? quantity) then
      ((price_after_discount * (80 # 100))%Q, quantity, 0)
    else if Py.contains "Buy 1 Get 15% Off" s && (1 <=? quantity) then
      ((price_after_discount * (85 # 100))%Q, quantity, 0)
    else if Py.contains "Buy 2 Get 25% Off" s && (2 <=? quantity) then
      ((price_after_discount * (75 # 100))%Q, quantity, 0)
    else unchanged
  end.

(** The body of the [try] block of [get_product_pricing] for a product that
    exists.  [None] stands for the [ZeroDivisionError] raised by
    [discount_amount / base_price] when the base price is zero. *)
Definition pricing_try (product : Product.t) (quantity : Z) : option Pricing.t :=
  let base_price := Product.price_of_product product in
  let discount_amount :=
    match Product.discount product with
    | Some d => if Py.truthy_Q d then d else 0%Q
    | None => 0%Q
    end in
  let scheme :=
    match Product.scheme product with
    | Some s => if Py.truthy_str s then Some s else None
    | None => None
    end in
  if Py.Qgtb discount_amount 0 && Qeq_bool base_price 0 then None
  else
    let discount_percentage :=
      if Py.Qgtb discount_amount 0
      then ((discount_amount / base_price) * 100)%Q else 0%Q in
    let price_after_discount := (base_price - discount_amount)%Q in
    let '(final_price, paid_quantity, free_quantity) :=
      apply_scheme scheme quantity price_after_discount in
    let total_amount := (final_price * inject_Z paid_quantity)%Q in
    Some (Pricing.mk (Py.round2 final_price) (Py.round2 discount_percentage)
            scheme (Py.round2 total_amount) quantity paid_quantity free_quantity
            (Py.round2 base_price) (Py.round2 discount_amount)).

(** The [except] handler of [get_product_pricing]: base pricing. *)
Definition pricing_fallback (product : Product.t) (quantity : Z) : Pricing.t :=
  let base_price := Product.price_of_product product in
  Pricing.mk base_price 0 None (base_price * inject_Z quantity)%Q
    quantity quantity 0 (Py.round2 base_price) 0.

(** The result for an unknown product id. *)
Definition pricing_unknown (quantity : Z) : Pricing.t :=
  Pricing.mk 0 0 None 0 quantity quantity 0 0 0.

(** [DatabaseService.get_product_pricing(product_id, quantity)] *)
Definition get_product_pricing (products : list Product.t) (product_id quantity : Z)
  : Pricing.t :=
  match query_get products product_id with
  | None => pricing_unknown quantity
  | Some product =>
    match pricing_try product quantity with
    | Some result => result
    | None => pricing_fallback product quantity
    end
  end.

(** The sample catalogue of [create_sample_products], for one warehouse. *)
Definition sample_product (pid : Z) (code name : string) (price : Q) (qty : Z)
    (disc : Q) (sch : string) : Product.t :=
  Product.mk pid code name 1 price (Some disc) (Some sch) qty 0 qty.

Definition QB001 := sample_product 1 "QB001" "Quantum Processor" 2500 100 150 "Buy 2 Get 1 Free".
Definition QB002 := sample_product 2 "QB002" "Neural Network Module" 1200 50 100 "Buy 1 Get 20% Off".
Definition QB003 := sample_product 3 "QB003" "AI Memory Card" 800 200 50 "Buy 3 Get 2 Free".
Definition QB004 := sample_product 4 "QB004" "Quantum Sensors" 1800 75 200 "Buy 1 Get 15% Off".
Definition QB005 := sample_product 5 "QB005" "AI Controller" 950 120 75 "Buy 2 Get 25% Off".

Definition sample_products : list Product.t := [QB001; QB002; QB003; QB004; QB005].

(** ** Orders and the database *)

Module Order.
(** A row of the [Order] model.  [order_id] is the public identifier made
    by [generate_order_id]; [total_amount] and [status] are [None] while
    they hold the column default of the model. *)
Record t := mk {
  id : Z;
  order_id : string;
  user_id : Z;
  warehouse_id : Z;
  warehouse_location : option string;
  user_email : string;
  total_amount : option Q;
  status : option string
}.

Definition confirm (total : Q) (o : t) : t :=
  mk (id o) (order_id o) (user_id o) (warehouse_id o) (warehouse_location o)
     (user_email o) (Some total) (Some "confirmed").

Definition set_status (v : option string) (o : t) : t :=
  mk (id o) (order_id o) (user_id o) (warehouse_id o) (warehouse_location o)
     (user_email o) (total_amount o) v.
Definition set_total_amount (v : option Q) (o : t) : t :=
  mk (id o) (order_id o) (user_id o) (warehouse_id o) (warehouse_location o)
     (user_email o) v (status o).
End Order.

Module OrderItem.
(** A row of the [OrderItem] model; [order_id] is the key of the order row. *)
Record t := mk {
  order_id : Z;
  product_id : Z;
  product_code : string;
  product_quantity_ordered : Z;
  unit_price : Q;
  total_price : Q
}.
End OrderItem.

Module DB.
(** The three tables the finalisers touch. *)
Record t := mk {
  products : list Product.t;
  orders : list Order.t;
  order_items : list OrderItem.t
}.

Definition set_products (v : list Product.t) (d : t) : t :=
  mk v (orders d) (order_items d).
Definition set_orders (v : list Order.t) (d : t) : t :=
  mk (products d) v (order_items d).
Definition set_order_items (v : list OrderItem.t) (d : t) : t :=
  mk (products d) (orders d) v.
End DB.

Module CartLine.
(** An element of the [cart_items] argument of the finalisers: the
    dictionary [{'product_code': ..., 'quantity': ...}]. *)
Record t := mk {
  product_code : string;
  quantity : Z
}.
End CartLine.

(** Apply [g] to the first element that satisfies [f]. *)
Fixpoint update_first {A} (f : A -> bool) (g : A -> A) (l : list A) : list A :=
  match l with
  | [] => []
  | x :: r => if f x then g x :: r else x :: update_first f g r
  end.

Module DatabaseService.

(** [create_order]: the new row gets the next key; [new_order_id] is what
    [generate_order_id] produced.  The call passes neither [total_amount]
    nor [status]: the row holds the column defaults of the model for them,
    written [None] here, whatever these defaults are. *)
Definition create_order (new_order_id : string) (user_id warehouse_id : Z)
    (warehouse_location : option string) (user_email : string) (db : DB.t)
  : DB.t * Order.t :=
  let order :=
    Order.mk (Z.of_nat (length (DB.orders db)) + 1) new_order_id user_id warehouse_id
      warehouse_location user_email None None in
  (DB.set_orders (DB.orders db ++ [order])%list db, order).

(** [add_order_item]; [total_price=None] means [quantity * unit_price]. *)
Definition add_order_item (order_id product_id : Z) (product_code : string)
    (quantity : Z) (unit_price : Q) (total_price : option Q) (db : DB.t)
  : DB.t * OrderItem.t :=
  let total_price :=
    match total_price with
    | None => (inject_Z quantity * unit_price)%Q
    | Some t => t
    end in
  let order_item :=
    OrderItem.mk order_id product_id product_code quantity unit_price total_price in
  (DB.set_order_items (DB.order_items db ++ [order_item])%list db, order_item).

(** [order.total_amount = total; order.status = 'confirmed'; commit] on the
    row of [order]. *)
Definition confirm_order (order : Order.t) (total : Q) (db : DB.t) : DB.t * Order.t :=
  (DB.set_orders
     (update_first (fun o => Order.id o =? Order.id order) (Order.confirm total)
        (DB.orders db)) db,
   Order.confirm total order).

Section Models.
(** [Product.update_available_quantity] is a method of the model class,
    which is not part of the sources at hand. *)
Variable update_available_quantity : Product.t -> Product.t.

(** One iteration of the loop of [update_product_quantities]. *)
Definition update_product_quantity (products : list Product.t)
    (line : string * Z) : list Product.t :=
  let '(product_code, quantity) := line in
  update_first
    (fun p => String.eqb (Product.product_code p) product_code)
    (fun product =>
       if quantity <=? Product.available_for_sale product
       then update_available_quantity
              (Product.set_available_for_sale
                 (Product.available_for_sale product - quantity) product)
       else product)
    products.

(** [update_product_quantities(product_quantities)], the definition that
    takes a dictionary (it replaces the earlier definition of the same
    name in the class). *)
Definition update_product_quantities (product_quantities : list (string * Z))
    (db : DB.t) : DB.t * bool :=
  (DB.set_products
     (fold_left update_product_quantity product_quantities (DB.products db)) db,
   true).
End Models.

(** [get_order_by_id(order_id)]: the first row with that public id. *)
Definition get_order_by_id (order_id : string) (db : DB.t) : option Order.t :=
  List.find (fun o => String.eqb (Order.order_id o) order_id) (DB.orders db).

(** [update_order_status(order_id, status)] *)
Definition update_order_status (order_id status : string) (db : DB.t)
  : DB.t * option Order.t :=
  match get_order_by_id order_id db with
  | Some order =>
    (DB.set_orders
       (update_first (fun o => String.eqb (Order.order_id o) order_id)
          (Order.set_status (Some status)) (DB.orders db)) db,
     Some (Order.set_status (Some status) order))
  | None => (db, None)
  end.

(** [order.order_items], the rows that point to the key of the order. *)
Definition order_items_of (order : Order.t) (db : DB.t) : list OrderItem.t :=
  List.filter (fun item => OrderItem.order_id item =? Order.id order) (DB.order_items db).

(** [sum(item.total_price for item in order_items)] *)
Definition sum_total_price (order_items : list OrderItem.t) : Q :=
  fold_left (fun acc item => (acc + OrderItem.total_price item)%Q) order_items 0%Q.

(** [update_order_total(order_id)]; [order_id] is the key of the row. *)
Definition update_order_total (order_id : Z) (db : DB.t) : DB.t * option Order.t :=
  match List.find (fun o => Order.id o =? order_id) (DB.orders db) with
  | Some order =>
    let total := sum_total_price (order_items_of order db) in
    (DB.set_orders
       (update_first (fun o => Order.id o =? order_id)
          (Order.set_total_amount (Some total)) (DB.orders db)) db,
     Some (Order.set_total_amount (Some total) order))
  | None => (db, None)
  end.

End DatabaseService.

(** ** The session cart *)

Module Status.
(** The values taken by [order_session['status']]. *)
Inductive t := idle | browsing | calculating | confirming | completed | active.
End Status.

Module CartItem.
(** One entry of [order_session['items']].  [product_id] and [added_at] are
    set by [EnhancedOrderService.add_item_to_cart] only; the items built in
    [process_message] have no such keys. *)
Record t := mk {
  product_id : option Z;
  product_code : string;
  product_name : string;
  quantity : Z;
  unit_price : Q;
  final_price : Q;
  discount_percentage : Q;
  scheme_name : option string;
  item_total : Q;
  added_at : option string
}.

Definition set_quantity (v : Z) (i : t) : t :=
  mk (product_id i) (product_code i) (product_name i) v (unit_price i)
     (final_price i) (discount_percentage i) (scheme_name i) (item_total i)
     (added_at i).

Definition set_item_total (v : Q) (i : t) : t :=
  mk (product_id i) (product_code i) (product_name i) (quantity i) (unit_price i)
     (final_price i) (discount_percentage i) (scheme_name i) v (added_at i).

(** The four assignments of [update_item_quantity] after repricing. *)
Definition set_pricing (fp dp : Q) (sn : option string) (tot : Q) (i : t) : t :=
  mk (product_id i) (product_code i) (product_name i) (quantity i) (unit_price i)
     fp dp sn tot (added_at i).
End CartItem.

Module OrderSession.
(** The dictionary [session['order_session']].  [total_cost] is missing
    from a cart made by [initialize_cart_session] until the totals are
    recalculated; [order_id], [cart_id] hold [None] or are absent.  Keys
    that no modelled function reads ([user_selections], [session_data],
    [created_at], [user_id], [warehouse_id], [total_amount]) are left out. *)
Record t := mk {
  status : Status.t;
  items : list CartItem.t;
  total_cost : option Q;
  discount_applied : Q;
  final_total : Q;
  order_id : option string;
  cart_id : option string;
  last_updated : string;
  pending_confirmation : bool
}.

Definition set_status (v : Status.t) (o : t) : t :=
  mk v (items o) (total_cost o) (discount_applied o) (final_total o)
     (order_id o) (cart_id o) (last_updated o) (pending_confirmation o).

Definition set_items (v : list CartItem.t) (o : t) : t :=
  mk (status o) v (total_cost o) (discount_applied o) (final_total o)
     (order_id o) (cart_id o) (last_updated o) (pending_confirmation o).

Definition set_totals (tc : option Q) (da ft : Q) (o : t) : t :=
  mk (status o) (items o) tc da ft
     (order_id o) (cart_id o) (last_updated o) (pending_confirmation o).

Definition set_order_id (v : option string) (o : t) : t :=
  mk (status o) (items o) (total_cost o) (discount_applied o) (final_total o)
     v (cart_id o) (last_updated o) (pending_confirmation o).

Definition set_last_updated (v : string) (o : t) : t :=
  mk (status o) (items o) (total_cost o) (discount_applied o) (final_total o)
     (order_id o) (cart_id o) v (pending_confirmation o).

Definition set_pending_confirmation (v : bool) (o : t) : t :=
  mk (status o) (items o) (total_cost o) (discount_applied o) (final_total o)
     (order_id o) (cart_id o) (last_updated o) v.

(** The fresh cart written by [process_message], [clear_cart] and
    [force_clear_cart]. *)
Definition fresh (now : string) : t :=
  mk Status.idle [] (Some 0%Q) 0 0 None None now false.
End OrderSession.

(** What a key of the Flask session holds. *)
Inductive SessionValue :=
| VOrderSession (os : OrderSession.t)
| VStr (s : string)
| VInt (z : Z).

(** The Flask session. *)
Abbreviation Session := (gmap string SessionValue).

(** The cart of a session, when the key holds one. *)
Definition cart_of (session : Session) : option OrderSession.t :=
  match session !! "order_session" with
  | Some (VOrderSession os) => Some os
  | _ => None
  end.

(** [status in ['confirming', 'calculating']] *)
Definition in_order_stage (st : Status.t) : bool :=
  match st with
  | Status.confirming | Status.calculating => true
  | _ => false
  end.

(** [item['product_code'] == product_code] *)
Definition has_code (product_code : string) (item : CartItem.t) : bool :=
  String.eqb (CartItem.product_code item) product_code.

(** The messages returned by the cart service next to the success flag. *)
Inductive Msg :=
| ProductNotFound (code : string)
| InsufficientStock (available requested : Z)
| Added (quantity : Z) (name : string)
| NoActiveCart
| NotInCart (code : string)
| Removed (code : string)
| InsufficientStockFor (available : Z)
| Updated (code : string) (quantity : Z)
| Cleared
| ErrorRaised
| NoItemsInCart
| NoLongerAvailable (code : string)
| InsufficientStockLine (code : string) (available required : Z)
| OrderCreated
| CartEmpty
| OrderConfirmed
| InvalidCartOrStock.

(** Index of the first element that satisfies [f]. *)
Fixpoint find_index {A} (f : A -> bool) (l : list A) : option nat :=
  match l with
  | [] => None
  | x :: r => if f x then Some O else option_map S (find_index f r)
  end.

(** [l[i] = g(l[i])] for an index in range. *)
Fixpoint update_at {A} (i : nat) (g : A -> A) (l : list A) : list A :=
  match l, i with
  | [], _ => []
  | x :: r, O => g x :: r
  | x :: r, S j => x :: update_at j g r
  end.

(** Sum of the line totals, accumulated from [0] in list order as Python's
    [total += x] loop and [sum] do. *)
Definition sum_item_totals (items : list CartItem.t) : Q :=
  fold_left (fun acc item => (acc + CartItem.item_total item)%Q) items 0%Q.

Arguments sum_item_totals : simpl never.

(** The [discount_applied] accumulation of [_recalculate_cart_totals]. *)
Definition sum_discounts (items : list CartItem.t) : Q :=
  fold_left (fun acc item =>
               if Py.Qgtb (CartItem.discount_percentage item) 0
               then (acc + (CartItem.unit_price item - CartItem.final_price item)
                           * inject_Z (CartItem.quantity item))%Q
               else acc) items 0%Q.

Module EnhancedOrderService.

(** [_recalculate_cart_totals(order_session)] *)
Definition _recalculate_cart_totals (order_session : OrderSession.t) : OrderSession.t :=
  let total_cost := sum_item_totals (OrderSession.items order_session) in
  let discount_applied := sum_discounts (OrderSession.items order_session) in
  OrderSession.set_totals (Some total_cost) discount_applied total_cost order_session.

(** [initialize_cart_session]: called by [add_item_to_cart] when the
    session has no cart; [uuid] is the value of [uuid.uuid4()]. *)
Definition initialize_cart_session (now uuid : string) (session : Session) : Session :=
  let cart_session :=
    OrderSession.mk Status.active [] None 0 0 None (Some uuid) now false in
  match session !! "order_session" with
  | None => <["order_session" := VOrderSession cart_session]> session
  | Some (VOrderSession old) =>
      (* dict.update keeps the keys the new dictionary does not have *)
      <["order_session" :=
          VOrderSession (OrderSession.mk Status.active [] (OrderSession.total_cost old)
                           0 0 (OrderSession.order_id old) (Some uuid) now
                           (OrderSession.pending_confirmation old))]> session
  | Some _ => session
  end.

(** [add_item_to_cart(product_code, quantity, user_id, warehouse_id)];
    [user_id] only goes into a key of the new cart that the record leaves
    out. *)
Definition add_item_to_cart (products : list Product.t) (now uuid : string)
    (product_code : string) (quantity : Z) (warehouse_id : Z) (session : Session)
  : Session * (bool * Msg) :=
  match get_product_by_code_and_warehouse products product_code warehouse_id with
  | None => (session, (false, ProductNotFound product_code))
  | Some product =>
    if Product.available_for_sale product <? quantity
    then (session, (false, InsufficientStock (Product.available_for_sale product) quantity))
    else
      let pricing_info := get_product_pricing products (Product.id product) quantity in
      let cart_item :=
        CartItem.mk (Some (Product.id product)) product_code
          (Product.product_name product) quantity
          (Pricing.base_price pricing_info) (Pricing.final_price pricing_info)
          (Pricing.discount_percentage pricing_info) (Pricing.scheme_name pricing_info)
          (Pricing.total_amount pricing_info) (Some now) in
      let session :=
        match session !! "order_session" with
        | None => initialize_cart_session now uuid session
        | Some _ => session
        end in
      match session !! "order_session" with
      | Some (VOrderSession order_session) =>
        let items := OrderSession.items order_session in
        let items :=
          match find_index (fun item => String.eqb (CartItem.product_code item) product_code)
                  items with
          | Some existing_item_index =>
              update_at existing_item_index
                (fun item =>
                   CartItem.set_item_total
                     (CartItem.item_total item + Pricing.total_amount pricing_info)%Q
                     (CartItem.set_quantity (CartItem.quantity item + quantity) item))
                items
          | None => (items ++ [cart_item])%list
          end in
        let order_session :=
          _recalculate_cart_totals (OrderSession.set_items items order_session) in
        let order_session := OrderSession.set_last_updated now order_session in
        (<["order_session" := VOrderSession order_session]> session,
         (true, Added quantity (Product.product_name product)))
      | _ => (session, (false, ErrorRaised))
      end
  end.

(** [remove_item_from_cart(product_code)] *)
Definition remove_item_from_cart (now : string) (product_code : string) (session : Session)
  : Session * (bool * Msg) :=
  match session !! "order_session" with
  | None => (session, (false, NoActiveCart))
  | Some (VOrderSession order_session) =>
    let original_length := length (OrderSession.items order_session) in
    let order_session :=
      OrderSession.set_items
        (List.filter (fun item => negb (String.eqb (CartItem.product_code item) product_code))
           (OrderSession.items order_session))
        order_session in
    if Nat.eqb (length (OrderSession.items order_session)) original_length
    then (<["order_session" := VOrderSession order_session]> session,
          (false, NotInCart product_code))
    else
      let order_session := _recalculate_cart_totals order_session in
      let order_session := OrderSession.set_last_updated now order_session in
      (<["order_session" := VOrderSession order_session]> session,
       (true, Removed product_code))
  | Some _ => (session, (false, ErrorRaised))
  end.

(** [update_item_quantity(product_code, new_quantity)].  The guard reads
    the key ['order_code'], as the source does. *)
Definition update_item_quantity (products : list Product.t) (now : string)
    (product_code : string) (new_quantity : Z) (session : Session)
  : Session * (bool * Msg) :=
  match session !! "order_code" with
  | None => (session, (false, NoActiveCart))
  | Some _ =>
    match session !! "order_session" with
    | Some (VOrderSession order_session) =>
      let items := OrderSession.items order_session in
      match find_index (fun item => String.eqb (CartItem.product_code item) product_code)
              items with
      | None => (session, (false, NotInCart product_code))
      | Some i =>
        if new_quantity <=? 0 then remove_item_from_cart now product_code session
        else
          let stock_short :=
            match get_product_by_code products product_code with
            | Some product =>
                if Product.available_for_sale product <? new_quantity
                then Some (Product.available_for_sale product) else None
            | None => None
            end in
          match stock_short with
          | Some available => (session, (false, InsufficientStockFor available))
          | None =>
            (* item['quantity'] = new_quantity happens before item['product_id']
               is read *)
            let items := update_at i (CartItem.set_quantity new_quantity) items in
            match List.nth_error items i with
            | Some {| CartItem.product_id := Some pid |} =>
              let pricing_info := get_product_pricing products pid new_quantity in
              let items :=
                update_at i
                  (CartItem.set_pricing
                     (Pricing.final_price pricing_info)
                     (Pricing.discount_percentage pricing_info)
                     (Pricing.scheme_name pricing_info)
                     (Pricing.total_amount pricing_info)) items in
              let order_session :=
                _recalculate_cart_totals (OrderSession.set_items items order_session) in
              let order_session := OrderSession.set_last_updated now order_session in
              (<["order_session" := VOrderSession order_session]> session,
               (true, Updated product_code new_quantity))
            | _ =>
              (* KeyError: 'product_id' *)
              (<["order_session" :=
                   VOrderSession (OrderSession.set_items items order_session)]> session,
               (false, ErrorRaised))
            end
          end
      end
    | _ => (session, (false, ErrorRaised))
    end
  end.

(** [clear_cart()] and [force_clear_cart()] write the same fresh cart. *)
Definition clear_cart (now : string) (session : Session) : Session * (bool * Msg) :=
  (<["order_session" := VOrderSession (OrderSession.fresh now)]> session, (true, Cleared)).

Definition force_clear_cart (now : string) (session : Session) : Session * (bool * Msg) :=
  (<["order_session" := VOrderSession (OrderSession.fresh now)]>
     (delete "order_session" session), (true, Cleared)).

(** The validation loop shared by [confirm_cart] and
    [create_order_from_cart]: the message of the first line that fails. *)
Fixpoint validation_failure (products : list Product.t) (warehouse_id : Z)
    (lines : list CartLine.t) : option Msg :=
  match lines with
  | [] => None
  | item :: rest =>
    match get_product_by_code_and_warehouse products
            (CartLine.product_code item) warehouse_id with
    | None => Some (NoLongerAvailable (CartLine.product_code item))
    | Some product =>
      if Product.available_for_sale product <? CartLine.quantity item
      then Some (InsufficientStockLine (CartLine.product_code item)
                   (Product.available_for_sale product) (CartLine.quantity item))
      else validation_failure products warehouse_id rest
    end
  end.

Section Finalize.
Variable update_available_quantity : Product.t -> Product.t.

(** One iteration of the "Add order items" loop of
    [create_order_from_cart]. *)
Definition add_priced_item (order : Order.t) (acc : DB.t * Q) (item : CartLine.t)
  : DB.t * Q :=
  let '(db, total_amount) := acc in
  match get_product_by_code (DB.products db) (CartLine.product_code item) with
  | None => (db, total_amount)
  | Some product =>
    let pricing_info :=
      get_product_pricing (DB.products db) (Product.id product) (CartLine.quantity item) in
    let '(db, _) :=
      DatabaseService.add_order_item (Order.id order) (Product.id product)
        (CartLine.product_code item) (CartLine.quantity item)
        (Pricing.final_price pricing_info)
        (Some (Pricing.total_amount pricing_info)) db in
    let total_amount := (total_amount + Pricing.total_amount pricing_info)%Q in
    let '(db, _) :=
      DatabaseService.update_product_quantities update_available_quantity
        [(CartLine.product_code item, CartLine.quantity item)] db in
    (db, total_amount)
  end.

(** [create_order_from_cart(user_id, cart_items, warehouse_id,
    warehouse_location, user_email)] *)
Definition create_order_from_cart (new_order_id : string) (user_id : Z)
    (cart_items : list CartLine.t) (warehouse_id : Z)
    (warehouse_location : option string) (user_email : string) (db : DB.t)
  : DB.t * (option Order.t * Msg) :=
  match cart_items with
  | [] => (db, (None, NoItemsInCart))
  | _ =>
    match validation_failure (DB.products db) warehouse_id cart_items with
    | Some msg => (db, (None, msg))
    | None =>
      let '(db, order) :=
        DatabaseService.create_order new_order_id user_id warehouse_id
          warehouse_location user_email db in
      let '(db, total_amount) :=
        fold_left (add_priced_item order) cart_items (db, 0%Q) in
      let '(db, order) := DatabaseService.confirm_order order total_amount db in
      (db, (Some order, OrderCreated))
    end
  end.

(** One iteration of the "Add order items" loop of [confirm_cart]; [None]
    is the [KeyError] of [item['product_id']] on an item without that key. *)
Definition add_cart_item (order : Order.t) (acc : option (DB.t * Q)) (item : CartItem.t)
  : option (DB.t * Q) :=
  match acc with
  | None => None
  | Some (db, total_amount) =>
    match CartItem.product_id item with
    | None => None
    | Some product_id =>
      let '(db, order_item) :=
        DatabaseService.add_order_item (Order.id order) product_id
          (CartItem.product_code item) (CartItem.quantity item)
          (CartItem.unit_price item) None db in
      let total_amount := (total_amount + OrderItem.total_price order_item)%Q in
      let '(db, _) :=
        DatabaseService.update_product_quantities update_available_quantity
          [(CartItem.product_code item, CartItem.quantity item)] db in
      Some (db, total_amount)
    end
  end.

(** The database after the items before the failing one were added: every
    [add_order_item] and [update_product_quantities] has committed, so
    the rollback of the handler leaves them in place. *)
Fixpoint add_cart_items_partial (order : Order.t) (db : DB.t) (items : list CartItem.t)
  : DB.t :=
  match items with
  | [] => db
  | item :: rest =>
    match add_cart_item order (Some (db, 0%Q)) item with
    | Some (db, _) => add_cart_items_partial order db rest
    | None => db
    end
  end.

Definition line_of_item (item : CartItem.t) : CartLine.t :=
  CartLine.mk (CartItem.product_code item) (CartItem.quantity item).

(** [confirm_cart(user_id, warehouse_id, user_email)] *)
Definition confirm_cart (new_order_id : string) (user_id warehouse_id : Z)
    (user_email : string) (st : Session * DB.t)
  : (Session * DB.t) * (option Order.t * Msg) :=
  let '(session, db) := st in
  match session !! "order_session" with
  | None => (st, (None, NoActiveCart))
  | Some (VOrderSession order_session) =>
    match OrderSession.items order_session with
    | [] => (st, (None, CartEmpty))
    | items =>
      match validation_failure (DB.products db) warehouse_id
              (List.map line_of_item items) with
      | Some msg => (st, (None, msg))
      | None =>
        let warehouse_location :=
          match session !! "warehouse_location" with
          | Some (VStr s) => Some s
          | _ => None
          end in
        let '(db, order) :=
          DatabaseService.create_order new_order_id user_id warehouse_id
            warehouse_location user_email db in
        match fold_left (add_cart_item order) items (Some (db, 0%Q)) with
        | None => ((session, add_cart_items_partial order db items), (None, ErrorRaised))
        | Some (db, total_amount) =>
          let '(db, order) := DatabaseService.confirm_order order total_amount db in
          let order_session :=
            OrderSession.set_pending_confirmation false
              (OrderSession.set_order_id (Some (Order.order_id order))
                 (OrderSession.set_status Status.completed order_session)) in
          ((<["order_session" := VOrderSession order_session]> session, db),
           (Some order, OrderConfirmed))
        end
      end
    end
  | Some _ => (st, (None, ErrorRaised))
  end.
End Finalize.

End EnhancedOrderService.

Module OrderService.

(** An element of [validated_items]. *)
Record validated := mk_validated {
  v_product_id : Z;
  v_product_code : string;
  v_quantity : Z;
  v_unit_price : Q
}.

(** [_validate_cart_items(cart_items, warehouse_id)] *)
Fixpoint _validate_cart_items (products : list Product.t) (cart_items : list CartLine.t)
    (warehouse_id : Z) : list validated :=
  match cart_items with
  | [] => []
  | item :: rest =>
    let product_code := CartLine.product_code item in
    let quantity := CartLine.quantity item in
    let rest := _validate_cart_items products rest warehouse_id in
    if negb (Py.truthy_str product_code) || (quantity <=? 0) then rest
    else
      match get_product_by_code_and_warehouse products product_code warehouse_id with
      | None => rest
      | Some product =>
        if Product.available_for_sale product <? quantity then rest
        else mk_validated (Product.id product) product_code quantity
               (Product.price_of_product product) :: rest
      end
  end.

Section Finalize.
Variable update_available_quantity : Product.t -> Product.t.

(** One iteration of the "Add order items" loop. *)
Definition add_validated_item (order : Order.t) (acc : DB.t * Q) (item : validated)
  : DB.t * Q :=
  let '(db, total_amount) := acc in
  let '(db, order_item) :=
    DatabaseService.add_order_item (Order.id order) (v_product_id item)
      (v_product_code item) (v_quantity item) (v_unit_price item) None db in
  let total_amount := (total_amount + OrderItem.total_price order_item)%Q in
  let '(db, _) :=
    DatabaseService.update_product_quantities update_available_quantity
      [(v_product_code item, v_quantity item)] db in
  (db, total_amount).

(** [create_order_from_cart(user_id, cart_items, warehouse_id,
    warehouse_location, user_email)] *)
Definition create_order_from_cart (new_order_id : string) (user_id : Z)
    (cart_items : list CartLine.t) (warehouse_id : Z)
    (warehouse_location : option string) (user_email : string) (db : DB.t)
  : DB.t * (option Order.t * Msg) :=
  match _validate_cart_items (DB.products db) cart_items warehouse_id with
  | [] => (db, (None, InvalidCartOrStock))
  | validated_items =>
    let '(db, order) :=
      DatabaseService.create_order new_order_id user_id warehouse_id
        warehouse_location user_email db in
    let '(db, total_amount) :=
      fold_left (add_validated_item order) validated_items (db, 0%Q) in
    let '(db, order) := DatabaseService.confirm_order order total_amount db in
    (db, (Some order, OrderCreated))
  end.
End Finalize.

End OrderService.

(** ** The chat handler *)

(** What [process_message] answers, without the wording. *)
Inductive Response :=
| ProductsAdded (added_items : list (string * Z * Q)) (cart : list CartItem.t) (final_total : Q)
| CouldNotIdentify (available_products : list (string * string))
    (status : Status.t) (cart_size : nat)
| OrderPlaced (order : Order.t) (order_items : list CartItem.t)
| OrderFailed (message : Msg)
| NoOrderDetails
| CartUpdated (cart_size : nat) (final_total : Q)
| FailedToProcess.

Module Chatbot.

Definition add_patterns : list string :=
  [ "add\s+(\d+)\s+(.+?)(?:\s+to\s+cart)?$";
    "add\s+(.+?)\s+(\d+)(?:\s+to\s+cart)?$";
    "add\s+(.+?)$" ].

(** "Try exact matches first". *)
Definition exact_match (product_name_lower : string) (p : Product.t) : bool :=
  String.eqb product_name_lower (Py.lower (Product.product_name p))
  || String.eqb product_name_lower (Py.lower (Product.product_code p)).

(** "Try partial matches if exact match fails". *)
Definition partial_match (product_name_lower : string) (p : Product.t) : bool :=
  Py.contains product_name_lower (Py.lower (Product.product_name p))
  || Py.contains (Py.lower (Product.product_code p)) product_name_lower
  || List.existsb
       (fun word => Py.contains word (Py.lower (Product.product_name p)))
       (List.filter (fun word => Nat.ltb 2 (String.length word))
          (Py.split product_name_lower)).

Definition match_product (products : list Product.t) (product_name : string)
  : option Product.t :=
  let product_name_lower := Py.lower product_name in
  match List.find (exact_match product_name_lower) products with
  | Some p => Some p
  | None => List.find (partial_match product_name_lower) products
  end.

(** Quantity and product name from the groups of the match; the outer
    [None] is an exception ([ValueError] of [int], [IndexError] of
    [group]). *)
Definition quantity_and_name (groups : list string) : option (Z * string) :=
  match groups with
  | [g1; g2] =>
    if Py.isdigit g1
    then option_map (fun q => (q, Py.strip g2)) (Py.int g1)
    else option_map (fun q => (q, Py.strip g1)) (Py.int g2)
  | g1 :: _ => Some (1, Py.strip g1)
  | [] => None
  end.

Section Handler.
(** [re.search(pattern, text)]: the groups of the first match, if any. *)
Variable re_search : string -> string -> option (list string).

(** The [for pattern in add_patterns] loop stops at the first pattern
    that matches. *)
Fixpoint first_match (patterns : list string) (text : string) : option (list string) :=
  match patterns with
  | [] => None
  | pattern :: rest =>
    match re_search pattern text with
    | Some groups => Some groups
    | None => first_match rest text
    end
  end.

Definition clarification (products : list Product.t) (order_session : OrderSession.t)
  : Response :=
  CouldNotIdentify
    (List.map (fun p => (Product.product_name p, Product.product_code p)) products)
    (OrderSession.status order_session)
    (length (OrderSession.items order_session)).

(** Entry of the branch: "If order session is not in the right state,
    initialize it". *)
Definition enter_add_branch (order_session : OrderSession.t) : OrderSession.t :=
  match OrderSession.status order_session with
  | Status.confirming | Status.calculating => order_session
  | _ => OrderSession.set_pending_confirmation true
           (OrderSession.set_status Status.confirming order_session)
  end.

(** The [if product:] block: price the requested quantity, merge it into
    the line of the product or append a line, then add the amount to the
    totals.  A cart without the key ['total_cost'] raises [KeyError]
    after the items were changed.  The totals are running totals: the
    amount is added to what they held ([+=], here in exact arithmetic). *)
Definition add_product (all_products : list Product.t) (product : Product.t)
    (quantity : Z) (order_session : OrderSession.t) : OrderSession.t * Response :=
  let pricing_info :=
    get_product_pricing all_products (Product.id product) quantity in
  let same_code item :=
    String.eqb (CartItem.product_code item) (Product.product_code product) in
  let items := OrderSession.items order_session in
  let items :=
    match find_index same_code items with
    | Some i =>
      update_at i
        (fun existing_item =>
           CartItem.set_item_total
             (CartItem.item_total existing_item
              + Pricing.total_amount pricing_info)%Q
             (CartItem.set_quantity
                (CartItem.quantity existing_item + quantity) existing_item))
        items
    | None =>
      (items ++
       [CartItem.mk None (Product.product_code product)
          (Product.product_name product) quantity
          (Pricing.base_price pricing_info) (Pricing.final_price pricing_info)
          (Pricing.discount_percentage pricing_info)
          (Pricing.scheme_name pricing_info)
          (Pricing.total_amount pricing_info) None])%list
    end in
  let order_session := OrderSession.set_items items order_session in
  match OrderSession.total_cost order_session with
  | None => (order_session, FailedToProcess)
  | Some total_cost =>
    let order_session :=
      OrderSession.set_totals
        (Some (total_cost + Pricing.total_amount pricing_info)%Q)
        (OrderSession.discount_applied order_session)
        (OrderSession.final_total order_session
         + Pricing.total_amount pricing_info)%Q
        order_session in
    (order_session,
     ProductsAdded
       [(Product.product_name product, quantity, Pricing.total_amount pricing_info)]
       (OrderSession.items order_session)
       (OrderSession.final_total order_session))
  end.

(** The branch [if 'add' in user_message.lower()] of [process_message],
    on the cart dictionary of the session.  [all_products] is the product
    table, [warehouse] the key of the user's warehouse if it exists. *)
Definition add_to_cart (all_products : list Product.t) (warehouse : option Z)
    (user_message : string) (order_session : OrderSession.t)
  : OrderSession.t * Response :=
  let order_session := enter_add_branch order_session in
  let products :=
    match warehouse with
    | Some wid => get_products_by_warehouse all_products wid
    | None => []
    end in
  match first_match add_patterns (Py.lower user_message) with
  | None => (order_session, clarification products order_session)
  | Some groups =>
    match quantity_and_name groups with
    | None => (order_session, FailedToProcess)
    | Some (quantity, product_name) =>
      match match_product products product_name with
      | None => (order_session, clarification products order_session)
      | Some product => add_product all_products product quantity order_session
      end
    end
  end.

(** [process_message] for a verified user whose message contains "add":
    the cart is created when the session has none, the add branch runs
    on it and the session keeps the dictionary.  The onboarding and
    tracking keys of the session are not modelled. *)
Definition process_add_message (all_products : list Product.t) (warehouse : option Z)
    (now : string) (user_message : string) (session : Session)
  : Session * Response :=
  let session :=
    match session !! "order_session" with
    | None => <["order_session" := VOrderSession (OrderSession.fresh now)]> session
    | Some _ => session
    end in
  match session !! "order_session" with
  | Some (VOrderSession order_session) =>
    let '(order_session, response) :=
      add_to_cart all_products warehouse user_message order_session in
    (<["order_session" := VOrderSession order_session]> session, response)
  | _ => (session, FailedToProcess)
  end.
End Handler.

Section Finalize.
Variable update_available_quantity : Product.t -> Product.t.

(** The branch [elif is_finalizing and has_order_session] of the
    [PLACE_ORDER] intent that creates the order from the cart of the
    session. *)
Definition finalize_order (new_order_id now : string) (user_id warehouse_id : Z)
    (warehouse_location : option string) (user_email : string)
    (st : Session * DB.t) : (Session * DB.t) * Response :=
  let '(session, db) := st in
  match session !! "order_session" with
  | Some (VOrderSession order_session) =>
    let order_items := OrderSession.items order_session in
    let cart_items := List.map EnhancedOrderService.line_of_item order_items in
    let '(db, (order, message)) :=
      EnhancedOrderService.create_order_from_cart update_available_quantity
        new_order_id user_id cart_items warehouse_id warehouse_location user_email db in
    match order with
    | Some order =>
      let order_session :=
        OrderSession.set_order_id (Some (Order.order_id order))
          (OrderSession.set_status Status.completed order_session) in
      let session := <["order_session" := VOrderSession order_session]> session in
      let '(session, _) := EnhancedOrderService.force_clear_cart now session in
      ((session, db), OrderPlaced order order_items)
    | None => ((session, db), OrderFailed message)
    end
  | _ => (st, FailedToProcess)
  end.
End Finalize.

(** *** The [PLACE_ORDER] intent *)

Definition catalogue_names : list string :=
  ["Quantum Processor"; "AI Controller"; "Quantum Sensors"; "AI Memory Card";
   "Neural Network Module"].

Definition finalize_keywords : list string :=
  ["finalize"; "proceed"; "confirm"; "place the order"; "place my order"; "place order";
   "yes proceed"; "yes it is correct"; "yes"; "ok"].

Definition is_simple_confirmation (user_message : string) : bool :=
  (Py.contains "confirm my order" (Py.lower user_message)
   || Py.contains "process the items in my cart" (Py.lower user_message))
  && negb (List.existsb (fun product => Py.contains product user_message) catalogue_names).

Definition is_detailed_confirmation (user_message : string) : bool :=
  Py.contains "I confirm my order with the following details" user_message.

Definition is_finalizing (user_message : string) : bool :=
  List.existsb (fun keyword => Py.contains keyword (Py.lower user_message))
    finalize_keywords.

(** Truth value of
    [(status in ['calculating', 'confirming'] and items) or (items and len(items) > 0)]. *)
Definition has_order_session (order_session : OrderSession.t) : bool :=
  let nonempty :=
    match OrderSession.items order_session with [] => false | _ => true end in
  (in_order_stage (OrderSession.status order_session) && nonempty)
  || (nonempty && Nat.ltb 0 (length (OrderSession.items order_session))).

(** "If previous order was completed and user wants to start new order,
    clear the cart": the session, the cart the branch goes on with and the
    flag [has_order_session]. *)
Definition reset_if_completed (now : string) (session : Session)
    (order_session : OrderSession.t) : Session * OrderSession.t * bool :=
  match OrderSession.status order_session with
  | Status.completed =>
    (fst (EnhancedOrderService.force_clear_cart now session), OrderSession.fresh now, false)
  | _ => (session, order_session, has_order_session order_session)
  end.

(** The branch [elif is_finalizing and not has_order_session], for a
    message that the tests on the message send there: the order is made from
    the lines that [parse_order_details] of the classification service read
    from the conversation ([order_data], [None] when it found no order),
    through [OrderService].  The cart and the flag are the ones that
    [reset_if_completed] left.  The result is [None] when the flag is set:
    the cart has lines, and an earlier branch of the intent has returned. *)
Definition finalize_from_conversation
    (update_available_quantity : Product.t -> Product.t) (now : string)
    (order_data : option (list CartLine.t))
    (new_order_id : string) (user_id warehouse_id : Z)
    (warehouse_location : option string) (user_email : string)
    (st : Session * DB.t) : option ((Session * DB.t) * Response) :=
  let '(session, db) := st in
  match session !! "order_session" with
  | Some (VOrderSession order_session) =>
    let '(session, order_session, has_session) :=
      reset_if_completed now session order_session in
    if has_session then None
    else
      match order_data with
      | Some ((_ :: _) as cart_items) =>
        let '(db, (order, message)) :=
          OrderService.create_order_from_cart update_available_quantity new_order_id
            user_id cart_items warehouse_id warehouse_location user_email db in
        match order with
        | Some order =>
          let order_session :=
            OrderSession.set_order_id (Some (Order.order_id order))
              (OrderSession.set_status Status.completed order_session) in
          Some ((<["order_session" := VOrderSession order_session]> session, db),
                OrderPlaced order [])
        | None => Some ((session, db), OrderFailed message)
        end
      | _ => Some ((session, db), NoOrderDetails)
      end
  | _ => Some (st, FailedToProcess)
  end.

(** The sub-branches of the intent, in the order of the source. *)
Inductive PlaceOrderBranch :=
| InitialRequest
| CartConfirmation
| Finalization
| ProductListing
| DetailedConfirmation
| FinalizationThroughOrderService
| FinalizationFromConversation
| Browsing.

(** Which sub-branch runs.  [InitialRequest], [CartConfirmation],
    [Finalization] and [ProductListing] return from the handler on every
    path, so a later test is reached only when the earlier ones failed.
    [FinalizationThroughOrderService] is the second
    [is_finalizing and has_order_session] test of the source. *)
Definition place_order_branch (has_session simple detailed finalizing : bool)
  : PlaceOrderBranch :=
  if negb has_session && negb simple && negb finalizing then InitialRequest
  else if simple && has_session then CartConfirmation
  else if finalizing && has_session then Finalization
  else if negb detailed && negb simple then ProductListing
  else if detailed then DetailedConfirmation
  else if finalizing && has_session then FinalizationThroughOrderService
  else if finalizing && negb has_session then FinalizationFromConversation
  else Browsing.

(** *** The route [/api/update-cart] *)

(** One iteration of "Process new selected products": the quantity of a line
    in the cart is replaced and the line repriced, a new line is appended. *)
Definition select_product (all_products : list Product.t)
    (existing_items : list CartItem.t) (product : string * Z) : list CartItem.t :=
  let '(code, quantity) := product in
  match get_product_by_code all_products code with
  | None => existing_items
  | Some db_product =>
    let pricing_info := get_product_pricing all_products (Product.id db_product) quantity in
    match find_index (has_code code) existing_items with
    | Some i =>
      let updated_pricing :=
        get_product_pricing all_products (Product.id db_product) quantity in
      update_at i
        (fun existing_item =>
           CartItem.set_pricing
             (Pricing.final_price updated_pricing)
             (Pricing.discount_percentage updated_pricing)
             (Pricing.scheme_name updated_pricing)
             (Pricing.total_amount updated_pricing)
             (CartItem.set_quantity quantity existing_item))
        existing_items
    | None =>
      (existing_items ++
       [CartItem.mk None (Product.product_code db_product)
          (Product.product_name db_product) quantity
          (Pricing.base_price pricing_info) (Pricing.final_price pricing_info)
          (Pricing.discount_percentage pricing_info) (Pricing.scheme_name pricing_info)
          (Pricing.total_amount pricing_info) None])%list
    end
  end.

(** [update_cart()] for an authenticated user with a warehouse;
    [selected_products] are the [(code, quantity)] pairs of the request. *)
Definition update_cart (all_products : list Product.t) (now : string)
    (selected_products : list (string * Z)) (session : Session) : Session * Response :=
  match selected_products with
  | [] => (session, FailedToProcess)
  | _ =>
    let order_session :=
      match session !! "order_session" with
      | Some (VOrderSession os) => Some os
      | None => Some (OrderSession.fresh now)
      | Some _ => None
      end in
    match order_session with
    | None => (session, FailedToProcess)
    | Some order_session =>
      let order_session := OrderSession.set_status Status.confirming order_session in
      let existing_items :=
        fold_left (select_product all_products) selected_products
          (OrderSession.items order_session) in
      let order_session := OrderSession.set_items existing_items order_session in
      let total_cost := sum_item_totals existing_items in
      let order_session :=
        OrderSession.set_totals (Some total_cost)
          (OrderSession.discount_applied order_session) total_cost order_session in
      let order_session := OrderSession.set_last_updated now order_session in
      (<["order_session" := VOrderSession order_session]> session,
       CartUpdated (length existing_items) total_cost)
    end
  end.

(** *** The first block of the main flow: add and remove *)

(** Which branch of the block
    [if intent == 'CALCULATE_COST' or 'add' in user_message.lower()] runs;
    [FallThrough] goes on to the dispatch on the intent. *)
Inductive FirstBlock := AddBranch | RemoveBranch | FallThrough.

Definition first_block (intent_is_calculate_cost : bool) (user_message : string)
    (order_session : OrderSession.t) : FirstBlock :=
  if intent_is_calculate_cost || Py.contains "add" (Py.lower user_message) then
    if Py.contains "add" (Py.lower user_message) then AddBranch
    else if Py.contains "remove" (Py.lower user_message)
            && in_order_stage (OrderSession.status order_session)
    then RemoveBranch
    else FallThrough
  else FallThrough.

Definition remove_patterns : list string :=
  [ "remove\s+(.+?)$"; "delete\s+(.+?)$" ].

(** "Find matching item in cart". *)
Definition names_item (product_name : string) (item : CartItem.t) : bool :=
  Py.contains (Py.lower product_name) (Py.lower (CartItem.product_name item))
  || Py.contains (Py.upper product_name) (CartItem.product_code item).

(** [del l[i]] for an index in range. *)
Fixpoint remove_at {A} (i : nat) (l : list A) : list A :=
  match l, i with
  | [], _ => []
  | _ :: r, O => r
  | x :: r, S j => x :: remove_at j r
  end.

Inductive RemoveResponse :=
| ProductsRemoved (removed_items : list string) (cart : list CartItem.t) (final_total : Q)
| CartCleared
| NotFoundInCart
| RemoveFailed.

Section RemoveHandler.
Variable re_search : string -> string -> option (list string).

(** The remove branch on the cart dictionary of the session.  The item
    found is the first one that [names_item] accepts; [list.remove] deletes
    the first item equal to it, which is that item.  [RemoveFailed] is an
    exception: [IndexError] of [group(1)], or [KeyError] of ['total_cost']
    after the item was deleted.  The [item_total] of the line is subtracted
    from the running totals ([-=], here in exact arithmetic). *)
Definition remove_from_cart (user_message : string) (order_session : OrderSession.t)
  : OrderSession.t * RemoveResponse :=
  match first_match re_search remove_patterns (Py.lower user_message) with
  | None => (order_session, NotFoundInCart)
  | Some [] => (order_session, RemoveFailed)
  | Some (g1 :: _) =>
    let product_name := Py.strip g1 in
    let items := OrderSession.items order_session in
    match find_index (names_item product_name) items with
    | None => (order_session, NotFoundInCart)
    | Some i =>
      match List.nth_error items i with
      | None => (order_session, NotFoundInCart)
      | Some item_to_remove =>
        let items := remove_at i items in
        let order_session := OrderSession.set_items items order_session in
        match OrderSession.total_cost order_session with
        | None => (order_session, RemoveFailed)
        | Some total_cost =>
          let order_session :=
            OrderSession.set_totals
              (Some (total_cost - CartItem.item_total item_to_remove)%Q)
              (OrderSession.discount_applied order_session)
              (OrderSession.final_total order_session
               - CartItem.item_total item_to_remove)%Q
              order_session in
          match items with
          | [] => (OrderSession.set_status Status.idle order_session, CartCleared)
          | _ =>
            (order_session,
             ProductsRemoved [CartItem.product_name item_to_remove] items
               (OrderSession.final_total order_session))
          end
        end
      end
    end
  end.
End RemoveHandler.

(** *** The [TRACK_ORDER] intent *)

Definition order_id_patterns : list string := ["QB"; "order"; "track"].

(** [any(pattern in user_message.upper() for pattern in order_id_patterns)] *)
Definition has_order_id (user_message : string) : bool :=
  List.existsb (fun pattern => Py.contains pattern (Py.upper user_message))
    order_id_patterns.

End Chatbot.

(** ** Concrete inputs used in the statements below *)

(** The database with the sample catalogue in warehouse 1 and no orders. *)
Definition db0 : DB.t := DB.mk sample_products [] [].

(** A session whose cart holds 2 units of QB001, put there by the cart
    service. *)
Definition session_QB001_x2 : Session :=
  fst (EnhancedOrderService.add_item_to_cart sample_products "t1" "u1" "QB001" 2 1 ∅).

(** The same session after 1 more unit of QB001 was added. *)
Definition session_QB001_x2_x1 : Session :=
  fst (EnhancedOrderService.add_item_to_cart sample_products "t2" "u2" "QB001" 1 1
         session_QB001_x2).

(** A cart of the chat handler: two lines, the second above the stock of
    its product (200 units of QB003). *)
Definition lines_second_short : list CartLine.t :=
  [CartLine.mk "QB001" 2; CartLine.mk "QB003" 500].



(** The state after [confirm_cart] placed the order of the cart with 2 units
    of QB001 (the model method of the product does nothing here). *)
Definition confirmed_QB001_x2 : (Session * DB.t) * (option Order.t * Msg) :=
  EnhancedOrderService.confirm_cart (fun p => p) "QB-ORDER-1" 7 1 "user@example.com"
    (session_QB001_x2, db0).

(** What [re.search] returns on "add 1 quantum sensors": the first pattern
    of [add_patterns] matches with the groups "1" and "quantum sensors". *)
Definition re_search_add_1_quantum_sensors (pattern text : string)
  : option (list string) :=
  if String.eqb pattern "add\s+(\d+)\s+(.+?)(?:\s+to\s+cart)?$"
  then Some ["1"; "quantum sensors"] else None.

(** The line of a cart after [quantity] more units priced at [amount] were
    merged into it. *)
Definition merged_line (quantity : Z) (amount : Q) (item : CartItem.t) : CartItem.t :=
  CartItem.set_item_total (CartItem.item_total item + amount)%Q
    (CartItem.set_quantity (CartItem.quantity item + quantity) item).

(** The cart mutations: the three operations of the cart service and the add
    command of the chat. *)
Inductive CartOp :=
| AddItem (now uuid product_code : string) (quantity warehouse_id : Z)
| RemoveItem (now product_code : string)
| SetQuantity (now product_code : string) (new_quantity : Z)
| ChatAdd (now user_message : string) (warehouse : option Z)
| UpdateCart (now : string) (selected_products : list (string * Z)).

Section RunOps.
Variable re_search : string -> string -> option (list string).
Variable products : list Product.t.

Definition run_op (session : Session) (op : CartOp) : Session :=
  match op with
  | AddItem now uuid product_code quantity warehouse_id =>
    fst (EnhancedOrderService.add_item_to_cart products now uuid product_code quantity
           warehouse_id session)
  | RemoveItem now product_code =>
    fst (EnhancedOrderService.remove_item_from_cart now product_code session)
  | SetQuantity now product_code new_quantity =>
    fst (EnhancedOrderService.update_item_quantity products now product_code
           new_quantity session)
  | ChatAdd now user_message warehouse =>
    fst (Chatbot.process_add_message re_search products warehouse now user_message
           session)
  | UpdateCart now selected_products =>
    fst (Chatbot.update_cart products now selected_products session)
  end.

Definition run_ops (ops : list CartOp) (session : Session) : Session :=
  fold_left run_op ops session.
End RunOps.

(** [total_cost == sum of item_total] and [final_total == total_cost] on a
    cart. *)
Definition totals_reconcile (os : OrderSession.t) : Prop :=
  exists total_cost,
    OrderSession.total_cost os = Some total_cost /\
    (total_cost == sum_item_totals (OrderSession.items os))%Q /\
    (OrderSession.final_total os == total_cost)%Q.

(** The same on the cart of a session, if it has one. *)
Definition session_totals_reconcile (session : Session) : Prop :=
  match cart_of session with
  | Some os => totals_reconcile os
  | None => True
  end.

(** The session after [/api/cart/init] on a session without a cart
    ([initialize_cart_session]: the cart has the key ['total_amount'] and no
    key ['total_cost']) and then the chat message "add 1 quantum sensors". *)
Definition session_initialised_chat_add : Session :=
  run_ops re_search_add_1_quantum_sensors sample_products
    [ChatAdd "t1" "add 1 quantum sensors" (Some 1)]
    (EnhancedOrderService.initialize_cart_session "t0" "cart-1" ∅).

(** What pricing and lookup by code read of a product. *)
Definition pricing_view (p : Product.t)
  : Z * string * Q * option Q * option string :=
  (Product.id p, Product.product_code p, Product.price_of_product p,
   Product.discount p, Product.scheme p).

(** The order item that [create_order_from_cart] of the cart service writes
    for a line, priced on the product table [products]; no item when no
    product has the code. *)
Definition priced_line (products : list Product.t) (order_key : Z) (line : CartLine.t)
  : list OrderItem.t :=
  match get_product_by_code products (CartLine.product_code line) with
  | None => []
  | Some product =>
    let pricing_info :=
      get_product_pricing products (Product.id product) (CartLine.quantity line) in
    [OrderItem.mk order_key (Product.id product) (CartLine.product_code line)
       (CartLine.quantity line) (Pricing.final_price pricing_info)
       (Pricing.total_amount pricing_info)]
  end.

(** A line of the cart whose stored [final_price] and [item_total] are the
    pricing of its whole quantity on [products]. *)
Definition priced_for_whole_quantity (products : list Product.t) (item : CartItem.t)
  : Prop :=
  exists product,
    get_product_by_code products (CartItem.product_code item) = Some product /\
    let pricing_info :=
      get_product_pricing products (Product.id product) (CartItem.quantity item) in
    CartItem.final_price item = Pricing.final_price pricing_info /\
    CartItem.item_total item = Pricing.total_amount pricing_info.

(** What an order item charges and what a line of the cart shows. *)
Definition charged (oi : OrderItem.t) : string * Z * Q * Q :=
  (OrderItem.product_code oi, OrderItem.product_quantity_ordered oi,
   OrderItem.unit_price oi, OrderItem.total_price oi).

Definition shown (item : CartItem.t) : string * Z * Q * Q :=
  (CartItem.product_code item, CartItem.quantity item,
   CartItem.final_price item, CartItem.item_total item).

(** The chat handler places the order of the cart with 2 units of QB001, and
    of the cart grown to 3 units by a second add. *)
Definition finalized_QB001_x2 : (Session * DB.t) * Response :=
  Chatbot.finalize_order (fun p => p) "QB-ORDER-1" "t3" 7 1 (Some "Mumbai Central")
    "user@example.com" (session_QB001_x2, db0).

Definition finalized_QB001_x2_x1 : (Session * DB.t) * Response :=
  Chatbot.finalize_order (fun p => p) "QB-ORDER-1" "t3" 7 1 (Some "Mumbai Central")
    "user@example.com" (session_QB001_x2_x1, db0).

(** The database after the price of QB001 was raised from 2500 to 2600, and
    the chat handler placing on it the order of the cart with 2 units of
    QB001 that was priced before. *)
Definition db_QB001_repriced : DB.t :=
  DB.mk [sample_product 1 "QB001" "Quantum Processor" 2600 100 150 "Buy 2 Get 1 Free";
         QB002; QB003; QB004; QB005] [] [].

Definition finalized_QB001_x2_repriced : (Session * DB.t) * Response :=
  Chatbot.finalize_order (fun p => p) "QB-ORDER-1" "t3" 7 1 (Some "Mumbai Central")
    "user@example.com" (session_QB001_x2, db_QB001_repriced).

(** The cart of a session holds at most one line for each product code. *)
Definition codes_unique (session : Session) : Prop :=
  match cart_of session with
  | Some os => List.NoDup (List.map CartItem.product_code (OrderSession.items os))
  | None => True
  end.

(** The order item that [OrderService.create_order_from_cart] writes for a
    validated line: the base price for every unit. *)
Definition base_price_item (order_key : Z) (v : OrderService.validated) : OrderItem.t :=
  OrderItem.mk order_key (OrderService.v_product_id v) (OrderService.v_product_code v)
    (OrderService.v_quantity v) (OrderService.v_unit_price v)
    (inject_Z (OrderService.v_quantity v) * OrderService.v_unit_price v)%Q.

(** The order item that [confirm_cart] writes for a line of the cart: the
    [unit_price] of the line for every unit. *)
Definition unit_price_item (order_key : Z) (item : CartItem.t) (order_item : OrderItem.t)
  : Prop :=
  OrderItem.order_id order_item = order_key /\
  CartItem.product_id item = Some (OrderItem.product_id order_item) /\
  OrderItem.product_code order_item = CartItem.product_code item /\
  OrderItem.product_quantity_ordered order_item = CartItem.quantity item /\
  OrderItem.unit_price order_item = CartItem.unit_price item /\
  OrderItem.total_price order_item
  = (inject_Z (CartItem.quantity item) * CartItem.unit_price item)%Q.

(** A line passes the stock check of the cart service on its own. *)
Definition line_in_stock (products : list Product.t) (warehouse_id : Z)
    (line : CartLine.t) : Prop :=
  exists product,
    get_product_by_code_and_warehouse products (CartLine.product_code line) warehouse_id
      = Some product /\
    CartLine.quantity line <= Product.available_for_sale product.

(** What [_validate_cart_items] promises about an element of its result. *)
Definition valid_line (products : list Product.t) (warehouse_id : Z)
    (cart_items : list CartLine.t) (v : OrderService.validated) : Prop :=
  In (CartLine.mk (OrderService.v_product_code v) (OrderService.v_quantity v)) cart_items /\
  OrderService.v_product_code v <> "" /\
  0 < OrderService.v_quantity v /\
  exists product,
    get_product_by_code_and_warehouse products (OrderService.v_product_code v) warehouse_id
      = Some product /\
    OrderService.v_product_id v = Product.id product /\
    OrderService.v_unit_price v = Product.price_of_product product /\
    OrderService.v_quantity v <= Product.available_for_sale product.

(** The cart service places an order of 2 units of QB001 and 5 of QB003. *)
Definition placed_two_lines : DB.t * (option Order.t * Msg) :=
  EnhancedOrderService.create_order_from_cart (fun p => p) "QB-ORDER-1" 7
    [CartLine.mk "QB001" 2; CartLine.mk "QB003" 5] 1 (Some "Mumbai Central")
    "user@example.com" db0.

(** [OrderService] places an order from five lines of which two are valid. *)
Definition placed_valid_lines : DB.t * (option Order.t * Msg) :=
  OrderService.create_order_from_cart (fun p => p) "QB-ORDER-1" 7
    [CartLine.mk "QB001" 2; CartLine.mk "QB003" 500; CartLine.mk "QB009" 1;
     CartLine.mk "QB004" 0; CartLine.mk "QB005" 3] 1 (Some "Mumbai Central")
    "user@example.com" db0.

(** A session whose cart was filled by the chat handler: 1 unit of QB004. *)
Definition session_chat_QB004_x1 : Session :=
  fst (Chatbot.process_add_message re_search_add_1_quantum_sensors sample_products
         (Some 1) "t1" "add 1 quantum sensors" ∅).

(** The product QB001 in two warehouses, as [create_sample_products] makes
    it: the same code, one row for each warehouse. *)
Definition two_warehouses : list Product.t :=
  [QB001; Product.mk 6 "QB001" "Quantum Processor" 2 2500 (Some 150%Q)
            (Some "Buy 2 Get 1 Free") 100 0 100].

(** The key that the next order row gets is not in use. *)
Definition fresh_order_key (db : DB.t) : Prop :=
  let key := Z.of_nat (length (DB.orders db)) + 1 in
  Forall (fun o => Order.id o <> key) (DB.orders db) /\
  Forall (fun item => OrderItem.order_id item <> key) (DB.order_items db).

(** A product row without its stock figures. *)
Definition stock_blind (p : Product.t)
  : Z * string * string * Z * Q * option Q * option string :=
  (Product.id p, Product.product_code p, Product.product_name p, Product.warehouse_id p,
   Product.price_of_product p, Product.discount p, Product.scheme p).

(** The sample catalogue with nothing of QB004 left for sale. *)
Definition sold_out_QB004 : list Product.t :=
  List.map (fun p => if String.eqb (Product.product_code p) "QB004"
                     then Product.set_available_for_sale 0 p else p)
    sample_products.

(** The chat handler places an order from the conversation (1 unit of
    QB004) in the session whose cart, with 2 units of QB001, was confirmed
    before. *)
Definition placed_from_conversation : option ((Session * DB.t) * Response) :=
  Chatbot.finalize_from_conversation (fun p => p) "t6" (Some [CartLine.mk "QB004" 1])
    "QB-ORDER-2" 7 1 (Some "Mumbai Central") "user@example.com"
    (fst confirmed_QB001_x2).

(** ** Onboarding: the first part of [process_message] *)

Module Onboarding.

(** The values that the handler writes under ['onboarding_state']. *)
Inductive State :=
| ask_name | get_name | ask_email | ask_phone | await_otp | ask_warehouse | completed.

(** The dictionary under ['onboarding']. *)
Record Details := mk_details {
  name : option string;
  email : option string;
  phone : option string
}.

(** The keys of the session that the onboarding reads and writes; [None] is
    a key that is absent. *)
Record t := mk {
  onboarding_state : option State;
  onboarding : option Details;
  user_id : option Z;
  warehouse_location : option string;
  session_id : option string
}.

Definition empty : t := mk None None None None None.

(** A request, with what the handler takes from outside while it serves it:
    the answer of [get_user_by_email] for the stored address, the id of the
    user that [create_user] would make, the answer of [verify_otp] for the
    message, and the id of the chat session that [create_chat_session]
    would make. *)
Record Request := mk_request {
  message : string;
  user_by_email : option Z;
  created_user : Z;
  otp_verifies : bool;
  chat_session_id : string
}.

(** [MainFlow] stands for the rest of the handler, run for the user of the
    session; [Failed] is the answer of the [except] clause. *)
Inductive Reply :=
| MessageEmpty
| AskName
| AskEmail
| AskPhone
| OtpSent (user : Z)
| InvalidOtp
| EmailVerified
| WarehouseSet
| WarehouseError
| CompleteOnboardingFirst
| MainFlow (user : Z)
| Failed.

Definition set_state (v : State) (s : t) : t :=
  mk (Some v) (onboarding s) (user_id s) (warehouse_location s) (session_id s).
Definition set_onboarding (v : Details) (s : t) : t :=
  mk (onboarding_state s) (Some v) (user_id s) (warehouse_location s) (session_id s).

(** The onboarding part of [process_message].  An assignment to a key of an
    inner dictionary reaches the stored session when the request also
    assigned a key of the session itself; [assigned] records that for the
    two defaults at the top. *)
Definition process_message (request : Request) (session : t) : t * Reply :=
  let user_message := Py.strip (message request) in
  if negb (Py.truthy_str user_message) then (session, MessageEmpty)
  else
    let state :=
      match onboarding_state session with
      | Some state => state
      | None => ask_name
      end in
    let details :=
      match onboarding session with
      | Some details => details
      | None => mk_details None None None
      end in
    let assigned :=
      match onboarding_state session, onboarding session with
      | Some _, Some _ => false
      | _, _ => true
      end in
    let session1 := set_onboarding details (set_state state session) in
    match state with
    | ask_name => (set_state get_name session1, AskName)
    | get_name =>
      let details :=
        mk_details (Some (String.substring 0 100 user_message)) (email details)
          (phone details) in
      (set_state ask_email (set_onboarding details session1), AskEmail)
    | ask_email =>
      let details :=
        mk_details (name details) (Some (String.substring 0 120 user_message))
          (phone details) in
      (set_state ask_phone (set_onboarding details session1), AskPhone)
    | ask_phone =>
      let details :=
        mk_details (name details) (email details)
          (Some (String.substring 0 50 user_message)) in
      match name details, email details with
      | Some _, Some _ =>
        let user :=
          match user_by_email request with
          | Some user => user
          | None => created_user request
          end in
        (set_state await_otp (set_onboarding details session1), OtpSent user)
      | _, _ =>
        (if assigned then set_onboarding details session1 else session, Failed)
      end
    | await_otp =>
      match email details with
      | None => (session1, Failed)
      | Some _ =>
        match user_by_email request with
        | Some _ =>
          if otp_verifies request
          then (set_state ask_warehouse session1, EmailVerified)
          else (session1, InvalidOtp)
        | None => (session1, InvalidOtp)
        end
      end
    | ask_warehouse =>
      match email details with
      | None => (session1, Failed)
      | Some _ =>
        match user_by_email request with
        | Some user =>
          (mk (Some completed) (Some details) (Some user) (Some user_message)
             (Some (chat_session_id request)),
           WarehouseSet)
        | None => (session1, WarehouseError)
        end
      end
    | completed =>
      match user_id session with
      | Some user =>
        if user =? 0 then (session1, CompleteOnboardingFirst)
        else (session1, MainFlow user)
      | None => (session1, CompleteOnboardingFirst)
      end
    end.

(** The handler on a sequence of requests: the session at the end and the
    answers, the latest first. *)
Definition run (requests : list Request) (session : t) : t * list Reply :=
  fold_left
    (fun acc request =>
       let '(session, replies) := acc in
       let '(session, reply) := process_message request session in
       (session, reply :: replies))
    requests (session, []).

End Onboarding.

(** A request passed the check of the one-time password. *)
Definition otp_accepted (request : Onboarding.Request) : Prop :=
  Onboarding.otp_verifies request = true /\ Onboarding.user_by_email request <> None.

(** The fields of the onboarding dictionary are within their lengths. *)
Definition details_within_lengths (session : Onboarding.t) : Prop :=
  match Onboarding.onboarding session with
  | None => True
  | Some details =>
    (forall s, Onboarding.name details = Some s -> (String.length s <= 100)%nat) /\
    (forall s, Onboarding.email details = Some s -> (String.length s <= 120)%nat) /\
    (forall s, Onboarding.phone details = Some s -> (String.length s <= 50)%nat)
  end.

(** Six requests that take a new visitor through the onboarding. *)
Definition six_requests : list Onboarding.Request :=
  [Onboarding.mk_request "hello" None 7 false "s1";
   Onboarding.mk_request "Asha" None 7 false "s1";
   Onboarding.mk_request "asha@example.com" None 7 false "s1";
   Onboarding.mk_request "5550100" None 7 false "s1";
   Onboarding.mk_request "123456" (Some 7) 7 true "s1";
   Onboarding.mk_request "Mumbai Central" (Some 7) 7 false "s1"].

(** What the handler relies on in each state. *)
Definition onboarding_consistent (session : Onboarding.t) : Prop :=
  match Onboarding.onboarding_state session with
  | None => Onboarding.onboarding session = None /\ Onboarding.user_id session = None
  | Some state =>
    exists details,
      Onboarding.onboarding session = Some details /\
      match state with
      | Onboarding.ask_name | Onboarding.get_name => Onboarding.user_id session = None
      | Onboarding.ask_email =>
        Onboarding.name details <> None /\ Onboarding.user_id session = None
      | Onboarding.ask_phone | Onboarding.await_otp | Onboarding.ask_warehouse =>
        Onboarding.name details <> None /\ Onboarding.email details <> None /\
        Onboarding.user_id session = None
      | Onboarding.completed => Onboarding.user_id session <> None
      end
  end.

(** The number of requests it takes to reach a state. *)
Definition onboarding_rank (session : Onboarding.t) : nat :=
  match Onboarding.onboarding_state session with
  | None | Some Onboarding.ask_name => 0
  | Some Onboarding.get_name => 1
  | Some Onboarding.ask_email => 2
  | Some Onboarding.ask_phone => 3
  | Some Onboarding.await_otp => 4
  | Some Onboarding.ask_warehouse => 5
  | Some Onboarding.completed => 6
  end.

(** * Properties *)

(** ** Pricing: paid and free quantities *)

Section SchemeArithmetic.
Variable price : Q.

Lemma apply_scheme_buy2_get1 (q : Z) :
  2 <= q ->
  apply_scheme (Some "Buy 2 Get 1 Free") q price =
  (price,
   q / 3 * 2 + (if 2 <=? q mod 3 then q mod 3 else if q mod 3 =? 1 then 1 else 0),
   q / 3 * 1).
Proof.
  intros Hq. unfold apply_scheme.
  replace (Py.contains "Buy 3 Get 2 Free" "Buy 2 Get 1 Free") with false
    by (vm_compute; reflexivity).
  replace (Py.contains "Buy 2 Get 1 Free" "Buy 2 Get 1 Free") with true
    by (vm_compute; reflexivity).
  cbn [Py.truthy_str negb andb].
  destruct (Z.leb_spec 2 q) as [_|Hlt]; [|lia].
  destruct (2 <=? q mod 3); [reflexivity|].
  destruct (q mod 3 =? 1); [reflexivity|].
  f_equal. f_equal. lia.
Qed.

Lemma apply_scheme_buy3_get2 (q : Z) :
  3 <= q ->
  apply_scheme (Some "Buy 3 Get 2 Free") q price =
  if 3 <=? q mod 5
  then (price, q / 5 * 3 + 3, q / 5 * 2 + 2)
  else (price, q / 5 * 3 + q mod 5, q / 5 * 2).
Proof.
  intros Hq. unfold apply_scheme.
  replace (Py.contains "Buy 3 Get 2 Free" "Buy 3 Get 2 Free") with true
    by (vm_compute; reflexivity).
  cbn [Py.truthy_str negb andb].
  destruct (Z.leb_spec 3 q) as [_|Hlt]; [|lia].
  reflexivity.
Qed.

(** "Buy 2 Get 1 Free" splits the requested quantity into paid and free
    units, at every quantity that reaches the threshold. *)
Lemma buy2_get1_partition (q : Z) :
  2 <= q ->
  let '(_, paid_quantity, free_quantity) :=
    apply_scheme (Some "Buy 2 Get 1 Free") q price in
  paid_quantity + free_quantity = q.
Proof.
  intros Hq. rewrite apply_scheme_buy2_get1 by exact Hq.
  pose proof (Z.div_mod q 3 ltac:(lia)) as Hdm.
  pose proof (Z.mod_pos_bound q 3 ltac:(lia)) as Hb.
  destruct (Z.leb_spec 2 (q mod 3)); [lia|].
  destruct (Z.eqb_spec (q mod 3) 1); lia.
Qed.

(** "Buy 3 Get 2 Free" reports [q] units when the remainder of [q] by 5
    is below 3, and the next multiple of 5 otherwise. *)
Lemma buy3_get2_sum (q : Z) :
  3 <= q ->
  let '(_, paid_quantity, free_quantity) :=
    apply_scheme (Some "Buy 3 Get 2 Free") q price in
  paid_quantity + free_quantity =
  if 3 <=? q mod 5 then q - q mod 5 + 5 else q.
Proof.
  intros Hq. rewrite apply_scheme_buy3_get2 by exact Hq.
  pose proof (Z.div_mod q 5 ltac:(lia)) as Hdm.
  destruct (3 <=? q mod 5); lia.
Qed.
End SchemeArithmetic.

(** C1 (the code departs from the claim).  For the catalogue product QB003,
    whose scheme is "Buy 3 Get 2 Free", a request for 3 units is priced with
    [paid_quantity = 3] and [free_quantity = 2] while [total_quantity] is 3:
    paid and free units add up to 5, not to the requested quantity. *)
Theorem C1_buy3_get2_free_overcounts :
  let pricing := get_product_pricing sample_products 3 3 in
  Pricing.paid_quantity pricing = 3 /\
  Pricing.free_quantity pricing = 2 /\
  Pricing.total_quantity pricing = 3 /\
  Pricing.paid_quantity pricing + Pricing.free_quantity pricing <> 3.
Proof. vm_compute. repeat split; congruence. Qed.

(** At the level of [get_product_pricing]: a product labelled
    "Buy 2 Get 1 Free" is priced with paid and free units that add up to the
    request (also on the fallback path of the handler). *)
Lemma pricing_buy2_get1_partition (products : list Product.t) (pid q : Z)
    (product : Product.t) :
  query_get products pid = Some product ->
  Product.scheme product = Some "Buy 2 Get 1 Free" ->
  2 <= q ->
  let pricing := get_product_pricing products pid q in
  Pricing.paid_quantity pricing + Pricing.free_quantity pricing = q.
Proof.
  intros Hget Hs Hq. unfold get_product_pricing. rewrite Hget.
  unfold pricing_try. rewrite Hs. cbn [Py.truthy_str].
  destruct (_ && _)%bool; [cbn; lia|].
  pose proof (buy2_get1_partition
                (Product.price_of_product product
                 - match Product.discount product with
                   | Some d => if Py.truthy_Q d then d else 0
                   | None => 0
                   end)%Q q Hq) as Hp.
  destruct (apply_scheme _ _ _) as [[fp paid] free]. cbn. exact Hp.
Qed.

(** A product labelled "Buy 3 Get 2 Free" whose pricing does not fall back
    is priced with more paid and free units than requested whenever the
    remainder of the quantity by 5 is 3 or 4. *)
Lemma pricing_buy3_get2_overcounts (products : list Product.t) (pid q : Z)
    (product : Product.t) (pricing : Pricing.t) :
  query_get products pid = Some product ->
  Product.scheme product = Some "Buy 3 Get 2 Free" ->
  pricing_try product q = Some pricing ->
  3 <= q -> 3 <= q mod 5 ->
  get_product_pricing products pid q = pricing /\
  Pricing.total_quantity pricing = q /\
  Pricing.paid_quantity pricing + Pricing.free_quantity pricing = q - q mod 5 + 5.
Proof.
  intros Hget Hs Htry Hq Hrem. unfold get_product_pricing. rewrite Hget, Htry.
  split; [reflexivity|]. revert Htry. unfold pricing_try. rewrite Hs.
  cbn [Py.truthy_str]. destruct (_ && _)%bool; [discriminate|].
  pose proof (buy3_get2_sum
                (Product.price_of_product product
                 - match Product.discount product with
                   | Some d => if Py.truthy_Q d then d else 0
                   | None => 0
                   end)%Q q Hq) as Hp.
  destruct (apply_scheme _ _ _) as [[fp paid] free].
  destruct (Z.leb_spec 3 (q mod 5)); [|lia].
  intros [= <-]. cbn. auto.
Qed.

(** ** Inventory: the bulk decrement *)

Lemma find_index_nth_error {A} (f : A -> bool) (l : list A) (i : nat) :
  find_index f l = Some i -> exists x, List.nth_error l i = Some x /\ f x = true.
Proof.
  revert i. induction l as [|x r IH]; cbn; [discriminate|]. intros i.
  destruct (f x) eqn:E.
  - intros [= <-]. eauto.
  - destruct (find_index f r) as [j|]; cbn; [|discriminate].
    intros [= <-]. cbn. apply IH. reflexivity.
Qed.

Lemma map_update_first {A B} (v : A -> B) (f : A -> bool) (g : A -> A) (l : list A) :
  (forall x, v (g x) = v x) -> List.map v (update_first f g l) = List.map v l.
Proof.
  intros Hg. induction l as [|x r IH]; cbn; [reflexivity|].
  destruct (f x); cbn; rewrite ?Hg, ?IH; reflexivity.
Qed.

Lemma find_update_first_same {A} (f : A -> bool) (g : A -> A) (l : list A) :
  (forall x, f (g x) = f x) ->
  List.find f (update_first f g l) = option_map g (List.find f l).
Proof.
  intros Hg. induction l as [|x r IH]; cbn [List.find update_first]; [reflexivity|].
  destruct (f x) eqn:Hx; cbn [List.find]; [rewrite Hg, Hx; reflexivity|].
  rewrite Hx. exact IH.
Qed.




Section Decrement.
Variable update_available_quantity : Product.t -> Product.t.
Hypothesis update_keeps_code :
  forall p, Product.product_code (update_available_quantity p) = Product.product_code p.





End Decrement.



(** ** The quantity update of the cart service *)

Lemma nth_error_update_at_eq {A} (g : A -> A) (i : nat) (l : list A) :
  List.nth_error (update_at i g l) i = option_map g (List.nth_error l i).
Proof. revert i. induction l as [|x r IH]; intros [|j]; cbn; auto. Qed.

Lemma nth_error_update_at_ne {A} (g : A -> A) (i j : nat) (l : list A) :
  i <> j -> List.nth_error (update_at i g l) j = List.nth_error l j.
Proof.
  revert i j. induction l as [|x r IH]; intros [|i] [|j] H; cbn; auto; congruence.
Qed.


(** C6 (the code departs from the claim).  [update_item_quantity] answers
    "No active cart session" and leaves the session as it was whenever the
    session has no key ['order_code'], whatever the cart holds. *)
Theorem C6_update_item_quantity_rejects_without_order_code
    (products : list Product.t) (now product_code : string) (new_quantity : Z)
    (session : Session) :
  session !! "order_code" = None ->
  EnhancedOrderService.update_item_quantity products now product_code new_quantity session
  = (session, (false, NoActiveCart)).
Proof.
  intros H. unfold EnhancedOrderService.update_item_quantity. rewrite H. reflexivity.
Qed.

(** Witness for C6: the cart with 2 units of QB001; asking for 5 units
    changes nothing. *)
Lemma C6_witness :
  EnhancedOrderService.update_item_quantity sample_products "t9" "QB001" 5 session_QB001_x2
  = (session_QB001_x2, (false, NoActiveCart)) /\
  option_map (fun os => List.map CartItem.quantity (OrderSession.items os))
    (cart_of session_QB001_x2) = Some [2].
Proof.
  split.
  - apply C6_update_item_quantity_rejects_without_order_code. vm_compute. reflexivity.
  - vm_compute. reflexivity.
Defined.

(** X1.  No operation of the cart service writes the key ['order_code']. *)
Lemma cart_service_never_sets_order_code
    (products : list Product.t) (now uuid code : string) (q wid : Z) (session : Session) :
  fst (EnhancedOrderService.add_item_to_cart products now uuid code q wid session)
    !! "order_code" = session !! "order_code" /\
  fst (EnhancedOrderService.remove_item_from_cart now code session)
    !! "order_code" = session !! "order_code" /\
  fst (EnhancedOrderService.clear_cart now session)
    !! "order_code" = session !! "order_code" /\
  fst (EnhancedOrderService.force_clear_cart now session)
    !! "order_code" = session !! "order_code".
Proof.
  repeat split.
  - unfold EnhancedOrderService.add_item_to_cart.
    destruct (get_product_by_code_and_warehouse _ _ _); [|reflexivity].
    destruct (_ <? _); [reflexivity|].
    assert (Hinit : EnhancedOrderService.initialize_cart_session now uuid session
                      !! "order_code" = session !! "order_code").
    { unfold EnhancedOrderService.initialize_cart_session.
      destruct (session !! "order_session") as [[]|]; try reflexivity;
        rewrite lookup_insert_ne by discriminate; reflexivity. }
    destruct (session !! "order_session") as [v|] eqn:E.
    + rewrite E. destruct v; cbn; try reflexivity.
      rewrite lookup_insert_ne by discriminate. reflexivity.
    + destruct (EnhancedOrderService.initialize_cart_session now uuid session
                  !! "order_session") as [[]|]; cbn; try exact Hinit.
      rewrite lookup_insert_ne by discriminate. exact Hinit.
  - unfold EnhancedOrderService.remove_item_from_cart.
    destruct (session !! "order_session") as [[]|]; try reflexivity.
    destruct (Nat.eqb _ _); cbn; rewrite lookup_insert_ne by discriminate; reflexivity.
  - cbn. rewrite lookup_insert_ne by discriminate. reflexivity.
  - cbn. rewrite lookup_insert_ne by discriminate.
    rewrite lookup_delete_ne by discriminate. reflexivity.
Qed.

(** X2.  The route [/api/update-cart] replaces the quantity of
    a line and reprices the line for the new quantity. *)
Lemma update_cart_replaces_quantity
    (products : list Product.t) (now code : string) (quantity : Z)
    (session : Session) (os : OrderSession.t) (i : nat) (item : CartItem.t)
    (db_product : Product.t) :
  cart_of session = Some os ->
  find_index (has_code code) (OrderSession.items os) = Some i ->
  List.nth_error (OrderSession.items os) i = Some item ->
  get_product_by_code products code = Some db_product ->
  let pricing := get_product_pricing products (Product.id db_product) quantity in
  exists os',
    cart_of (fst (Chatbot.update_cart products now [(code, quantity)] session)) = Some os' /\
    List.nth_error (OrderSession.items os') i
    = Some (CartItem.set_pricing (Pricing.final_price pricing)
              (Pricing.discount_percentage pricing) (Pricing.scheme_name pricing)
              (Pricing.total_amount pricing) (CartItem.set_quantity quantity item)) /\
    forall j, j <> i ->
      List.nth_error (OrderSession.items os') j = List.nth_error (OrderSession.items os) j.
Proof.
  intros Hcart Hfind Hnth Hget pricing. unfold Chatbot.update_cart, cart_of in *.
  destruct (session !! "order_session") as [[o| |]|]; try discriminate.
  injection Hcart as ->. cbn [fst]. rewrite lookup_insert_eq.
  eexists. split; [reflexivity|].
  cbn [OrderSession.items OrderSession.set_last_updated OrderSession.set_totals
       OrderSession.set_items OrderSession.set_status fold_left Chatbot.select_product].
  rewrite Hget, Hfind. split.
  - rewrite nth_error_update_at_eq, Hnth. reflexivity.
  - intros j Hj. apply nth_error_update_at_ne. congruence.
Qed.

(** ** Finalisation and stock *)

Lemma validation_failure_on_short_line (products : list Product.t) (wid : Z)
    (lines : list CartLine.t) (item : CartLine.t) (product : Product.t) :
  In item lines ->
  get_product_by_code_and_warehouse products (CartLine.product_code item) wid
    = Some product ->
  Product.available_for_sale product < CartLine.quantity item ->
  exists msg, EnhancedOrderService.validation_failure products wid lines = Some msg.
Proof.
  intros Hin Hget Hshort. induction lines as [|l rest IH]; [contradiction|].
  cbn. destruct Hin as [->|Hin].
  - rewrite Hget. destruct (Z.ltb_spec (Product.available_for_sale product)
                              (CartLine.quantity item)); [eauto|lia].
  - destruct (get_product_by_code_and_warehouse products (CartLine.product_code l) wid)
      as [p|]; [|eauto].
    destruct (Product.available_for_sale p <? CartLine.quantity l); [eauto|].
    apply IH, Hin.
Qed.

(** X3.  The finaliser of the cart service is all-or-nothing: a line above the
    stock of its product aborts the call before anything is written. *)
Lemma enhanced_create_order_aborts_on_short_line
    (update_available_quantity : Product.t -> Product.t)
    (new_order_id : string) (user_id : Z) (cart_items : list CartLine.t)
    (warehouse_id : Z) (warehouse_location : option string) (user_email : string)
    (db : DB.t) (item : CartLine.t) (product : Product.t) :
  In item cart_items ->
  get_product_by_code_and_warehouse (DB.products db) (CartLine.product_code item)
    warehouse_id = Some product ->
  Product.available_for_sale product < CartLine.quantity item ->
  exists msg,
    EnhancedOrderService.create_order_from_cart update_available_quantity new_order_id
      user_id cart_items warehouse_id warehouse_location user_email db
    = (db, (None, msg)).
Proof.
  intros Hin Hget Hshort.
  destruct (validation_failure_on_short_line _ _ _ _ _ Hin Hget Hshort) as [msg Hmsg].
  unfold EnhancedOrderService.create_order_from_cart.
  destruct cart_items; [contradiction|]. rewrite Hmsg. eauto.
Qed.

(** C2 (the code departs from the claim).  [OrderService.create_order_from_cart]
    on a cart whose second line asks for 500 units of a product with 200 in
    stock: the order is created, with one order item for the first line. *)
Theorem C2_order_service_creates_partial_order
    (update_available_quantity : Product.t -> Product.t) :
  let '(db, (order, msg)) :=
    OrderService.create_order_from_cart update_available_quantity "QB-ORDER-1" 7
      lines_second_short 1 (Some "Mumbai Central") "user@example.com" db0 in
  (exists o, order = Some o /\ Order.status o = Some "confirmed") /\
  msg = OrderCreated /\
  length (DB.orders db) = 1%nat /\
  List.map (fun i => (OrderItem.product_code i, OrderItem.product_quantity_ordered i))
    (DB.order_items db) = [("QB001", 2)].
Proof. vm_compute. repeat split; eauto. Qed.

(** ** The add branch of the chat handler *)

Lemma map_update_at {A B} (f : A -> B) (g : A -> A) (i : nat) (l : list A) :
  (forall x, f (g x) = f x) -> List.map f (update_at i g l) = List.map f l.
Proof.
  intros Hg. revert i. induction l as [|x r IH]; intros [|j]; cbn;
    rewrite ?Hg, ?IH; reflexivity.
Qed.

Lemma length_update_at {A} (g : A -> A) (i : nat) (l : list A) :
  length (update_at i g l) = length l.
Proof. revert i. induction l as [|x r IH]; intros [|j]; cbn; rewrite ?IH; reflexivity. Qed.

Lemma firstn_map_same {A B} (f : A -> B) (l : list A) :
  List.firstn (length l) (List.map f l) = List.map f l.
Proof. rewrite <- (List.length_map f l). apply List.firstn_all. Qed.

Lemma firstn_map_app {A B} (f : A -> B) (l k : list A) :
  List.firstn (length l) (List.map f (l ++ k)%list) = List.map f l.
Proof.
  rewrite List.map_app, <- (List.length_map f l), List.firstn_app, List.firstn_all.
  rewrite Nat.sub_diag. cbn. apply List.app_nil_r.
Qed.

Lemma enter_add_branch_spec (os : OrderSession.t) :
  Chatbot.enter_add_branch os =
  if in_order_stage (OrderSession.status os) then os
  else OrderSession.set_pending_confirmation true
         (OrderSession.set_status Status.confirming os).
Proof. unfold Chatbot.enter_add_branch. destruct (OrderSession.status os); reflexivity. Qed.

(** The product block keeps the stage, the order id and the lines that were
    in the cart: a line is merged into or appended, never dropped. *)
Lemma add_product_keeps_cart (all_products : list Product.t) (product : Product.t)
    (quantity : Z) (os : OrderSession.t) :
  let os' := fst (Chatbot.add_product all_products product quantity os) in
  OrderSession.status os' = OrderSession.status os /\
  OrderSession.order_id os' = OrderSession.order_id os /\
  List.firstn (length (OrderSession.items os))
    (List.map CartItem.product_code (OrderSession.items os'))
  = List.map CartItem.product_code (OrderSession.items os).
Proof.
  unfold Chatbot.add_product.
  set (new_items := match find_index _ (OrderSession.items os) with
                    | Some i => _
                    | None => _
                    end).
  assert (Hcodes : List.firstn (length (OrderSession.items os))
                     (List.map CartItem.product_code new_items)
                   = List.map CartItem.product_code (OrderSession.items os)).
  { subst new_items. destruct (find_index _ _).
    - rewrite map_update_at by reflexivity. apply firstn_map_same.
    - apply firstn_map_app. }
  cbn [OrderSession.set_items OrderSession.total_cost].
  destruct (OrderSession.total_cost os); cbn; auto.
Qed.

Lemma add_product_not_clarification (all_products : list Product.t) (product : Product.t)
    (quantity : Z) (os : OrderSession.t) a b c :
  snd (Chatbot.add_product all_products product quantity os) <> CouldNotIdentify a b c.
Proof.
  unfold Chatbot.add_product. cbn [OrderSession.set_items OrderSession.total_cost].
  destruct (OrderSession.total_cost os); cbn; discriminate.
Qed.

Section AddBranch.
Variable re_search : string -> string -> option (list string).
Variables (all_products : list Product.t) (warehouse : option Z) (user_message : string).

(** Whatever the message, the add branch keeps the order id and the
    lines of the cart it is given, and leaves the cart in the stage set
    at the entry of the branch. *)
Lemma add_to_cart_keeps_cart (os : OrderSession.t) :
  let os' := fst (Chatbot.add_to_cart re_search all_products warehouse user_message os) in
  OrderSession.status os' = OrderSession.status (Chatbot.enter_add_branch os) /\
  OrderSession.order_id os' = OrderSession.order_id os /\
  List.firstn (length (OrderSession.items os))
    (List.map CartItem.product_code (OrderSession.items os'))
  = List.map CartItem.product_code (OrderSession.items os).
Proof.
  assert (Henter : OrderSession.order_id (Chatbot.enter_add_branch os)
                     = OrderSession.order_id os /\
                   OrderSession.items (Chatbot.enter_add_branch os)
                     = OrderSession.items os).
  { rewrite enter_add_branch_spec. destruct (in_order_stage _); split; reflexivity. }
  destruct Henter as [Hid Hitems].
  assert (Hsame : OrderSession.status (Chatbot.enter_add_branch os)
                    = OrderSession.status (Chatbot.enter_add_branch os) /\
                  OrderSession.order_id (Chatbot.enter_add_branch os)
                    = OrderSession.order_id os /\
                  List.firstn (length (OrderSession.items os))
                    (List.map CartItem.product_code
                       (OrderSession.items (Chatbot.enter_add_branch os)))
                  = List.map CartItem.product_code (OrderSession.items os)).
  { rewrite Hitems. repeat split; [exact Hid | apply firstn_map_same]. }
  unfold Chatbot.add_to_cart.
  destruct (Chatbot.first_match _ _ _) as [groups|]; [|exact Hsame].
  destruct (Chatbot.quantity_and_name groups) as [[quantity name]|]; [|exact Hsame].
  destruct (Chatbot.match_product _ _) as [product|]; [|exact Hsame].
  pose proof (add_product_keeps_cart all_products product quantity
                (Chatbot.enter_add_branch os)) as (Hst & Ho & Hl).
  rewrite Hitems in Hl. cbv zeta in *. rewrite Hst, Ho, Hid. auto.
Qed.

(** When the branch answers with the clarification, the cart it leaves is
    the cart as changed at the entry of the branch. *)
Lemma add_to_cart_clarification (os : OrderSession.t) a b c :
  snd (Chatbot.add_to_cart re_search all_products warehouse user_message os)
    = CouldNotIdentify a b c ->
  fst (Chatbot.add_to_cart re_search all_products warehouse user_message os)
    = Chatbot.enter_add_branch os.
Proof.
  unfold Chatbot.add_to_cart.
  destruct (Chatbot.first_match _ _ _) as [groups|]; [|reflexivity].
  destruct (Chatbot.quantity_and_name groups) as [[quantity name]|]; [|reflexivity].
  destruct (Chatbot.match_product _ _) as [product|]; [|reflexivity].
  intros H. exfalso. exact (add_product_not_clarification _ _ _ _ _ _ _ H).
Qed.
End AddBranch.

(** C8 (the code departs from the claim).  A message that contains "add"
    and is answered with the clarification leaves lines and totals of the
    cart alone, but a cart that was not in the stage [confirming] or
    [calculating] comes out in the stage [confirming] with
    [pending_confirmation] set: the stage has moved although nothing was
    added. *)
Theorem C8_unparsed_add_moves_stage
    (re_search : string -> string -> option (list string))
    (all_products : list Product.t) (warehouse : option Z) (user_message : string)
    (os : OrderSession.t) (shown : list (string * string)) (st : Status.t) (n : nat) :
  in_order_stage (OrderSession.status os) = false ->
  snd (Chatbot.add_to_cart re_search all_products warehouse user_message os)
    = CouldNotIdentify shown st n ->
  let os' := fst (Chatbot.add_to_cart re_search all_products warehouse user_message os) in
  OrderSession.status os' = Status.confirming /\
  OrderSession.status os' <> OrderSession.status os /\
  OrderSession.pending_confirmation os' = true /\
  OrderSession.items os' = OrderSession.items os /\
  OrderSession.total_cost os' = OrderSession.total_cost os /\
  OrderSession.final_total os' = OrderSession.final_total os.
Proof.
  intros Hstage Hresp. cbv zeta.
  rewrite (add_to_cart_clarification _ _ _ _ _ _ _ _ Hresp).
  rewrite enter_add_branch_spec, Hstage. cbn. repeat split.
  intros Heq. rewrite <- Heq in Hstage. discriminate.
Qed.

(** Witness for C8: "what is your address" contains "add", none of the
    three patterns matches it, and the idle cart of a new session comes out
    in the stage [confirming]. *)
Lemma C8_witness :
  let os := OrderSession.fresh "t0" in
  let result :=
    Chatbot.add_to_cart (fun _ _ => None) sample_products (Some 1)
      "what is your address" os in
  Py.contains "add" (Py.lower "what is your address") = true /\
  OrderSession.status os = Status.idle /\
  OrderSession.status (fst result) = Status.confirming /\
  OrderSession.status (fst result) <> OrderSession.status os /\
  OrderSession.pending_confirmation (fst result) = true /\
  OrderSession.items (fst result) = OrderSession.items os /\
  OrderSession.total_cost (fst result) = OrderSession.total_cost os /\
  OrderSession.final_total (fst result) = OrderSession.final_total os.
Proof.
  cbv zeta. split; [vm_compute; reflexivity|]. split; [reflexivity|].
  apply (C8_unparsed_add_moves_stage (fun _ _ => None) sample_products (Some 1)
           "what is your address" (OrderSession.fresh "t0")
           (List.map (fun p => (Product.product_name p, Product.product_code p))
              sample_products)
           Status.confirming 0%nat).
  - reflexivity.
  - vm_compute. reflexivity.
Defined.

(** ** After the order is placed *)

(** A successful [confirm_cart] leaves the cart of the session in the stage
    [completed], with the order id and with all its lines. *)
Lemma confirm_cart_success
    (update_available_quantity : Product.t -> Product.t)
    (new_order_id : string) (user_id warehouse_id : Z) (user_email : string)
    (session session' : Session) (db db' : DB.t) (order : Order.t) (msg : Msg) :
  EnhancedOrderService.confirm_cart update_available_quantity new_order_id user_id
    warehouse_id user_email (session, db) = ((session', db'), (Some order, msg)) ->
  exists os,
    cart_of session = Some os /\
    OrderSession.items os <> [] /\
    cart_of session' =
      Some (OrderSession.set_pending_confirmation false
              (OrderSession.set_order_id (Some (Order.order_id order))
                 (OrderSession.set_status Status.completed os))).
Proof.
  unfold EnhancedOrderService.confirm_cart, cart_of.
  destruct (session !! "order_session") as [[os| |]|] eqn:Hcart; try discriminate.
  destruct (OrderSession.items os) as [|item items] eqn:Hitems; [discriminate|].
  destruct (EnhancedOrderService.validation_failure _ _ _); [discriminate|].
  cbv beta iota zeta delta [DatabaseService.create_order].
  destruct (fold_left _ _ _) as [[db1 total]|]; [|discriminate].
  cbv beta iota zeta delta [DatabaseService.confirm_order].
  intros H. inversion H; subst. exists os. rewrite Hitems.
  split; [reflexivity|]. split; [discriminate|].
  rewrite lookup_insert_eq. reflexivity.
Qed.

(** C7 (the code departs from the claim).  Once [confirm_cart] has placed
    the order, the cart of the session is [completed] and still holds its
    lines; a following message that contains "add" is handled on that same
    cart: its stage becomes [confirming], its order id stays the id of the
    placed order and its lines are kept in front of whatever the message
    adds.  The cart is not reset and the message is not rejected. *)
Theorem C7_add_after_completed_keeps_cart
    (update_available_quantity : Product.t -> Product.t)
    (re_search : string -> string -> option (list string))
    (new_order_id : string) (user_id warehouse_id : Z) (user_email : string)
    (session session' : Session) (db db' : DB.t) (order : Order.t) (msg : Msg)
    (all_products : list Product.t) (warehouse : option Z) (now user_message : string) :
  EnhancedOrderService.confirm_cart update_available_quantity new_order_id user_id
    warehouse_id user_email (session, db) = ((session', db'), (Some order, msg)) ->
  exists os os',
    cart_of session' = Some os /\
    OrderSession.status os = Status.completed /\
    OrderSession.items os <> [] /\
    cart_of (fst (Chatbot.process_add_message re_search all_products warehouse now
                    user_message session')) = Some os' /\
    OrderSession.status os' = Status.confirming /\
    OrderSession.order_id os' = Some (Order.order_id order) /\
    List.firstn (length (OrderSession.items os))
      (List.map CartItem.product_code (OrderSession.items os'))
    = List.map CartItem.product_code (OrderSession.items os).
Proof.
  intros Hconfirm.
  destruct (confirm_cart_success _ _ _ _ _ _ _ _ _ _ _ Hconfirm) as (os0 & _ & Hne & Hcart).
  set (os := OrderSession.set_pending_confirmation false
               (OrderSession.set_order_id (Some (Order.order_id order))
                  (OrderSession.set_status Status.completed os0))) in *.
  pose proof (add_to_cart_keeps_cart re_search all_products warehouse user_message os)
    as (Hst & Hid & Hlines).
  exists os, (fst (Chatbot.add_to_cart re_search all_products warehouse user_message os)).
  split; [exact Hcart|]. split; [reflexivity|]. split; [exact Hne|].
  split.
  - unfold Chatbot.process_add_message, cart_of in *.
    destruct (session' !! "order_session") as [[o| |]|] eqn:E; try discriminate.
    injection Hcart as ->. rewrite E.
    destruct (Chatbot.add_to_cart _ _ _ _ _) as [o r]. cbn.
    rewrite lookup_insert_eq. reflexivity.
  - split; [exact Hst|]. split; [exact Hid|exact Hlines].
Qed.

(** X4.  The second [is_finalizing and has_order_session] test of the
    [PLACE_ORDER] intent never runs: the first one returned already. *)
Lemma second_finalization_branch_unreachable (has_session simple detailed finalizing : bool) :
  Chatbot.place_order_branch has_session simple detailed finalizing
  <> Chatbot.FinalizationThroughOrderService.
Proof. destruct has_session, simple, detailed, finalizing; discriminate. Qed.

(** The [PLACE_ORDER] intent starts from a fresh cart when the cart of the
    session is [completed]. *)
Lemma place_order_resets_completed_cart (now : string) (session : Session)
    (os : OrderSession.t) :
  OrderSession.status os = Status.completed ->
  let '(session', order_session, has_session) :=
    Chatbot.reset_if_completed now session os in
  cart_of session' = Some (OrderSession.fresh now) /\
  order_session = OrderSession.fresh now /\ has_session = false.
Proof.
  intros H. unfold Chatbot.reset_if_completed. rewrite H. cbn. unfold cart_of.
  rewrite lookup_insert_eq. auto.
Qed.

Lemma has_order_session_false (order_session : OrderSession.t) :
  Chatbot.has_order_session order_session = false ->
  OrderSession.items order_session = [].
Proof.
  unfold Chatbot.has_order_session.
  destruct (OrderSession.items order_session) as [|item items]; [reflexivity|].
  cbn. rewrite andb_true_r, orb_true_r. discriminate.
Qed.

(** X5.  The chat handler places an order from the conversation (branch
    [is_finalizing and not has_order_session]) only on a cart without lines:
    the cart of the session when it was not [completed], in which case it
    has no lines, and the fresh cart of [force_clear_cart] when it was.
    That cart is left in the session with status [completed] and the public
    id of the new order; it is not reset to an idle cart, as the finaliser
    of the cart does. *)
Lemma finalize_from_conversation_keeps_cart
    (update_available_quantity : Product.t -> Product.t) (now : string)
    (order_data : option (list CartLine.t)) (new_order_id : string)
    (user_id warehouse_id : Z) (warehouse_location : option string) (user_email : string)
    (session session' : Session) (db db' : DB.t) (order : Order.t)
    (order_items : list CartItem.t) :
  Chatbot.finalize_from_conversation update_available_quantity now order_data
    new_order_id user_id warehouse_id warehouse_location user_email (session, db)
  = Some ((session', db'), OrderPlaced order order_items) ->
  exists os,
    cart_of session = Some os /\
    let cart :=
      match OrderSession.status os with
      | Status.completed => OrderSession.fresh now
      | _ => os
      end in
    OrderSession.items cart = [] /\
    cart_of session'
    = Some (OrderSession.set_order_id (Some (Order.order_id order))
              (OrderSession.set_status Status.completed cart)).
Proof.
  unfold Chatbot.finalize_from_conversation, cart_of.
  destruct (session !! "order_session") as [[os| |]|]; try discriminate.
  unfold Chatbot.reset_if_completed.
  assert (Hgo : forall (session1 : Session) (cart : OrderSession.t),
             OrderSession.items cart = [] ->
             match order_data with
             | Some ((_ :: _) as cart_items) =>
               let '(db, (order, message)) :=
                 OrderService.create_order_from_cart update_available_quantity new_order_id
                   user_id cart_items warehouse_id warehouse_location user_email db in
               match order with
               | Some order =>
                 Some ((<["order_session" :=
                            VOrderSession
                              (OrderSession.set_order_id (Some (Order.order_id order))
                                 (OrderSession.set_status Status.completed cart))]>
                          session1, db),
                       OrderPlaced order [])
               | None => Some ((session1, db), OrderFailed message)
               end
             | _ => Some ((session1, db), NoOrderDetails)
             end = Some ((session', db'), OrderPlaced order order_items) ->
             OrderSession.items cart = [] /\
             match session' !! "order_session" with
             | Some (VOrderSession os') => Some os'
             | _ => None
             end
             = Some (OrderSession.set_order_id (Some (Order.order_id order))
                       (OrderSession.set_status Status.completed cart))).
  { intros session1 cart Hempty. destruct order_data as [[|l ls]|]; try discriminate.
    destruct (OrderService.create_order_from_cart _ _ _ _ _ _ _ _) as [db1 [[o|] m]];
      [|discriminate].
    intros H. inversion H; subst. split; [exact Hempty|].
    rewrite lookup_insert_eq. reflexivity. }
  intros H. exists os. split; [reflexivity|]. cbv zeta.
  destruct (OrderSession.status os) eqn:Hstatus;
    try (destruct (Chatbot.has_order_session os) eqn:Hhas; [discriminate|];
         exact (Hgo _ os (has_order_session_false os Hhas) H)).
  exact (Hgo _ (OrderSession.fresh now) eq_refl H).
Qed.

(** Witness for C7: the order of the cart with 2 units of QB001 is placed
    through [confirm_cart]; "add 1 quantum sensors" then lands in the same
    cart, behind the line of the placed order. *)
Lemma C7_witness :
  (exists os os',
    cart_of (fst (fst confirmed_QB001_x2)) = Some os /\
    OrderSession.status os = Status.completed /\
    OrderSession.items os <> [] /\
    cart_of (fst (Chatbot.process_add_message re_search_add_1_quantum_sensors
                    sample_products (Some 1) "t5" "add 1 quantum sensors"
                    (fst (fst confirmed_QB001_x2)))) = Some os' /\
    OrderSession.status os' = Status.confirming /\
    OrderSession.order_id os' = Some "QB-ORDER-1" /\
    List.firstn (length (OrderSession.items os))
      (List.map CartItem.product_code (OrderSession.items os'))
    = List.map CartItem.product_code (OrderSession.items os)) /\
  option_map (fun os => List.map (fun i => (CartItem.product_code i, CartItem.quantity i))
                          (OrderSession.items os))
    (cart_of (fst (Chatbot.process_add_message re_search_add_1_quantum_sensors
                     sample_products (Some 1) "t5" "add 1 quantum sensors"
                     (fst (fst confirmed_QB001_x2)))))
  = Some [("QB001", 2); ("QB004", 1)].
Proof.
  split.
  - apply (C7_add_after_completed_keeps_cart (fun p => p)
             re_search_add_1_quantum_sensors "QB-ORDER-1" 7 1 "user@example.com"
             session_QB001_x2 (fst (fst confirmed_QB001_x2))
             db0 (snd (fst confirmed_QB001_x2))
             (Order.mk 1 "QB-ORDER-1" 7 1 None "user@example.com" (Some 5000%Q)
                (Some "confirmed"))
             OrderConfirmed sample_products (Some 1) "t5" "add 1 quantum sensors").
    vm_compute. reflexivity.
  - vm_compute. reflexivity.
Defined.

(** X6.  When the chat handler itself places the order of the cart, it
    writes a fresh idle cart into the session. *)
Lemma finalize_order_resets_cart
    (update_available_quantity : Product.t -> Product.t)
    (new_order_id now : string) (user_id warehouse_id : Z)
    (warehouse_location : option string) (user_email : string)
    (session session' : Session) (db db' : DB.t) (order : Order.t)
    (order_items : list CartItem.t) :
  Chatbot.finalize_order update_available_quantity new_order_id now user_id warehouse_id
    warehouse_location user_email (session, db)
  = ((session', db'), OrderPlaced order order_items) ->
  cart_of session' = Some (OrderSession.fresh now).
Proof.
  unfold Chatbot.finalize_order.
  destruct (session !! "order_session") as [[os| |]|]; try discriminate.
  destruct (EnhancedOrderService.create_order_from_cart _ _ _ _ _ _ _ _)
    as [db1 [[o|] m]]; [|discriminate].
  cbn. intros H. inversion H; subst. unfold cart_of.
  rewrite lookup_insert_eq. reflexivity.
Qed.

(** ** Adding to a line that exists *)

(** C3 (the code departs from the claim).  When the cart has a line for the
    product at position [i], adding [quantity] more units leaves every other
    line alone and turns that line into the same line with the quantities
    added and with [item_total] raised by the amount priced for the added
    units alone; its [final_price] and the other pricing fields stay as they
    were, and nothing is priced for the whole quantity.  This holds for
    [add_item_to_cart] of the cart service and for the product block of the
    chat handler.  ([update_item_quantity] and [/api/update-cart], which set
    a quantity, price the line for its whole quantity.) *)
Theorem C3_add_to_existing_line_is_additive
    (products : list Product.t) (now uuid : string) (product_code : string)
    (quantity warehouse_id : Z) (session : Session) (os : OrderSession.t)
    (i : nat) (item : CartItem.t) (product : Product.t) :
  cart_of session = Some os ->
  find_index (has_code product_code) (OrderSession.items os) = Some i ->
  List.nth_error (OrderSession.items os) i = Some item ->
  get_product_by_code_and_warehouse products product_code warehouse_id = Some product ->
  quantity <= Product.available_for_sale product ->
  let amount :=
    Pricing.total_amount (get_product_pricing products (Product.id product) quantity) in
  (exists os',
      snd (EnhancedOrderService.add_item_to_cart products now uuid product_code quantity
             warehouse_id session) = (true, Added quantity (Product.product_name product)) /\
      cart_of (fst (EnhancedOrderService.add_item_to_cart products now uuid product_code
                      quantity warehouse_id session)) = Some os' /\
      List.nth_error (OrderSession.items os') i = Some (merged_line quantity amount item) /\
      forall j, j <> i ->
        List.nth_error (OrderSession.items os') j = List.nth_error (OrderSession.items os) j) /\
  (let os' := fst (Chatbot.add_product products product quantity os) in
   List.nth_error (OrderSession.items os') i = Some (merged_line quantity amount item) /\
   forall j, j <> i ->
     List.nth_error (OrderSession.items os') j = List.nth_error (OrderSession.items os) j).
Proof.
  intros Hcart Hfind Hnth Hget Hstock amount.
  assert (Hcode : Product.product_code product = product_code).
  { pose proof Hget as Hfound. apply List.find_some in Hfound as [_ Hb].
    apply andb_prop in Hb as [Hb _]. apply String.eqb_eq in Hb. exact Hb. }
  split.
  - unfold EnhancedOrderService.add_item_to_cart. rewrite Hget.
    destruct (Z.ltb_spec (Product.available_for_sale product) quantity); [lia|].
    unfold cart_of in Hcart.
    destruct (session !! "order_session") as [[o| |]|] eqn:E; try discriminate.
    injection Hcart as ->. rewrite E. fold (has_code product_code). rewrite Hfind.
    eexists. split; [reflexivity|]. split.
    + cbn. unfold cart_of. rewrite lookup_insert_eq. reflexivity.
    + cbn. split.
      * rewrite nth_error_update_at_eq, Hnth. reflexivity.
      * intros j Hj. apply nth_error_update_at_ne. congruence.
  - unfold Chatbot.add_product. rewrite Hcode. fold (has_code product_code).
    rewrite Hfind. cbn [OrderSession.set_items OrderSession.total_cost].
    destruct (OrderSession.total_cost os); cbn; split;
      try (rewrite nth_error_update_at_eq, Hnth; reflexivity);
      intros j Hj; apply nth_error_update_at_ne; congruence.
Qed.

(** Witness for C3: one more unit of QB001 added to the cart that holds 2
    units: the line holds 3 units at 4700 + 2350. *)
Lemma C3_witness :
  exists item,
    option_map OrderSession.items (cart_of session_QB001_x2) = Some [item] /\
    option_map OrderSession.items (cart_of session_QB001_x2_x1)
      = Some [merged_line 1 2350 item] /\
    CartItem.quantity (merged_line 1 2350 item) = 3 /\
    CartItem.item_total (merged_line 1 2350 item) = 7050%Q /\
    CartItem.final_price (merged_line 1 2350 item) = 2350%Q.
Proof.
  set (item := CartItem.mk (Some 1) "QB001" "Quantum Processor" 2 2500 2350 6
                 (Some "Buy 2 Get 1 Free") 4700 (Some "t1")).
  exists item.
  assert (Hcart : exists os, cart_of session_QB001_x2 = Some os /\
                             OrderSession.items os = [item]).
  { eexists. split; vm_compute; reflexivity. }
  destruct Hcart as (os & Hcart & Hitems).
  destruct (C3_add_to_existing_line_is_additive sample_products "t2" "u2" "QB001" 1 1
              session_QB001_x2 os 0%nat item QB001 Hcart)
    as [(os' & _ & Hcart' & H0 & _) _].
  - rewrite Hitems. reflexivity.
  - rewrite Hitems. reflexivity.
  - reflexivity.
  - vm_compute. discriminate.
  - rewrite Hcart. cbn. rewrite Hitems. split; [reflexivity|].
    split; [vm_compute; reflexivity|]. vm_compute. repeat split.
Defined.

(** C3, at the failing input.  After 2 units and then 1 unit of QB001 were
    added, the line holds 3 units with [item_total] 7050, while the scheme
    priced for 3 units gives 4700. *)
Lemma C3_counterexample :
  exists os item,
    cart_of session_QB001_x2_x1 = Some os /\
    OrderSession.items os = [item] /\
    CartItem.quantity item = 3 /\
    (CartItem.item_total item == 7050)%Q /\
    (Pricing.total_amount (get_product_pricing sample_products 1 3) == 4700)%Q /\
    ~ (CartItem.item_total item
       == Pricing.total_amount (get_product_pricing sample_products 1 3))%Q.
Proof.
  eexists. eexists. split; [vm_compute; reflexivity|].
  split; [reflexivity|]. split; [reflexivity|].
  split; [reflexivity|]. split; [vm_compute; reflexivity|].
  vm_compute. discriminate.
Qed.

(** ** Adding a product and removing it again *)

Lemma find_index_none_filter {A} (f : A -> bool) (l : list A) :
  find_index f l = None -> List.filter (fun x => negb (f x)) l = l.
Proof.
  induction l as [|x r IH]; cbn; [reflexivity|].
  destruct (f x); [discriminate|]. cbn.
  destruct (find_index f r); [discriminate|]. intros _. rewrite IH; reflexivity.
Qed.

Lemma filter_no_line (product_code : string) (items : list CartItem.t) :
  find_index (has_code product_code) items = None ->
  List.filter (fun item => negb (String.eqb (CartItem.product_code item) product_code))
    items = items.
Proof. exact (find_index_none_filter (has_code product_code) items). Qed.

(** C9, as amended.  For a session whose cart has no line for the product
    and whose totals are the ones computed from its lines, adding an
    available product and removing it at once gives back the same session,
    with the same lines and totals; only [last_updated] holds the time of
    the removal.  Both calls succeed. *)
Theorem C9_add_then_remove_restores_cart
    (products : list Product.t) (now_add uuid now_remove product_code : string)
    (quantity warehouse_id : Z) (session : Session) (os : OrderSession.t)
    (product : Product.t) :
  cart_of session = Some os ->
  find_index (has_code product_code) (OrderSession.items os) = None ->
  EnhancedOrderService._recalculate_cart_totals os = os ->
  get_product_by_code_and_warehouse products product_code warehouse_id = Some product ->
  quantity <= Product.available_for_sale product ->
  let added :=
    EnhancedOrderService.add_item_to_cart products now_add uuid product_code quantity
      warehouse_id session in
  let removed :=
    EnhancedOrderService.remove_item_from_cart now_remove product_code (fst added) in
  snd added = (true, Added quantity (Product.product_name product)) /\
  snd removed = (true, Removed product_code) /\
  fst removed
  = <["order_session" := VOrderSession (OrderSession.set_last_updated now_remove os)]>
      session.
Proof.
  intros Hcart Hfind Htotals Hget Hstock. cbv zeta.
  unfold EnhancedOrderService.add_item_to_cart. rewrite Hget.
  destruct (Z.ltb_spec (Product.available_for_sale product) quantity); [lia|].
  unfold cart_of in Hcart.
  destruct (session !! "order_session") as [[o| |]|] eqn:E; try discriminate.
  injection Hcart as ->. rewrite E. fold (has_code product_code). rewrite Hfind.
  cbn [fst snd]. split; [reflexivity|].
  unfold EnhancedOrderService.remove_item_from_cart. rewrite lookup_insert_eq.
  cbn [OrderSession.items OrderSession.set_items OrderSession.set_last_updated
       EnhancedOrderService._recalculate_cart_totals OrderSession.set_totals].
  fold (has_code product_code).
  rewrite List.filter_app, (filter_no_line _ _ Hfind).
  cbn [List.filter CartItem.product_code]. rewrite String.eqb_refl.
  cbn [negb]. rewrite List.app_nil_r, List.length_app. cbn [length].
  destruct (Nat.eqb_spec (length (OrderSession.items os))
              (length (OrderSession.items os) + 1)); [lia|].
  cbn [fst snd]. split; [reflexivity|].
  rewrite insert_insert_eq. f_equal. f_equal.
  destruct os as [st items tc da ft oid cid lu pc].
  unfold EnhancedOrderService._recalculate_cart_totals in Htotals.
  cbn in Htotals |- *. injection Htotals as Htc Hda Hft.
  rewrite <- Htc at 2. rewrite <- Hda at 2. rewrite <- Hft at 2. reflexivity.
Qed.

(** Witness for C9: 4 Quantum Sensors added to and removed from the cart
    that holds 2 units of QB001. *)
Lemma C9_witness :
  exists os,
    cart_of session_QB001_x2 = Some os /\
    fst (EnhancedOrderService.remove_item_from_cart "t3" "QB004"
           (fst (EnhancedOrderService.add_item_to_cart sample_products "t2" "u2" "QB004" 4 1
                   session_QB001_x2)))
    = <["order_session" := VOrderSession (OrderSession.set_last_updated "t3" os)]>
        session_QB001_x2.
Proof.
  assert (Hcart : exists os, cart_of session_QB001_x2 = Some os /\
                    find_index (has_code "QB004") (OrderSession.items os) = None /\
                    EnhancedOrderService._recalculate_cart_totals os = os).
  { eexists. split; [vm_compute; reflexivity|]. split; vm_compute; reflexivity. }
  destruct Hcart as (os & Hcart & Hnone & Htot). exists os. split; [exact Hcart|].
  apply (C9_add_then_remove_restores_cart sample_products "t2" "u2" "t3" "QB004" 4 1
           session_QB001_x2 os QB004 Hcart Hnone Htot).
  - reflexivity.
  - vm_compute. discriminate.
Defined.

(** C9, counterexample.  The cart holds 2 units of QB001; 1 more unit is
    added and QB001 is removed: both calls succeed and the cart is empty,
    not the cart with 2 units it was before. *)
Lemma C9_counterexample :
  let added :=
    EnhancedOrderService.add_item_to_cart sample_products "t2" "u2" "QB001" 1 1
      session_QB001_x2 in
  let removed := EnhancedOrderService.remove_item_from_cart "t3" "QB001" (fst added) in
  fst (snd added) = true /\ fst (snd removed) = true /\
  option_map (fun os => List.map (fun i => (CartItem.product_code i, CartItem.quantity i))
                          (OrderSession.items os)) (cart_of session_QB001_x2)
    = Some [("QB001", 2)] /\
  option_map (fun os => List.map (fun i => (CartItem.product_code i, CartItem.quantity i))
                          (OrderSession.items os)) (cart_of (fst removed))
    = Some [] /\
  option_map OrderSession.total_cost (cart_of session_QB001_x2) = Some (Some 4700%Q) /\
  option_map OrderSession.total_cost (cart_of (fst removed)) = Some (Some 0%Q).
Proof. vm_compute. repeat split. Qed.

(** ** Totals of the cart *)

Lemma filter_same_length {A} (f : A -> bool) (l : list A) :
  length (List.filter f l) = length l -> List.filter f l = l.
Proof.
  induction l as [|x r IH]; [reflexivity|]. cbn. destruct (f x); cbn; intros Hlen.
  - rewrite IH by lia. reflexivity.
  - pose proof (List.filter_length_le f r). lia.
Qed.

(** [_recalculate_cart_totals] establishes the invariant, with the very sum. *)
Lemma recalculate_totals_exact (os : OrderSession.t) :
  let os' := EnhancedOrderService._recalculate_cart_totals os in
  OrderSession.total_cost os' = Some (sum_item_totals (OrderSession.items os')) /\
  OrderSession.final_total os' = sum_item_totals (OrderSession.items os').
Proof. split; reflexivity. Qed.

(** C5 (the code departs from the claim).  After [/api/cart/init] and one
    add command of the chat the totals do not reconcile: the cart holds the
    line of QB004 with [item_total] 1360, it has no [total_cost], and
    [final_total] is 0.  The chat handler adds each amount to running totals
    and fails on the missing key after the line was appended; the cart
    service recomputes the totals from the lines, which on this cart gives
    the sum. *)
Theorem C5_chat_add_on_initialised_cart_breaks_totals :
  ~ session_totals_reconcile session_initialised_chat_add /\
  exists os,
    cart_of session_initialised_chat_add = Some os /\
    List.map (fun item => (CartItem.product_code item, CartItem.quantity item,
                           CartItem.item_total item))
      (OrderSession.items os) = [("QB004", 1, 1360%Q)] /\
    OrderSession.status os = Status.confirming /\
    OrderSession.total_cost os = None /\
    OrderSession.final_total os = 0%Q /\
    ~ (OrderSession.final_total os == sum_item_totals (OrderSession.items os))%Q /\
    totals_reconcile (EnhancedOrderService._recalculate_cart_totals os).
Proof.
  split.
  - unfold session_totals_reconcile.
    destruct (cart_of session_initialised_chat_add) as [os|] eqn:Hcart;
      [|vm_compute in Hcart; discriminate].
    vm_compute in Hcart. injection Hcart as <-.
    intros (total_cost & Htotal & _). discriminate.
  - eexists. split; [vm_compute; reflexivity|].
    split; [reflexivity|]. split; [reflexivity|]. split; [reflexivity|].
    split; [reflexivity|]. split.
    + vm_compute. discriminate.
    + eexists. split; [reflexivity|]. split; reflexivity.
Qed.

(** ** Prices charged at finalisation *)

Lemma pricing_of_view (p p' : Product.t) (q : Z) :
  pricing_view p = pricing_view p' ->
  pricing_try p q = pricing_try p' q /\ pricing_fallback p q = pricing_fallback p' q.
Proof.
  unfold pricing_view, pricing_try, pricing_fallback.
  intros [= _ _ -> -> ->]. split; reflexivity.
Qed.

Lemma find_of_view (f : Product.t -> bool) (l l' : list Product.t) :
  (forall p p', pricing_view p = pricing_view p' -> f p = f p') ->
  List.map pricing_view l = List.map pricing_view l' ->
  option_map pricing_view (List.find f l) = option_map pricing_view (List.find f l').
Proof.
  intros Hf. revert l'. induction l as [|x r IH]; intros [|x' r'] H; try discriminate.
  - reflexivity.
  - cbn [List.map List.find] in H |- *.
    assert (Hx : pricing_view x = pricing_view x') by congruence.
    assert (Hr : List.map pricing_view r = List.map pricing_view r') by congruence.
    rewrite (Hf x x' Hx).
    destruct (f x'); [cbn; congruence | apply IH, Hr].
Qed.

Lemma get_product_pricing_of_view (l l' : list Product.t) (pid q : Z) :
  List.map pricing_view l = List.map pricing_view l' ->
  get_product_pricing l pid q = get_product_pricing l' pid q.
Proof.
  intros H. unfold get_product_pricing, query_get.
  pose proof (find_of_view (fun p => Product.id p =? pid) l l') as Hfind.
  destruct (List.find _ l) as [p|], (List.find _ l') as [p'|];
    cbn in Hfind; try reflexivity.
  - assert (Hv : pricing_view p = pricing_view p').
    { assert (Some (pricing_view p) = Some (pricing_view p')) as Hs; [|congruence].
      apply Hfind; [|exact H]. unfold pricing_view. intros a b [= -> _ _ _ _]. reflexivity. }
    destruct (pricing_of_view p p' q Hv) as [-> ->]. reflexivity.
  - exfalso. assert (Some (pricing_view p) = None) as Hc; [|discriminate].
    apply Hfind; [|exact H]. unfold pricing_view. intros a b [= -> _ _ _ _]. reflexivity.
  - exfalso. assert (None = Some (pricing_view p')) as Hc; [|discriminate].
    apply Hfind; [|exact H]. unfold pricing_view. intros a b [= -> _ _ _ _]. reflexivity.
Qed.

Lemma priced_line_of_view (l l' : list Product.t) (order_key : Z) (line : CartLine.t) :
  List.map pricing_view l = List.map pricing_view l' ->
  priced_line l order_key line = priced_line l' order_key line.
Proof.
  intros H. unfold priced_line, get_product_by_code.
  pose proof (find_of_view
                (fun p => String.eqb (Product.product_code p) (CartLine.product_code line))
                l l') as Hfind.
  assert (Hfind' := Hfind
            ltac:(unfold pricing_view; intros a b [= _ -> _ _ _]; reflexivity) H).
  destruct (List.find _ l) as [p|], (List.find _ l') as [p'|];
    cbn in Hfind'; try discriminate; [|reflexivity].
  assert (Hid : Product.id p = Product.id p').
  { assert (Hv : pricing_view p = pricing_view p') by congruence.
    unfold pricing_view in Hv. congruence. }
  rewrite Hid, (get_product_pricing_of_view l l' _ _ H). reflexivity.
Qed.

Section Charged.
Variable update_available_quantity : Product.t -> Product.t.

(** The model method changes stock figures only. *)
Hypothesis update_keeps_pricing :
  forall p, pricing_view (update_available_quantity p) = pricing_view p.

Lemma update_product_quantity_view (products : list Product.t) (line : string * Z) :
  List.map pricing_view
    (DatabaseService.update_product_quantity update_available_quantity products line)
  = List.map pricing_view products.
Proof.
  destruct line as [code q]. cbn. apply map_update_first. intros p.
  destruct (q <=? Product.available_for_sale p); [|reflexivity].
  rewrite update_keeps_pricing. reflexivity.
Qed.

Lemma add_priced_item_spec (products0 : list Product.t) (order : Order.t)
    (db : DB.t) (total : Q) (line : CartLine.t) :
  List.map pricing_view (DB.products db) = List.map pricing_view products0 ->
  let result :=
    EnhancedOrderService.add_priced_item update_available_quantity order (db, total) line in
  DB.order_items (fst result)
    = (DB.order_items db ++ priced_line products0 (Order.id order) line)%list /\
  List.map pricing_view (DB.products (fst result)) = List.map pricing_view products0 /\
  DB.orders (fst result) = DB.orders db.
Proof.
  intros Hview. cbv zeta.
  rewrite <- (priced_line_of_view _ _ (Order.id order) line Hview).
  unfold EnhancedOrderService.add_priced_item, priced_line.
  destruct (get_product_by_code (DB.products db) (CartLine.product_code line)) as [p|].
  - unfold DatabaseService.update_product_quantities, DatabaseService.add_order_item.
    cbn [fold_left fst snd DB.products DB.set_products DB.set_order_items
         DB.order_items DB.orders].
    rewrite update_product_quantity_view. auto.
  - cbn [fst]. rewrite List.app_nil_r. auto.
Qed.

Lemma add_priced_items_spec (products0 : list Product.t) (order : Order.t)
    (lines : list CartLine.t) (db : DB.t) (total : Q) :
  List.map pricing_view (DB.products db) = List.map pricing_view products0 ->
  let result :=
    fold_left (EnhancedOrderService.add_priced_item update_available_quantity order)
      lines (db, total) in
  DB.order_items (fst result)
    = (DB.order_items db
       ++ List.flat_map (priced_line products0 (Order.id order)) lines)%list /\
  DB.orders (fst result) = DB.orders db.
Proof.
  revert db total. induction lines as [|line lines IH]; intros db total Hview.
  - cbn. rewrite List.app_nil_r. auto.
  - cbn [fold_left List.flat_map].
    pose proof (add_priced_item_spec products0 order db total line Hview)
      as (Hitems & Hview' & Horders).
    destruct (EnhancedOrderService.add_priced_item _ order (db, total) line)
      as [db1 total1]. cbn [fst] in *.
    destruct (IH db1 total1 Hview') as [H1 H2]. cbv zeta in *.
    rewrite H1, H2, Hitems, Horders, List.app_assoc. auto.
Qed.

(** A successful [create_order_from_cart] of the cart service appends, for
    each line, the order item priced at that moment from the code and the
    quantity of the line. *)
Lemma create_order_from_cart_charges (new_order_id : string) (user_id : Z)
    (cart_items : list CartLine.t) (warehouse_id : Z)
    (warehouse_location : option string) (user_email : string)
    (db db' : DB.t) (order : Order.t) (msg : Msg) :
  EnhancedOrderService.create_order_from_cart update_available_quantity new_order_id
    user_id cart_items warehouse_id warehouse_location user_email db
  = (db', (Some order, msg)) ->
  DB.order_items db'
  = (DB.order_items db
     ++ List.flat_map (priced_line (DB.products db) (Order.id order)) cart_items)%list.
Proof.
  unfold EnhancedOrderService.create_order_from_cart.
  destruct cart_items as [|l0 ls]; [discriminate|].
  destruct (EnhancedOrderService.validation_failure _ _ _); [discriminate|].
  cbv beta iota zeta delta [DatabaseService.create_order].
  set (order0 := Order.mk _ new_order_id user_id warehouse_id warehouse_location
                   user_email None None).
  set (db1 := DB.set_orders _ db).
  pose proof (add_priced_items_spec (DB.products db) order0 (l0 :: ls) db1 0%Q eq_refl)
    as [Hitems _].
  cbv zeta in Hitems.
  destruct (fold_left _ (l0 :: ls) (db1, 0%Q)) as [db2 total]. cbn [fst] in Hitems.
  cbv beta iota zeta delta [DatabaseService.confirm_order].
  intros [= <- <- _]. cbn. exact Hitems.
Qed.
End Charged.

Lemma whole_quantity_lines_charged_as_shown (products : list Product.t) (order_key : Z)
    (items : list CartItem.t) :
  Forall (priced_for_whole_quantity products) items ->
  List.map charged
    (List.flat_map (priced_line products order_key)
       (List.map EnhancedOrderService.line_of_item items))
  = List.map shown items.
Proof.
  induction 1 as [|item items (product & Hget & Hfp & Htot) _ IH]; [reflexivity|].
  cbn [List.map List.flat_map]. rewrite List.map_app, IH.
  unfold priced_line at 1. cbn [EnhancedOrderService.line_of_item CartLine.product_code
                                 CartLine.quantity].
  rewrite Hget. cbv zeta in Hfp, Htot. unfold charged at 1, shown at 1.
  cbn. rewrite <- Hfp, <- Htot. reflexivity.
Qed.

(** C4, as amended.  When the chat handler places the order of the cart
    (and [update_available_quantity] changes stock figures only), the order
    gets one item for each line of the cart, whose unit price and total are
    the [final_price] and [total_amount] that [get_product_pricing] computes
    at that moment from the quantity of the line and the first product row
    that has its code; the [final_price] and [item_total] stored in the cart
    are not read.  The items charge what the lines show when every line
    stores that very pricing: the one of its whole quantity on the first
    product row with its code, as the table is at that moment. *)
Theorem C4_finalize_charges_recomputed_prices
    (update_available_quantity : Product.t -> Product.t)
    (new_order_id now : string) (user_id warehouse_id : Z)
    (warehouse_location : option string) (user_email : string)
    (session session' : Session) (db db' : DB.t) (order : Order.t)
    (order_items : list CartItem.t) :
  (forall p, pricing_view (update_available_quantity p) = pricing_view p) ->
  Chatbot.finalize_order update_available_quantity new_order_id now user_id warehouse_id
    warehouse_location user_email (session, db)
  = ((session', db'), OrderPlaced order order_items) ->
  exists os,
    cart_of session = Some os /\
    order_items = OrderSession.items os /\
    DB.order_items db'
    = (DB.order_items db
       ++ List.flat_map (priced_line (DB.products db) (Order.id order))
            (List.map EnhancedOrderService.line_of_item (OrderSession.items os)))%list /\
    (Forall (priced_for_whole_quantity (DB.products db)) (OrderSession.items os) ->
     List.map charged
       (List.flat_map (priced_line (DB.products db) (Order.id order))
          (List.map EnhancedOrderService.line_of_item (OrderSession.items os)))
     = List.map shown (OrderSession.items os)).
Proof.
  intros Hupd. unfold Chatbot.finalize_order, cart_of.
  destruct (session !! "order_session") as [[os| |]|]; try discriminate.
  destruct (EnhancedOrderService.create_order_from_cart _ _ _ _ _ _ _ _)
    as [db1 [[o|] m]] eqn:Hcreate; [|discriminate].
  cbn. intros H. inversion H; subst. exists os.
  split; [reflexivity|]. split; [reflexivity|]. split.
  - exact (create_order_from_cart_charges _ Hupd _ _ _ _ _ _ _ _ _ _ Hcreate).
  - apply whole_quantity_lines_charged_as_shown.
Qed.

(** Witness for C4: the cart with 2 units of QB001, added in one go, is
    placed as an order; the order item charges 2 units at 2350, 4700 in all,
    as the cart shows. *)
Lemma C4_witness :
  exists os,
    cart_of session_QB001_x2 = Some os /\
    DB.order_items (snd (fst finalized_QB001_x2))
      = [OrderItem.mk 1 1 "QB001" 2 2350 4700] /\
    List.map shown (OrderSession.items os) = [("QB001", 2, 2350%Q, 4700%Q)].
Proof.
  destruct (C4_finalize_charges_recomputed_prices (fun p => p) "QB-ORDER-1" "t3" 7 1
              (Some "Mumbai Central") "user@example.com"
              session_QB001_x2 (fst (fst finalized_QB001_x2))
              db0 (snd (fst finalized_QB001_x2))
              (Order.mk 1 "QB-ORDER-1" 7 1 (Some "Mumbai Central") "user@example.com"
                 (Some 4700%Q) (Some "confirmed"))
              [CartItem.mk (Some 1) "QB001" "Quantum Processor" 2 2500 2350 6
                 (Some "Buy 2 Get 1 Free") 4700 (Some "t1")]
              (fun p => eq_refl))
    as (os & Hcart & Hitems & Hcharged & _).
  - vm_compute. reflexivity.
  - exists os. split; [exact Hcart|]. split.
    + rewrite Hcharged, <- Hitems. vm_compute. reflexivity.
    + rewrite <- Hitems. reflexivity.
Defined.

(** C4, counterexample.  The cart holds 2 units of QB001, priced at 2350 a
    unit and 4700 in all when they were added; the price of the product is
    then raised to 2600, and the chat handler places the order: the order
    item charges 2450 a unit and 4900 in all.  Likewise the cart that shows
    an [item_total] of 7050 for 3 units of QB001 is charged 4700. *)
Lemma C4_counterexample :
  (exists session' db' order item order_item,
      finalized_QB001_x2_repriced = ((session', db'), OrderPlaced order [item]) /\
      cart_of session_QB001_x2
        = option_map (OrderSession.set_items [item]) (cart_of session_QB001_x2) /\
      DB.order_items db' = [order_item] /\
      shown item = ("QB001", 2, 2350%Q, 4700%Q) /\
      charged order_item = ("QB001", 2, 2450%Q, 4900%Q) /\
      ~ (OrderItem.unit_price order_item == CartItem.final_price item)%Q /\
      ~ (OrderItem.total_price order_item == CartItem.item_total item)%Q) /\
  (exists session' db' order item order_item,
      finalized_QB001_x2_x1 = ((session', db'), OrderPlaced order [item]) /\
      cart_of session_QB001_x2_x1
        = option_map (OrderSession.set_items [item]) (cart_of session_QB001_x2_x1) /\
      DB.order_items db' = [order_item] /\
      OrderItem.product_quantity_ordered order_item = CartItem.quantity item /\
      (CartItem.item_total item == 7050)%Q /\
      (OrderItem.total_price order_item == 4700)%Q /\
      ~ (OrderItem.total_price order_item == CartItem.item_total item)%Q).
Proof.
  split.
  - do 5 eexists. split; [vm_compute; reflexivity|].
    split; [vm_compute; reflexivity|]. split; [reflexivity|].
    split; [reflexivity|]. split; [reflexivity|].
    split; vm_compute; discriminate.
  - do 5 eexists. split; [vm_compute; reflexivity|].
    split; [vm_compute; reflexivity|]. split; [reflexivity|].
    split; [reflexivity|]. split; [reflexivity|]. split; [reflexivity|].
    vm_compute. discriminate.
Qed.

(** The other finaliser charges the base price of the product for every
    unit: 2 units of QB001, shown at 4700 in the cart, are charged 5000. *)
Example order_service_charges_base_price
    (update_available_quantity : Product.t -> Product.t) :
  List.map charged
    (DB.order_items
       (fst (OrderService.create_order_from_cart update_available_quantity "QB-ORDER-1" 7
               [CartLine.mk "QB001" 2] 1 (Some "Mumbai Central") "user@example.com" db0)))
  = [("QB001", 2, 2500%Q, 5000%Q)].
Proof. vm_compute. reflexivity. Qed.

(** * Further properties of the code *)

(** ** Pricing on every path *)

Lemma apply_scheme_bounds (scheme : option string) (q : Z) (price : Q) :
  let '(_, paid_quantity, free_quantity) := apply_scheme scheme q price in
  paid_quantity <= q /\ 0 <= free_quantity.
Proof.
  pose proof (Z.div_mod q 5 ltac:(lia)) as H5.
  pose proof (Z.mod_pos_bound q 5 ltac:(lia)) as B5.
  pose proof (Z.div_mod q 3 ltac:(lia)) as H3.
  pose proof (Z.mod_pos_bound q 3 ltac:(lia)) as B3.
  unfold apply_scheme. destruct scheme as [s|]; [|cbn; lia].
  destruct (negb (Py.truthy_str s)); [cbn; lia|].
  repeat (match goal with
          | |- context [Py.contains ?a ?b] => destruct (Py.contains a b)
          | |- context [?a <=? ?b] => destruct (Z.leb_spec a b)
          | |- context [?a =? ?b] => destruct (Z.eqb_spec a b)
          end; cbn [andb negb]);
    cbn; lia.
Qed.


(** X7.  Whatever the product, its scheme label and the quantity, and on
    every path of [get_product_pricing] (unknown product, fallback of the
    handler, each scheme), the pricing charges for no more units than were
    requested, grants no negative number of free units and reports the
    requested quantity as [total_quantity]. *)
Theorem pricing_never_charges_more_units (products : list Product.t) (pid q : Z) :
  let pricing := get_product_pricing products pid q in
  Pricing.paid_quantity pricing <= q /\
  0 <= Pricing.free_quantity pricing /\
  Pricing.total_quantity pricing = q.
Proof.
  unfold get_product_pricing. destruct (query_get products pid) as [product|];
    [|cbn; lia].
  unfold pricing_try. destruct (_ && _)%bool; [cbn; lia|].
  match goal with
  | |- context [apply_scheme ?s q ?p] =>
    pose proof (apply_scheme_bounds s q p) as Hb;
    destruct (apply_scheme s q p) as [[fp paid] free]
  end.
  cbn. lia.
Qed.




(** X9.  A product with price 0 and a positive flat discount makes the
    percentage computation divide by zero; the handler answers with the base
    pricing: no scheme, no discount, every unit paid at price 0, for any
    scheme label and quantity. *)
Theorem pricing_of_zero_price_falls_back (products : list Product.t) (pid q : Z)
    (product : Product.t) (d : Q) :
  query_get products pid = Some product ->
  (Product.price_of_product product == 0)%Q ->
  Product.discount product = Some d ->
  (0 < d)%Q ->
  let pricing := get_product_pricing products pid q in
  pricing = pricing_fallback product q /\
  Pricing.scheme_name pricing = None /\
  Pricing.paid_quantity pricing = q /\
  Pricing.free_quantity pricing = 0 /\
  (Pricing.discount_percentage pricing == 0)%Q /\
  (Pricing.total_amount pricing == 0)%Q.
Proof.
  intros Hget Hprice Hd Hpos. unfold get_product_pricing. rewrite Hget.
  unfold pricing_try. rewrite Hd.
  assert (Ht : Py.truthy_Q d = true).
  { unfold Py.truthy_Q. destruct (Qeq_bool d 0) eqn:E; [|reflexivity].
    apply Qeq_bool_iff in E. rewrite E in Hpos. exfalso. exact (Qlt_irrefl 0 Hpos). }
  rewrite Ht.
  assert (Hg : Py.Qgtb d 0 = true).
  { unfold Py.Qgtb. destruct (Qle_bool d 0) eqn:E; [|reflexivity].
    apply Qle_bool_iff in E. exfalso. exact (Qlt_not_le _ _ Hpos E). }
  rewrite Hg. apply Qeq_bool_iff in Hprice. rewrite Hprice. cbn [andb].
  split; [reflexivity|]. cbn. repeat split; try reflexivity.
  apply Qeq_bool_iff in Hprice. rewrite Hprice. ring.
Qed.

Lemma pricing_of_zero_price_falls_back_witness :
  let free_sample := Product.mk 9 "QB009" "Sample Kit" 1 0 (Some 5%Q)
                       (Some "Buy 2 Get 1 Free") 10 0 10 in
  let pricing := get_product_pricing [free_sample] 9 4 in
  Pricing.scheme_name pricing = None /\
  Pricing.paid_quantity pricing = 4 /\
  Pricing.free_quantity pricing = 0.
Proof.
  cbv zeta.
  destruct (pricing_of_zero_price_falls_back
              [Product.mk 9 "QB009" "Sample Kit" 1 0 (Some 5%Q)
                 (Some "Buy 2 Get 1 Free") 10 0 10] 9 4
              (Product.mk 9 "QB009" "Sample Kit" 1 0 (Some 5%Q)
                 (Some "Buy 2 Get 1 Free") 10 0 10) 5%Q)
    as (_ & Hs & Hp & Hf & _); try reflexivity.
  auto.
Defined.

(** Witness for the partition of "Buy 2 Get 1 Free": 7 units of QB001 are 5
    paid and 2 free. *)
Lemma pricing_buy2_get1_partition_witness :
  let pricing := get_product_pricing sample_products 1 7 in
  Pricing.paid_quantity pricing + Pricing.free_quantity pricing = 7 /\
  Pricing.paid_quantity pricing = 5.
Proof.
  split.
  - apply (pricing_buy2_get1_partition sample_products 1 7 QB001); [reflexivity..|lia].
  - vm_compute. reflexivity.
Defined.

(** ** The cart service: failures, removal, clearing *)

Lemma set_items_same (os : OrderSession.t) :
  OrderSession.set_items (OrderSession.items os) os = os.
Proof. destruct os; reflexivity. Qed.

(** X10.  A call of [add_item_to_cart] or [remove_item_from_cart] that
    answers [False] (unknown product, short stock, no cart, product not in
    the cart, or a session key that holds no cart) leaves the session exactly
    as it was. *)
Theorem failed_cart_call_leaves_session
    (products : list Product.t) (now uuid code : string) (q wid : Z) (session : Session) :
  (fst (snd (EnhancedOrderService.add_item_to_cart products now uuid code q wid session))
     = false ->
   fst (EnhancedOrderService.add_item_to_cart products now uuid code q wid session)
     = session) /\
  (fst (snd (EnhancedOrderService.remove_item_from_cart now code session)) = false ->
   fst (EnhancedOrderService.remove_item_from_cart now code session) = session).
Proof.
  split.
  - unfold EnhancedOrderService.add_item_to_cart.
    destruct (get_product_by_code_and_warehouse _ _ _) as [product|]; [|reflexivity].
    destruct (_ <? _); [reflexivity|].
    destruct (session !! "order_session") as [v|] eqn:E.
    + rewrite E. destruct v; cbn; try reflexivity. discriminate.
    + unfold EnhancedOrderService.initialize_cart_session. rewrite E.
      rewrite lookup_insert_eq. cbn. discriminate.
  - unfold EnhancedOrderService.remove_item_from_cart.
    destruct (session !! "order_session") as [[os| |]|] eqn:E; try reflexivity.
    cbn [OrderSession.items OrderSession.set_items].
    destruct (Nat.eqb_spec
                (length (List.filter
                           (fun item => negb (String.eqb (CartItem.product_code item) code))
                           (OrderSession.items os)))
                (length (OrderSession.items os))) as [Hlen|Hlen]; cbn [fst snd].
    + intros _. rewrite (filter_same_length _ _ Hlen), set_items_same.
      apply insert_id. exact E.
    + discriminate.
Qed.

Lemma failed_cart_call_leaves_session_witness :
  fst (EnhancedOrderService.add_item_to_cart sample_products "t2" "u2" "QB001" 101 1
         session_QB001_x2) = session_QB001_x2 /\
  fst (EnhancedOrderService.remove_item_from_cart "t2" "QB004" session_QB001_x2)
    = session_QB001_x2.
Proof.
  split.
  - apply (proj1 (failed_cart_call_leaves_session sample_products "t2" "u2" "QB001" 101 1
                    session_QB001_x2)).
    vm_compute. reflexivity.
  - apply (proj2 (failed_cart_call_leaves_session sample_products "t2" "u2" "QB004" 1 1
                    session_QB001_x2)).
    vm_compute. reflexivity.
Defined.

Lemma find_index_some_filter_shorter {A} (f : A -> bool) (l : list A) (i : nat) :
  find_index f l = Some i ->
  (length (List.filter (fun x => negb (f x)) l) < length l)%nat.
Proof.
  revert i. induction l as [|x r IH]; cbn; [discriminate|]. intros i.
  destruct (f x); cbn.
  - intros _. pose proof (List.filter_length_le (fun x => negb (f x)) r). lia.
  - destruct (find_index f r) as [j|]; [|discriminate]. intros _.
    specialize (IH j eq_refl). lia.
Qed.

Lemma find_index_filter_none {A} (f : A -> bool) (l : list A) :
  find_index f (List.filter (fun x => negb (f x)) l) = None.
Proof.
  induction l as [|x r IH]; cbn; [reflexivity|].
  destruct (f x) eqn:E; cbn; [exact IH|]. rewrite E, IH. reflexivity.
Qed.

(** X11.  Removing a product that has a line in the cart succeeds and drops
    every line of that product, keeping the other lines in their order;
    removing the same product once more fails with "not found in cart" and
    changes nothing. *)
Theorem remove_drops_the_product_once
    (now now' code : string) (session : Session) (os : OrderSession.t) (i : nat) :
  cart_of session = Some os ->
  find_index (has_code code) (OrderSession.items os) = Some i ->
  let removed := EnhancedOrderService.remove_item_from_cart now code session in
  snd removed = (true, Removed code) /\
  (exists os',
      cart_of (fst removed) = Some os' /\
      OrderSession.items os'
      = List.filter (fun item => negb (has_code code item)) (OrderSession.items os) /\
      find_index (has_code code) (OrderSession.items os') = None) /\
  EnhancedOrderService.remove_item_from_cart now' code (fst removed)
  = (fst removed, (false, NotInCart code)).
Proof.
  intros Hcart Hfind. cbv zeta.
  pose proof (find_index_some_filter_shorter _ _ _ Hfind) as Hshort.
  unfold cart_of in Hcart.
  destruct (session !! "order_session") as [[o| |]|] eqn:E; try discriminate.
  injection Hcart as ->.
  assert (Hrem : EnhancedOrderService.remove_item_from_cart now code session
                 = (<["order_session" :=
                        VOrderSession
                          (OrderSession.set_last_updated now
                             (EnhancedOrderService._recalculate_cart_totals
                                (OrderSession.set_items
                                   (List.filter (fun item => negb (has_code code item))
                                      (OrderSession.items os)) os)))]> session,
                    (true, Removed code))).
  { unfold EnhancedOrderService.remove_item_from_cart. rewrite E.
    cbn [OrderSession.items OrderSession.set_items].
    fold (has_code code).
    change (fun item => negb (String.eqb (CartItem.product_code item) code))
      with (fun item => negb (has_code code item)).
    destruct (Nat.eqb_spec
                (length (List.filter (fun item => negb (has_code code item))
                           (OrderSession.items os)))
                (length (OrderSession.items os))); [lia|reflexivity]. }
  rewrite Hrem. cbn [fst snd]. split; [reflexivity|]. split.
  - eexists. split; [unfold cart_of; rewrite lookup_insert_eq; reflexivity|].
    split; [reflexivity|]. cbn. apply find_index_filter_none.
  - unfold EnhancedOrderService.remove_item_from_cart. rewrite lookup_insert_eq.
    cbn [OrderSession.items OrderSession.set_items OrderSession.set_last_updated
         EnhancedOrderService._recalculate_cart_totals OrderSession.set_totals].
    change (fun item => negb (String.eqb (CartItem.product_code item) code))
      with (fun item => negb (has_code code item)).
    rewrite (filter_no_line code _ (find_index_filter_none (has_code code) _)).
    rewrite Nat.eqb_refl. rewrite insert_insert_eq. reflexivity.
Qed.

Lemma remove_drops_the_product_once_witness :
  snd (EnhancedOrderService.remove_item_from_cart "t3" "QB001" session_QB001_x2_x1)
    = (true, Removed "QB001") /\
  option_map OrderSession.items
    (cart_of (fst (EnhancedOrderService.remove_item_from_cart "t3" "QB001"
                     session_QB001_x2_x1))) = Some [].
Proof.
  assert (Hcart : exists os, cart_of session_QB001_x2_x1 = Some os /\
                    find_index (has_code "QB001") (OrderSession.items os) = Some 0%nat).
  { eexists. split; vm_compute; reflexivity. }
  destruct Hcart as (os & Hcart & Hfind).
  destruct (remove_drops_the_product_once "t3" "t4" "QB001" session_QB001_x2_x1 os 0%nat
              Hcart Hfind) as (Hflag & _ & _).
  split; [exact Hflag|]. vm_compute. reflexivity.
Defined.

(** [force_clear_cart] and [clear_cart] leave the same session: a fresh
    idle cart with no lines and zero totals, whatever the key held before
    (a cart in any stage, something else, or nothing), and every other key
    of the session as it was. *)
Theorem clear_and_force_clear_agree (now : string) (session : Session) :
  fst (EnhancedOrderService.force_clear_cart now session)
    = fst (EnhancedOrderService.clear_cart now session) /\
  cart_of (fst (EnhancedOrderService.clear_cart now session))
    = Some (OrderSession.fresh now) /\
  forall key, key <> "order_session" ->
    fst (EnhancedOrderService.clear_cart now session) !! key = session !! key.
Proof.
  cbn. split; [apply insert_delete_eq|]. split.
  - unfold cart_of. rewrite lookup_insert_eq. reflexivity.
  - intros key Hkey. apply lookup_insert_ne. congruence.
Qed.

(** ** One line for each product code *)

Lemma find_index_none_not_in (code : string) (items : list CartItem.t) :
  find_index (has_code code) items = None ->
  ~ In code (List.map CartItem.product_code items).
Proof.
  induction items as [|x r IH]; cbn; [tauto|]. unfold has_code at 1.
  destruct (String.eqb_spec (CartItem.product_code x) code) as [Heq|Hne]; [discriminate|].
  destruct (find_index (has_code code) r); [discriminate|]. intros _ [H|H]; auto.
  exact (IH eq_refl H).
Qed.

Lemma NoDup_codes_snoc (code : string) (items : list CartItem.t) (x : CartItem.t) :
  CartItem.product_code x = code ->
  find_index (has_code code) items = None ->
  List.NoDup (List.map CartItem.product_code items) ->
  List.NoDup (List.map CartItem.product_code (items ++ [x])%list).
Proof.
  intros Hx Hnone Hnd. pose proof (find_index_none_not_in _ _ Hnone) as Hnotin.
  rewrite List.map_app. cbn. rewrite Hx. clear Hnone Hx.
  induction Hnd as [|c cs Hc Hcs IH]; cbn.
  - constructor; [cbn; tauto | constructor].
  - cbn in Hnotin. constructor.
    + rewrite List.in_app_iff. cbn. intros [H|[H|[]]]; [tauto|]. apply Hnotin. auto.
    + apply IH. tauto.
Qed.

Lemma NoDup_codes_filter (f : CartItem.t -> bool) (items : list CartItem.t) :
  List.NoDup (List.map CartItem.product_code items) ->
  List.NoDup (List.map CartItem.product_code (List.filter f items)).
Proof.
  induction items as [|x r IH]; cbn; [auto|]. intros H.
  apply List.NoDup_cons_iff in H as [Hx Hr]. destruct (f x); cbn; [|auto].
  constructor; [|auto]. intros Hin. apply Hx.
  apply List.in_map_iff in Hin as (y & Hy & Hin).
  apply List.filter_In in Hin as [Hin _]. apply List.in_map_iff. eauto.
Qed.

Lemma NoDup_codes_update_at (g : CartItem.t -> CartItem.t) (i : nat)
    (items : list CartItem.t) :
  (forall x, CartItem.product_code (g x) = CartItem.product_code x) ->
  List.NoDup (List.map CartItem.product_code items) ->
  List.NoDup (List.map CartItem.product_code (update_at i g items)).
Proof. intros Hg H. rewrite map_update_at by exact Hg. exact H. Qed.

Lemma get_product_by_code_code (products : list Product.t) (code : string) (p : Product.t) :
  get_product_by_code products code = Some p -> Product.product_code p = code.
Proof.
  intros H. apply List.find_some in H as [_ H]. apply String.eqb_eq in H. exact H.
Qed.

Lemma select_product_unique (products : list Product.t) (items : list CartItem.t)
    (product : string * Z) :
  List.NoDup (List.map CartItem.product_code items) ->
  List.NoDup (List.map CartItem.product_code (Chatbot.select_product products items product)).
Proof.
  intros H. destruct product as [code q]. unfold Chatbot.select_product.
  destruct (get_product_by_code products code) as [p|] eqn:Hget; [|exact H].
  destruct (find_index (has_code code) items) eqn:Hfind.
  - apply NoDup_codes_update_at; [reflexivity | exact H].
  - apply (NoDup_codes_snoc code); [|exact Hfind|exact H].
    cbn. exact (get_product_by_code_code _ _ _ Hget).
Qed.

Lemma add_product_unique (products : list Product.t) (product : Product.t) (q : Z)
    (os : OrderSession.t) :
  List.NoDup (List.map CartItem.product_code (OrderSession.items os)) ->
  List.NoDup (List.map CartItem.product_code
           (OrderSession.items (fst (Chatbot.add_product products product q os)))).
Proof.
  intros H. unfold Chatbot.add_product.
  fold (has_code (Product.product_code product)).
  set (new_items := match find_index _ (OrderSession.items os) with
                    | Some i => _
                    | None => _
                    end).
  assert (Hnew : List.NoDup (List.map CartItem.product_code new_items)).
  { subst new_items.
    destruct (find_index (has_code (Product.product_code product)) (OrderSession.items os))
      eqn:Hfind.
    - apply NoDup_codes_update_at; [reflexivity | exact H].
    - apply (NoDup_codes_snoc (Product.product_code product)); auto. }
  cbn [OrderSession.set_items OrderSession.total_cost].
  destruct (OrderSession.total_cost os); cbn; exact Hnew.
Qed.

Section Unique.
Variable re_search : string -> string -> option (list string).
Variable products : list Product.t.

Lemma add_to_cart_unique (warehouse : option Z) (user_message : string)
    (os : OrderSession.t) :
  List.NoDup (List.map CartItem.product_code (OrderSession.items os)) ->
  List.NoDup (List.map CartItem.product_code
           (OrderSession.items
              (fst (Chatbot.add_to_cart re_search products warehouse user_message os)))).
Proof.
  intros H.
  assert (Henter : List.NoDup (List.map CartItem.product_code
                            (OrderSession.items (Chatbot.enter_add_branch os)))).
  { rewrite enter_add_branch_spec. destruct (in_order_stage _); exact H. }
  unfold Chatbot.add_to_cart.
  destruct (Chatbot.first_match _ _ _) as [groups|]; [|exact Henter].
  destruct (Chatbot.quantity_and_name groups) as [[quantity name]|]; [|exact Henter].
  destruct (Chatbot.match_product _ _) as [product|]; [|exact Henter].
  apply add_product_unique, Henter.
Qed.

Lemma remove_item_unique (now code : string) (session : Session) :
  codes_unique session ->
  codes_unique (fst (EnhancedOrderService.remove_item_from_cart now code session)).
Proof.
  unfold codes_unique, cart_of. intros H.
  unfold EnhancedOrderService.remove_item_from_cart.
  destruct (session !! "order_session") as [[os| |]|] eqn:E;
    cbn [fst]; rewrite ?E; try exact I.
  destruct (Nat.eqb _ _); cbn [fst]; rewrite lookup_insert_eq; cbn;
    apply NoDup_codes_filter, H.
Qed.

Lemma run_op_unique (op : CartOp) (session : Session) :
  codes_unique session -> codes_unique (run_op re_search products session op).
Proof.
  intros H.
  destruct op as [now uuid code q wid | now code | now code q | now msg wh | now sel];
    cbn [run_op].
  - unfold codes_unique, cart_of in *.
    unfold EnhancedOrderService.add_item_to_cart.
    destruct (get_product_by_code_and_warehouse _ _ _) as [product|]; [|exact H].
    destruct (_ <? _); [exact H|].
    destruct (session !! "order_session") as [v|] eqn:E.
    + rewrite E. destruct v as [os| |]; cbn [fst]; rewrite ?E; try exact I.
      rewrite lookup_insert_eq. cbn. fold (has_code code).
      destruct (find_index (has_code code) (OrderSession.items os)) eqn:Hfind.
      * apply NoDup_codes_update_at; [reflexivity | exact H].
      * apply (NoDup_codes_snoc code); auto.
    + unfold EnhancedOrderService.initialize_cart_session. rewrite E.
      rewrite lookup_insert_eq. cbn [fst]. rewrite lookup_insert_eq. cbn.
      repeat constructor. cbn. tauto.
  - apply remove_item_unique, H.
  - unfold EnhancedOrderService.update_item_quantity.
    destruct (session !! "order_code"); [|exact H].
    destruct (session !! "order_session") as [[os| |]|] eqn:E;
      try (cbn [fst]; exact H).
    destruct (find_index _ _) as [i|]; [|exact H].
    destruct (q <=? 0); [apply remove_item_unique, H|].
    destruct (match get_product_by_code products code with
              | Some product => _
              | None => _
              end); [exact H|].
    unfold codes_unique, cart_of in *. rewrite E in H.
    destruct (List.nth_error _ i) as [[[pid|] ? ? ? ? ? ? ? ? ?]|] eqn:Hnth;
      cbn [fst]; rewrite lookup_insert_eq; cbn;
      repeat (apply NoDup_codes_update_at; [reflexivity|]); exact H.
  - unfold codes_unique, cart_of in *.
    unfold Chatbot.process_add_message.
    destruct (session !! "order_session") as [v|] eqn:E.
    + rewrite E. destruct v as [os| |]; cbn [fst]; rewrite ?E; try exact I.
      pose proof (add_to_cart_unique wh msg os H) as Hadd.
      destruct (Chatbot.add_to_cart _ _ _ _ _) as [os' r]. cbn [fst] in *.
      rewrite lookup_insert_eq. exact Hadd.
    + rewrite lookup_insert_eq.
      pose proof (add_to_cart_unique wh msg (OrderSession.fresh now)
                    ltac:(cbn; constructor)) as Hadd.
      destruct (Chatbot.add_to_cart _ _ _ _ _) as [os' r]. cbn [fst] in *.
      rewrite lookup_insert_eq. exact Hadd.
  - unfold codes_unique, cart_of in *.
    unfold Chatbot.update_cart. destruct sel as [|s0 sel]; [exact H|].
    assert (Hfold : forall sel items,
               List.NoDup (List.map CartItem.product_code items) ->
               List.NoDup (List.map CartItem.product_code
                        (fold_left (Chatbot.select_product products) sel items))).
    { clear. induction sel as [|p sel IH]; intros items Hi; cbn; [exact Hi|].
      apply IH, select_product_unique, Hi. }
    destruct (session !! "order_session") as [[os| |]|] eqn:E;
      cbn [fst]; rewrite ?E, ?lookup_insert_eq; try exact I;
      cbn [OrderSession.items OrderSession.set_last_updated OrderSession.set_totals
           OrderSession.set_items OrderSession.set_status OrderSession.fresh];
      apply Hfold; [exact H | constructor].
Qed.
End Unique.

(** X12.  The product code is a key of the cart: every sequence of cart
    mutations (add, remove and set-quantity of the cart service, the add
    command of the chat, the selection of [/api/update-cart]) takes a
    session whose cart has at most one line per product code, or no cart,
    to a session whose cart has at most one line per product code. *)
Theorem cart_keeps_one_line_per_product
    (re_search : string -> string -> option (list string))
    (products : list Product.t) (ops : list CartOp) (session : Session) :
  codes_unique session ->
  codes_unique (run_ops re_search products ops session).
Proof.
  unfold run_ops. revert session.
  induction ops as [|op ops IH]; intros session H; cbn; [exact H|].
  apply IH, run_op_unique, H.
Qed.

Lemma cart_keeps_one_line_per_product_witness :
  codes_unique
    (run_ops re_search_add_1_quantum_sensors sample_products
       [AddItem "t1" "u1" "QB001" 2 1;
        ChatAdd "t2" "add 1 quantum sensors" (Some 1);
        AddItem "t3" "u3" "QB004" 2 1;
        UpdateCart "t4" [("QB001", 7); ("QB005", 2); ("QB005", 3)]] ∅) /\
  option_map (fun os => List.map (fun i => (CartItem.product_code i, CartItem.quantity i))
                          (OrderSession.items os))
    (cart_of
       (run_ops re_search_add_1_quantum_sensors sample_products
          [AddItem "t1" "u1" "QB001" 2 1;
           ChatAdd "t2" "add 1 quantum sensors" (Some 1);
           AddItem "t3" "u3" "QB004" 2 1;
           UpdateCart "t4" [("QB001", 7); ("QB005", 2); ("QB005", 3)]] ∅))
  = Some [("QB001", 7); ("QB004", 3); ("QB005", 3)].
Proof.
  split.
  - apply cart_keeps_one_line_per_product. unfold codes_unique. vm_compute. exact I.
  - vm_compute. reflexivity.
Defined.

(** ** The total of an order and its items *)

Section OrderTotals.
Variable update_available_quantity : Product.t -> Product.t.

Lemma add_priced_item_total (order : Order.t) (line : CartLine.t)
    (db db1 : DB.t) (total total1 : Q) :
  EnhancedOrderService.add_priced_item update_available_quantity order (db, total) line
  = (db1, total1) ->
  exists new_items,
    DB.order_items db1 = (DB.order_items db ++ new_items)%list /\
    Forall (fun item => OrderItem.order_id item = Order.id order) new_items /\
    total1 = fold_left (fun acc item => (acc + OrderItem.total_price item)%Q) new_items total /\
    DB.orders db1 = DB.orders db.
Proof.
  unfold EnhancedOrderService.add_priced_item.
  destruct (get_product_by_code (DB.products db) (CartLine.product_code line)) as [p|].
  - unfold DatabaseService.update_product_quantities, DatabaseService.add_order_item.
    cbn [fst snd]. intros [= <- <-]. eexists [_]. split; [reflexivity|].
    split; [repeat constructor|]. split; reflexivity.
  - intros [= <- <-]. exists []. rewrite List.app_nil_r. split; [reflexivity|].
    split; [constructor|]. split; reflexivity.
Qed.

Lemma add_priced_items_total (order : Order.t) (lines : list CartLine.t)
    (db db' : DB.t) (total total' : Q) :
  fold_left (EnhancedOrderService.add_priced_item update_available_quantity order)
    lines (db, total) = (db', total') ->
  exists new_items,
    DB.order_items db' = (DB.order_items db ++ new_items)%list /\
    Forall (fun item => OrderItem.order_id item = Order.id order) new_items /\
    total' = fold_left (fun acc item => (acc + OrderItem.total_price item)%Q) new_items total /\
    DB.orders db' = DB.orders db.
Proof.
  revert db total. induction lines as [|line lines IH]; intros db total; cbn [fold_left].
  - intros [= <- <-]. exists []. rewrite List.app_nil_r. split; [reflexivity|].
    split; [constructor|]. split; reflexivity.
  - destruct (EnhancedOrderService.add_priced_item _ order (db, total) line)
      as [db1 total1] eqn:Hstep.
    apply add_priced_item_total in Hstep as (k1 & Hk1 & Hf1 & Ht1 & Ho1).
    intros H. apply IH in H as (k2 & Hk2 & Hf2 & Ht2 & Ho2).
    exists (k1 ++ k2)%list. rewrite Hk2, Hk1, List.app_assoc. split; [reflexivity|].
    split; [apply List.Forall_app; auto|].
    rewrite List.fold_left_app, <- Ht1. split; congruence.
Qed.

Lemma add_validated_items_total (order : Order.t) (items : list OrderService.validated)
    (db db' : DB.t) (total total' : Q) :
  fold_left (OrderService.add_validated_item update_available_quantity order)
    items (db, total) = (db', total') ->
  DB.order_items db'
  = (DB.order_items db ++ List.map (base_price_item (Order.id order)) items)%list /\
  total' = fold_left (fun acc item => (acc + OrderItem.total_price item)%Q)
             (List.map (base_price_item (Order.id order)) items) total /\
  DB.orders db' = DB.orders db.
Proof.
  revert db total. induction items as [|v items IH]; intros db total; cbn [fold_left List.map].
  - intros [= <- <-]. rewrite List.app_nil_r. split; [reflexivity|]. split; reflexivity.
  - destruct (OrderService.add_validated_item _ order (db, total) v)
      as [db1 total1] eqn:Hstep.
    revert Hstep. unfold OrderService.add_validated_item.
    unfold DatabaseService.update_product_quantities, DatabaseService.add_order_item.
    cbn [fst snd]. intros [= <- <-].
    intros H. apply IH in H as (Hk2 & Ht2 & Ho2).
    rewrite Hk2, Ho2. cbn [DB.order_items DB.orders DB.set_products DB.set_order_items].
    rewrite <- List.app_assoc. split; [reflexivity|]. split; [exact Ht2 | reflexivity].
Qed.

Lemma add_cart_item_none (order : Order.t) (items : list CartItem.t) :
  fold_left (EnhancedOrderService.add_cart_item update_available_quantity order)
    items None = None.
Proof. induction items as [|i items IH]; [reflexivity | exact IH]. Qed.

Lemma add_cart_items_total (order : Order.t) (items : list CartItem.t)
    (db db' : DB.t) (total total' : Q) :
  fold_left (EnhancedOrderService.add_cart_item update_available_quantity order)
    items (Some (db, total)) = Some (db', total') ->
  exists new_items,
    DB.order_items db' = (DB.order_items db ++ new_items)%list /\
    Forall2 (unit_price_item (Order.id order)) items new_items /\
    total' = fold_left (fun acc item => (acc + OrderItem.total_price item)%Q) new_items total /\
    DB.orders db' = DB.orders db.
Proof.
  revert db total. induction items as [|item items IH]; intros db total; cbn [fold_left].
  - intros [= <- <-]. exists []. rewrite List.app_nil_r. split; [reflexivity|].
    split; [constructor|]. split; reflexivity.
  - destruct (EnhancedOrderService.add_cart_item _ order (Some (db, total)) item)
      as [[db1 total1]|] eqn:Hstep; [|rewrite add_cart_item_none; discriminate].
    revert Hstep. unfold EnhancedOrderService.add_cart_item.
    destruct (CartItem.product_id item) as [pid|] eqn:Hpid; [|discriminate].
    unfold DatabaseService.update_product_quantities, DatabaseService.add_order_item.
    cbn [fst snd]. intros [= <- <-].
    intros H. apply IH in H as (new & H1 & H2 & H3 & H4).
    eexists (_ :: new). rewrite H1, H4.
    cbn [DB.order_items DB.orders DB.set_products DB.set_order_items].
    rewrite <- List.app_assoc. split; [reflexivity|]. split.
    + constructor; [|exact H2]. unfold unit_price_item. cbn. rewrite Hpid. auto 10.
    + split; [exact H3 | reflexivity].
Qed.
End OrderTotals.

(** X13.  An order placed by [create_order_from_cart] of the cart service is
    [confirmed] and its [total_amount] is the sum of the [total_price] of the
    order items the call appended, all of which point to the new order. *)
Theorem enhanced_order_total_is_sum_of_items
    (update_available_quantity : Product.t -> Product.t)
    (new_order_id : string) (user_id : Z) (cart_items : list CartLine.t)
    (warehouse_id : Z) (warehouse_location : option string) (user_email : string)
    (db db' : DB.t) (order : Order.t) (msg : Msg) :
  EnhancedOrderService.create_order_from_cart update_available_quantity new_order_id
    user_id cart_items warehouse_id warehouse_location user_email db
  = (db', (Some order, msg)) ->
  exists new_items,
    DB.order_items db' = (DB.order_items db ++ new_items)%list /\
    Forall (fun item => OrderItem.order_id item = Order.id order) new_items /\
    Order.status order = Some "confirmed" /\
    Order.total_amount order = Some (DatabaseService.sum_total_price new_items).
Proof.
  unfold EnhancedOrderService.create_order_from_cart.
  destruct cart_items as [|l0 ls]; [discriminate|].
  destruct (EnhancedOrderService.validation_failure _ _ _); [discriminate|].
  cbv beta iota zeta delta [DatabaseService.create_order].
  destruct (fold_left _ (l0 :: ls) _) as [db2 total] eqn:Hfold.
  apply add_priced_items_total in Hfold as (new & Hitems & Hkey & Htotal & _).
  cbv beta iota zeta delta [DatabaseService.confirm_order].
  intros [= <- <- _]. exists new. cbn in Hitems |- *.
  split; [exact Hitems|]. split; [exact Hkey|]. split; [reflexivity|].
  rewrite Htotal. reflexivity.
Qed.

(** Witness: 2 units of QB001 (4700) and 5 of QB003 (2250) give 6950. *)
Lemma enhanced_order_total_is_sum_of_items_witness :
  exists new_items,
    DB.order_items (fst placed_two_lines) = new_items /\
    List.map OrderItem.total_price new_items = [4700%Q; 2250%Q] /\
    Some 6950%Q = Some (DatabaseService.sum_total_price new_items).
Proof.
  destruct (enhanced_order_total_is_sum_of_items (fun p => p) "QB-ORDER-1" 7
              [CartLine.mk "QB001" 2; CartLine.mk "QB003" 5] 1 (Some "Mumbai Central")
              "user@example.com" db0 (fst placed_two_lines)
              (Order.mk 1 "QB-ORDER-1" 7 1 (Some "Mumbai Central") "user@example.com"
                 (Some 6950%Q) (Some "confirmed"))
              OrderCreated)
    as (new & Hitems & _ & _ & Htotal).
  - vm_compute. reflexivity.
  - exists new. split; [exact Hitems|]. split; [|exact Htotal].
    change (DB.order_items db0 ++ new)%list with new in Hitems. rewrite <- Hitems.
    vm_compute. reflexivity.
Defined.

(** X14.  An order placed by [OrderService.create_order_from_cart] has one
    order item for each line that [_validate_cart_items] kept, in that
    order, charged at the base price of the product for every unit (no
    discount, no scheme); at least one line was kept, and [total_amount] is
    the sum of the items. *)
Theorem order_service_charges_base_price_of_valid_lines
    (update_available_quantity : Product.t -> Product.t)
    (new_order_id : string) (user_id : Z) (cart_items : list CartLine.t)
    (warehouse_id : Z) (warehouse_location : option string) (user_email : string)
    (db db' : DB.t) (order : Order.t) (msg : Msg) :
  OrderService.create_order_from_cart update_available_quantity new_order_id
    user_id cart_items warehouse_id warehouse_location user_email db
  = (db', (Some order, msg)) ->
  let validated_items :=
    OrderService._validate_cart_items (DB.products db) cart_items warehouse_id in
  validated_items <> [] /\
  DB.order_items db'
  = (DB.order_items db ++ List.map (base_price_item (Order.id order)) validated_items)%list /\
  Order.status order = Some "confirmed" /\
  Order.total_amount order
  = Some (DatabaseService.sum_total_price
            (List.map (base_price_item (Order.id order)) validated_items)).
Proof.
  unfold OrderService.create_order_from_cart. cbv zeta.
  destruct (OrderService._validate_cart_items _ _ _) as [|v vs]; [discriminate|].
  cbv beta iota zeta delta [DatabaseService.create_order].
  destruct (fold_left _ (v :: vs) _) as [db2 total] eqn:Hfold.
  apply add_validated_items_total in Hfold as (Hitems & Htotal & _).
  cbv beta iota zeta delta [DatabaseService.confirm_order].
  intros [= <- <- _]. cbn in Hitems, Htotal |- *.
  split; [discriminate|]. split; [exact Hitems|]. split; [reflexivity|].
  rewrite Htotal. reflexivity.
Qed.

(** Witness: of five lines, the one above stock, the unknown code and the
    zero quantity are dropped; the other two are charged 5000 and 2850. *)
Lemma order_service_charges_base_price_of_valid_lines_witness :
  List.map charged (DB.order_items (fst placed_valid_lines))
  = [("QB001", 2, 2500%Q, 5000%Q); ("QB005", 3, 950%Q, 2850%Q)] /\
  option_map Order.total_amount (fst (snd placed_valid_lines)) = Some (Some 7850%Q).
Proof.
  destruct (order_service_charges_base_price_of_valid_lines (fun p => p) "QB-ORDER-1" 7
              [CartLine.mk "QB001" 2; CartLine.mk "QB003" 500; CartLine.mk "QB009" 1;
               CartLine.mk "QB004" 0; CartLine.mk "QB005" 3] 1 (Some "Mumbai Central")
              "user@example.com" db0 (fst placed_valid_lines)
              (Order.mk 1 "QB-ORDER-1" 7 1 (Some "Mumbai Central") "user@example.com"
                 (Some 7850%Q) (Some "confirmed"))
              OrderCreated)
    as (_ & Hitems & _ & _).
  - vm_compute. reflexivity.
  - split; [rewrite Hitems; vm_compute; reflexivity|]. vm_compute. reflexivity.
Defined.

(** X15.  Every element of the result of [_validate_cart_items] comes from a
    line of the cart with a non-empty code and a positive quantity, whose
    product exists in the warehouse with at least that quantity for sale;
    it carries the id and the base price of that product. *)
Theorem validated_items_are_valid_lines (products : list Product.t)
    (cart_items : list CartLine.t) (warehouse_id : Z) :
  Forall (valid_line products warehouse_id cart_items)
    (OrderService._validate_cart_items products cart_items warehouse_id).
Proof.
  assert (Hgen : forall lines,
             (forall l, In l lines -> In l cart_items) ->
             Forall (valid_line products warehouse_id cart_items)
               (OrderService._validate_cart_items products lines warehouse_id)).
  { induction lines as [|[code q] lines IH]; intros Hsub; [constructor|].
    cbn [OrderService._validate_cart_items CartLine.product_code CartLine.quantity].
    assert (Hrest := IH (fun l H => Hsub l (or_intror H))).
    destruct (negb (Py.truthy_str code)) eqn:Hcode; [exact Hrest|].
    destruct (Z.leb_spec q 0) as [|Hq]; cbn [orb]; [exact Hrest|].
    destruct (get_product_by_code_and_warehouse products code warehouse_id)
      as [product|] eqn:Hget; [|exact Hrest].
    destruct (Z.ltb_spec (Product.available_for_sale product) q) as [|Hstock];
      [exact Hrest|].
    constructor; [|exact Hrest]. unfold valid_line. cbn.
    split; [apply Hsub; left; reflexivity|].
    split; [intros ->; discriminate|]. split; [lia|].
    exists product. auto. }
  apply Hgen. auto.
Qed.

(** X16.  The stock check of [confirm_cart] and of [create_order_from_cart]
    of the cart service passes exactly when every line, taken alone, names a
    product of the warehouse with enough units for sale: quantities of lines
    for the same product are not added up. *)
Theorem validation_checks_each_line_alone (products : list Product.t) (warehouse_id : Z)
    (lines : list CartLine.t) :
  EnhancedOrderService.validation_failure products warehouse_id lines = None
  <-> Forall (line_in_stock products warehouse_id) lines.
Proof.
  induction lines as [|line lines IH]; cbn [EnhancedOrderService.validation_failure].
  - split; [constructor | reflexivity].
  - destruct (get_product_by_code_and_warehouse products (CartLine.product_code line)
                warehouse_id) as [product|] eqn:Hget.
    + destruct (Z.ltb_spec (Product.available_for_sale product) (CartLine.quantity line))
        as [Hshort|Hok].
      * split; [discriminate|]. intros H. apply List.Forall_cons_iff in H as [(p & Hp & Hq) _].
        rewrite Hget in Hp. injection Hp as <-. lia.
      * rewrite IH. split.
        -- intros H. constructor; [|exact H]. exists product. auto.
        -- intros H. apply List.Forall_cons_iff in H as [_ H]. exact H.
    + split; [discriminate|]. intros H. apply List.Forall_cons_iff in H as [(p & Hp & _) _].
      rewrite Hget in Hp. discriminate.
Qed.

(** X17.  An order placed by [confirm_cart] has one order item for each line
    of the cart, in that order, with the [product_id] of the line, charged
    at the [unit_price] of the line (the base price) for every unit; the
    [final_price] and [item_total] of the line are not read.  Its
    [total_amount] is the sum of the items. *)
Theorem confirm_cart_charges_unit_price
    (update_available_quantity : Product.t -> Product.t)
    (new_order_id : string) (user_id warehouse_id : Z) (user_email : string)
    (session session' : Session) (db db' : DB.t) (order : Order.t) (msg : Msg) :
  EnhancedOrderService.confirm_cart update_available_quantity new_order_id user_id
    warehouse_id user_email (session, db) = ((session', db'), (Some order, msg)) ->
  exists os new_items,
    cart_of session = Some os /\
    DB.order_items db' = (DB.order_items db ++ new_items)%list /\
    Forall2 (unit_price_item (Order.id order)) (OrderSession.items os) new_items /\
    Order.total_amount order = Some (DatabaseService.sum_total_price new_items).
Proof.
  unfold EnhancedOrderService.confirm_cart, cart_of.
  destruct (session !! "order_session") as [[os| |]|] eqn:Hcart; try discriminate.
  destruct (OrderSession.items os) as [|item items] eqn:Hitems; [discriminate|].
  destruct (EnhancedOrderService.validation_failure _ _ _); [discriminate|].
  cbv beta iota zeta delta [DatabaseService.create_order].
  destruct (fold_left _ _ _) as [[db1 total]|] eqn:Hfold; [|discriminate].
  apply add_cart_items_total in Hfold as (new & Hnew & Hall & Htotal & _).
  cbv beta iota zeta delta [DatabaseService.confirm_order].
  intros H. inversion H; subst. exists os, new. rewrite Hitems. cbn in Hnew |- *.
  split; [reflexivity|]. split; [exact Hnew|]. split; [exact Hall|]. reflexivity.
Qed.

(** Witness: the cart shows 2 units of QB001 at 2350, 4700 in all; the order
    charges 2500 a unit, 5000 in all. *)
Lemma confirm_cart_charges_unit_price_witness :
  exists os new_items,
    cart_of session_QB001_x2 = Some os /\
    List.map shown (OrderSession.items os) = [("QB001", 2, 2350%Q, 4700%Q)] /\
    DB.order_items (snd (fst confirmed_QB001_x2)) = new_items /\
    List.map charged new_items = [("QB001", 2, 2500%Q, 5000%Q)] /\
    Some 5000%Q = Some (DatabaseService.sum_total_price new_items).
Proof.
  destruct (confirm_cart_charges_unit_price (fun p => p) "QB-ORDER-1" 7 1
              "user@example.com" session_QB001_x2 (fst (fst confirmed_QB001_x2))
              db0 (snd (fst confirmed_QB001_x2))
              (Order.mk 1 "QB-ORDER-1" 7 1 None "user@example.com" (Some 5000%Q)
                 (Some "confirmed"))
              OrderConfirmed)
    as (os & new & Hcart & Hitems & _ & Htotal).
  - vm_compute. reflexivity.
  - exists os, new. split; [exact Hcart|].
    assert (Hos : Some os = cart_of session_QB001_x2) by (symmetry; exact Hcart).
    vm_compute in Hos. injection Hos as ->.
    change (DB.order_items db0 ++ new)%list with new in Hitems.
    split; [reflexivity|]. split; [exact Hitems|]. split; [|exact Htotal].
    rewrite <- Hitems. vm_compute. reflexivity.
Defined.

Lemma add_cart_items_without_product_id
    (update_available_quantity : Product.t -> Product.t) (order : Order.t)
    (items : list CartItem.t) (item : CartItem.t) (acc : option (DB.t * Q)) :
  In item items -> CartItem.product_id item = None ->
  fold_left (EnhancedOrderService.add_cart_item update_available_quantity order) items acc
  = None.
Proof.
  intros Hin Hpid. revert acc. induction items as [|i items IH]; [contradiction|].
  intros acc. cbn [fold_left]. destruct Hin as [->|Hin]; [|apply IH, Hin].
  unfold EnhancedOrderService.add_cart_item at 2.
  destruct acc as [[db t]|]; rewrite ?Hpid; apply add_cart_item_none.
Qed.

Lemma add_cart_items_partial_orders
    (update_available_quantity : Product.t -> Product.t) (order : Order.t)
    (items : list CartItem.t) (db : DB.t) :
  DB.orders (EnhancedOrderService.add_cart_items_partial update_available_quantity
               order db items) = DB.orders db.
Proof.
  revert db. induction items as [|item items IH]; intros db; [reflexivity|].
  cbn [EnhancedOrderService.add_cart_items_partial EnhancedOrderService.add_cart_item].
  destruct (CartItem.product_id item); [|reflexivity].
  unfold DatabaseService.update_product_quantities, DatabaseService.add_order_item.
  cbn [fst snd]. rewrite IH. reflexivity.
Qed.

(** X18.  When a line of the cart has no ['product_id'] (the lines that the
    chat handler adds have none) and the stock check passes, [confirm_cart]
    fails in its handler and leaves the session as it was, but the order row
    that [create_order] made before stays in the database, as the last row
    and exactly as [create_order] returned it: no later step of
    [confirm_cart] has written to it. *)
Theorem confirm_cart_without_product_id_leaves_order
    (update_available_quantity : Product.t -> Product.t)
    (new_order_id : string) (user_id warehouse_id : Z) (user_email : string)
    (session : Session) (db : DB.t) (os : OrderSession.t) (item : CartItem.t) :
  cart_of session = Some os ->
  In item (OrderSession.items os) ->
  CartItem.product_id item = None ->
  EnhancedOrderService.validation_failure (DB.products db) warehouse_id
    (List.map EnhancedOrderService.line_of_item (OrderSession.items os)) = None ->
  exists db' warehouse_location,
    EnhancedOrderService.confirm_cart update_available_quantity new_order_id user_id
      warehouse_id user_email (session, db) = ((session, db'), (None, ErrorRaised)) /\
    let order :=
      snd (DatabaseService.create_order new_order_id user_id warehouse_id
             warehouse_location user_email db) in
    DB.orders db' = (DB.orders db ++ [order])%list /\
    Order.order_id order = new_order_id.
Proof.
  unfold cart_of. intros Hcart Hin Hpid Hvalid.
  unfold EnhancedOrderService.confirm_cart.
  destruct (session !! "order_session") as [[o| |]|]; try discriminate.
  injection Hcart as ->.
  destruct (OrderSession.items os) as [|i items] eqn:Hitems; [contradiction|].
  rewrite Hvalid. cbv beta iota zeta delta [DatabaseService.create_order].
  rewrite (add_cart_items_without_product_id _ _ _ item _ Hin Hpid).
  do 2 eexists. split; [reflexivity|]. rewrite add_cart_items_partial_orders. cbn.
  split; reflexivity.
Qed.

(** Witness: the cart that "add 1 quantum sensors" made. *)
Lemma confirm_cart_without_product_id_leaves_order_witness :
  exists db' warehouse_location,
    EnhancedOrderService.confirm_cart (fun p => p) "QB-ORDER-1" 7 1 "user@example.com"
      (session_chat_QB004_x1, db0) = ((session_chat_QB004_x1, db'), (None, ErrorRaised)) /\
    let order :=
      snd (DatabaseService.create_order "QB-ORDER-1" 7 1 warehouse_location
             "user@example.com" db0) in
    DB.orders db' = (DB.orders db0 ++ [order])%list /\
    Order.order_id order = "QB-ORDER-1".
Proof.
  apply (confirm_cart_without_product_id_leaves_order (fun p => p) "QB-ORDER-1" 7 1
           "user@example.com" session_chat_QB004_x1 db0
           (OrderSession.mk Status.confirming
              [CartItem.mk None "QB004" "Quantum Sensors" 1 1800 1360 (1111 # 100)
                 (Some "Buy 1 Get 15% Off") 1360 None]
              (Some 1360%Q) 0 1360 None None "t1" true)
           (CartItem.mk None "QB004" "Quantum Sensors" 1 1800 1360 (1111 # 100)
              (Some "Buy 1 Get 15% Off") 1360 None)).
  - vm_compute. reflexivity.
  - left. reflexivity.
  - reflexivity.
  - vm_compute. reflexivity.
Defined.

(** ** The tables behind the orders *)

(** X19.  [update_product_quantities] looks the product up by its code
    alone.  When the first row with the code belongs to another warehouse
    than the one the order is for, the row of the ordering warehouse, which
    the finalisers validated, keeps its stock figures, and the decrement
    goes to the other row: when that row has the quantity for sale its
    figure is lowered by it and [update_available_quantity] is applied, and
    otherwise nothing is decremented at all.  ([update_available_quantity]
    is assumed to leave code and warehouse alone.) *)
Theorem decrement_ignores_warehouse
    (update_available_quantity : Product.t -> Product.t)
    (db : DB.t) (product_code : string) (quantity warehouse_id : Z)
    (first_product product : Product.t) :
  (forall p, Product.product_code (update_available_quantity p) = Product.product_code p) ->
  (forall p, Product.warehouse_id (update_available_quantity p) = Product.warehouse_id p) ->
  get_product_by_code (DB.products db) product_code = Some first_product ->
  Product.warehouse_id first_product <> warehouse_id ->
  get_product_by_code_and_warehouse (DB.products db) product_code warehouse_id
    = Some product ->
  let db' :=
    fst (DatabaseService.update_product_quantities update_available_quantity
           [(product_code, quantity)] db) in
  get_product_by_code_and_warehouse (DB.products db') product_code warehouse_id
  = Some product /\
  get_product_by_code (DB.products db') product_code
  = Some (if quantity <=? Product.available_for_sale first_product
          then update_available_quantity
                 (Product.set_available_for_sale
                    (Product.available_for_sale first_product - quantity) first_product)
          else first_product).
Proof.
  intros Hcode Hwid Hfirst Hother Hproduct.
  unfold DatabaseService.update_product_quantities.
  cbn [fst fold_left DB.products DB.set_products DatabaseService.update_product_quantity].
  assert (Hsame : forall x,
             Product.product_code
               (if quantity <=? Product.available_for_sale x
                then update_available_quantity
                       (Product.set_available_for_sale
                          (Product.available_for_sale x - quantity) x)
                else x) = Product.product_code x /\
             Product.warehouse_id
               (if quantity <=? Product.available_for_sale x
                then update_available_quantity
                       (Product.set_available_for_sale
                          (Product.available_for_sale x - quantity) x)
                else x) = Product.warehouse_id x).
  { intros x. destruct (quantity <=? _); [|split; reflexivity].
    rewrite Hcode, Hwid. destruct x; split; reflexivity. }
  split.
  - revert Hfirst Hproduct. unfold get_product_by_code, get_product_by_code_and_warehouse.
    induction (DB.products db) as [|x r IH]; cbn [List.find update_first]; [discriminate|].
    destruct (String.eqb_spec (Product.product_code x) product_code) as [Hx|Hx].
    + intros [= <-]. cbn [andb].
      destruct (Z.eqb_spec (Product.warehouse_id x) warehouse_id) as [|_]; [contradiction|].
      intros Hfind. cbn [List.find].
      destruct (Hsame x) as [-> ->].
      destruct (String.eqb _ _); cbn [andb];
        [destruct (Z.eqb_spec (Product.warehouse_id x) warehouse_id); [contradiction|]|];
        exact Hfind.
    + cbn [andb List.find]. intros Hfirst' Hfind.
      destruct (String.eqb_spec (Product.product_code x) product_code); [contradiction|].
      cbn [andb]. exact (IH Hfirst' Hfind).
  - unfold get_product_by_code in *.
    rewrite find_update_first_same, Hfirst; [reflexivity|].
    intros x. rewrite (proj1 (Hsame x)). reflexivity.
Qed.

(** Witness: 2 units of QB001 ordered in warehouse 2 are taken from the row
    of warehouse 1. *)
Lemma decrement_ignores_warehouse_witness :
  let db' :=
    fst (DatabaseService.update_product_quantities (fun p => p) [("QB001", 2)]
           (DB.mk two_warehouses [] [])) in
  get_product_by_code_and_warehouse (DB.products db') "QB001" 2
  = Some (Product.mk 6 "QB001" "Quantum Processor" 2 2500 (Some 150%Q)
            (Some "Buy 2 Get 1 Free") 100 0 100) /\
  get_product_by_code (DB.products db') "QB001"
  = Some (Product.set_available_for_sale 98 QB001).
Proof.
  apply (decrement_ignores_warehouse (fun p => p) (DB.mk two_warehouses [] [])
           "QB001" 2 2 QB001).
  - reflexivity.
  - reflexivity.
  - reflexivity.
  - vm_compute. discriminate.
  - reflexivity.
Defined.

Lemma find_app_first {A} (f : A -> bool) (l k : list A) :
  List.find f (l ++ k)%list
  = match List.find f l with
    | Some x => Some x
    | None => List.find f k
    end.
Proof.
  induction l as [|x r IH]; cbn [List.find app]; [reflexivity|].
  destruct (f x); [reflexivity | exact IH].
Qed.

Lemma update_first_app_fresh {A} (f : A -> bool) (g : A -> A) (l : list A) (x : A) :
  Forall (fun y => f y = false) l -> f x = true ->
  update_first f g (l ++ [x])%list = (l ++ [g x])%list.
Proof.
  intros Hl Hx. induction Hl as [|y r Hy _ IH]; cbn [update_first app].
  - rewrite Hx. reflexivity.
  - rewrite Hy, IH. reflexivity.
Qed.

Lemma find_fresh {A} (f : A -> bool) (l : list A) :
  Forall (fun y => f y = false) l -> List.find f l = None.
Proof.
  induction 1 as [|y r Hy _ IH]; cbn [List.find]; [reflexivity|].
  rewrite Hy. exact IH.
Qed.

Lemma filter_fresh {A} (f : A -> bool) (l : list A) :
  Forall (fun y => f y = false) l -> List.filter f l = [].
Proof.
  induction 1 as [|y r Hy _ IH]; cbn [List.filter]; [reflexivity|].
  rewrite Hy. exact IH.
Qed.

Lemma filter_all {A} (f : A -> bool) (l : list A) :
  Forall (fun y => f y = true) l -> List.filter f l = l.
Proof.
  induction 1 as [|y r Hy _ IH]; cbn [List.filter]; [reflexivity|].
  rewrite Hy, IH. reflexivity.
Qed.

(** [create_order] returns an order with the given public id;
    [get_order_by_id] with that id finds it, unless an older row has the
    same public id, in which case the older row is found. *)
Theorem created_order_is_found_unless_shadowed
    (new_order_id : string) (user_id warehouse_id : Z)
    (warehouse_location : option string) (user_email : string) (db : DB.t) :
  let '(db', order) :=
    DatabaseService.create_order new_order_id user_id warehouse_id warehouse_location
      user_email db in
  Order.order_id order = new_order_id /\
  DatabaseService.get_order_by_id new_order_id db'
  = match DatabaseService.get_order_by_id new_order_id db with
    | Some older => Some older
    | None => Some order
    end.
Proof.
  unfold DatabaseService.create_order, DatabaseService.get_order_by_id.
  cbn [DB.orders DB.set_orders Order.order_id].
  split; [reflexivity|].
  rewrite find_app_first. cbn [List.find Order.order_id].
  rewrite String.eqb_refl. reflexivity.
Qed.

Lemma find_update_first_other {A} (f f' : A -> bool) (g : A -> A) (l : list A) :
  (forall x, f x = true -> f' x = false /\ f' (g x) = false) ->
  List.find f' (update_first f g l) = List.find f' l.
Proof.
  intros Hg. induction l as [|x r IH]; cbn [List.find update_first]; [reflexivity|].
  destruct (f x) eqn:Hx; cbn [List.find].
  - destruct (Hg x Hx) as [-> ->]. reflexivity.
  - rewrite IH. reflexivity.
Qed.

Lemma length_update_first {A} (f : A -> bool) (g : A -> A) (l : list A) :
  length (update_first f g l) = length l.
Proof.
  induction l as [|x r IH]; cbn [update_first length]; [reflexivity|].
  destruct (f x); cbn [length]; rewrite ?IH; reflexivity.
Qed.

(** X20.  [update_order_status] on an id that [get_order_by_id] finds:
    the order comes back with the new status, [get_order_by_id] finds it
    with the new status afterwards, lookups of other ids are unchanged, no
    row is added or removed, and order items and products are untouched. *)
Theorem update_order_status_sets_first_match (order_id status : string) (db : DB.t)
    (order : Order.t) :
  DatabaseService.get_order_by_id order_id db = Some order ->
  let '(db', result) := DatabaseService.update_order_status order_id status db in
  result = Some (Order.set_status (Some status) order) /\
  DatabaseService.get_order_by_id order_id db' = result /\
  (forall other, other <> order_id ->
     DatabaseService.get_order_by_id other db' = DatabaseService.get_order_by_id other db) /\
  length (DB.orders db') = length (DB.orders db) /\
  DB.order_items db' = DB.order_items db /\
  DB.products db' = DB.products db.
Proof.
  intros Hget. unfold DatabaseService.update_order_status. rewrite Hget.
  split; [reflexivity|]. unfold DatabaseService.get_order_by_id in *.
  cbn [DB.orders DB.set_orders DB.order_items DB.products]. split.
  - rewrite find_update_first_same by reflexivity. rewrite Hget. reflexivity.
  - split.
    + intros other Hother. apply find_update_first_other. intros x Hx.
      apply String.eqb_eq in Hx. cbn [Order.set_status Order.order_id]. rewrite Hx.
      split; apply String.eqb_neq; congruence.
    + split; [apply length_update_first|]. split; reflexivity.
Qed.

(** Witness: the order placed above is set to "shipped". *)
Lemma update_order_status_sets_first_match_witness :
  let '(db', result) :=
    DatabaseService.update_order_status "QB-ORDER-1" "shipped" (fst placed_two_lines) in
  option_map Order.status result = Some (Some "shipped") /\
  DatabaseService.get_order_by_id "QB-ORDER-1" db' = result.
Proof.
  pose proof (update_order_status_sets_first_match "QB-ORDER-1" "shipped"
                (fst placed_two_lines)
                (Order.mk 1 "QB-ORDER-1" 7 1 (Some "Mumbai Central") "user@example.com"
                   (Some 6950%Q) (Some "confirmed"))
                ltac:(vm_compute; reflexivity)) as H.
  destruct (DatabaseService.update_order_status "QB-ORDER-1" "shipped"
              (fst placed_two_lines)) as [db' result].
  destruct H as (Hresult & Hget & _). split; [rewrite Hresult; reflexivity | exact Hget].
Defined.

Lemma filter_app_fresh {A} (f : A -> bool) (l k : list A) :
  Forall (fun y => f y = false) l -> Forall (fun y => f y = true) k ->
  List.filter f (l ++ k)%list = k.
Proof.
  intros Hl Hk. rewrite List.filter_app, (filter_fresh f l Hl), (filter_all f k Hk).
  reflexivity.
Qed.

(** X21.  When the key of the next order row is not in use, an order placed
    by [create_order_from_cart] of the cart service is the one row appended
    to the orders, the order items appended are the items of that order, and
    [update_order_total], which recomputes the total from the rows, changes
    nothing: the total accumulated while pricing is the sum of the rows. *)
Theorem placed_order_total_survives_recount
    (update_available_quantity : Product.t -> Product.t)
    (new_order_id : string) (user_id : Z) (cart_items : list CartLine.t)
    (warehouse_id : Z) (warehouse_location : option string) (user_email : string)
    (db db' : DB.t) (order : Order.t) (msg : Msg) :
  fresh_order_key db ->
  EnhancedOrderService.create_order_from_cart update_available_quantity new_order_id
    user_id cart_items warehouse_id warehouse_location user_email db
  = (db', (Some order, msg)) ->
  DB.orders db' = (DB.orders db ++ [order])%list /\
  DB.order_items db' = (DB.order_items db ++ DatabaseService.order_items_of order db')%list /\
  DatabaseService.update_order_total (Order.id order) db' = (db', Some order).
Proof.
  intros [Hkeys Hitems_fresh].
  unfold EnhancedOrderService.create_order_from_cart.
  destruct cart_items as [|l0 ls]; [discriminate|].
  destruct (EnhancedOrderService.validation_failure _ _ _); [discriminate|].
  cbv beta iota zeta delta [DatabaseService.create_order].
  set (key := Z.of_nat (length (DB.orders db)) + 1) in *.
  destruct (fold_left _ (l0 :: ls) _) as [db2 total] eqn:Hfold.
  apply add_priced_items_total in Hfold as (new & Hitems & Hkey & Htotal & Horders).
  cbv beta iota zeta delta [DatabaseService.confirm_order].
  intros [= <- <- _].
  cbn [DB.orders DB.set_orders DB.order_items Order.id Order.confirm] in *.
  assert (Hold : Forall (fun o => (Order.id o =? key) = false) (DB.orders db)).
  { eapply List.Forall_impl; [|exact Hkeys]. intros o Ho. apply Z.eqb_neq, Ho. }
  assert (Hold_items : Forall (fun i => (OrderItem.order_id i =? key) = false)
                         (DB.order_items db)).
  { eapply List.Forall_impl; [|exact Hitems_fresh]. intros o Ho. apply Z.eqb_neq, Ho. }
  assert (Hnew_items : Forall (fun i => (OrderItem.order_id i =? key) = true) new).
  { eapply List.Forall_impl; [|exact Hkey]. intros o Ho. apply Z.eqb_eq, Ho. }
  rewrite Horders.
  rewrite update_first_app_fresh by (exact Hold || apply Z.eqb_refl).
  unfold Order.confirm.
  cbn [Order.id Order.order_id Order.user_id Order.warehouse_id Order.warehouse_location
       Order.user_email].
  match goal with
  | |- context [DB.set_orders (_ ++ [?o])%list db2] => set (order := o)
  end.
  assert (Hrows : DatabaseService.order_items_of order
                    (DB.set_orders (DB.orders db ++ [order])%list db2) = new).
  { unfold DatabaseService.order_items_of. cbn [DB.order_items DB.set_orders Order.id order].
    rewrite Hitems. apply filter_app_fresh; assumption. }
  split; [reflexivity|]. rewrite Hrows. split; [exact Hitems|].
  unfold DatabaseService.update_order_total. cbn [DB.orders DB.set_orders].
  rewrite find_app_first, (find_fresh _ _ Hold). cbn [List.find Order.id order].
  rewrite Z.eqb_refl.
  rewrite update_first_app_fresh by (exact Hold || apply Z.eqb_refl).
  change (DB.set_orders (DB.orders db ++ [order])%list
            (DB.set_orders (DB.orders db ++ [order])%list db2))
    with (DB.set_orders (DB.orders db ++ [order])%list db2) in Hrows |- *.
  rewrite Hrows.
  assert (Hsame : Order.set_total_amount (Some (DatabaseService.sum_total_price new)) order
                  = order).
  { unfold DatabaseService.sum_total_price. rewrite <- Htotal. reflexivity. }
  rewrite Hsame. reflexivity.
Qed.

(** Witness: the order of 2 units of QB001 and 5 of QB003, total 6950. *)
Lemma placed_order_total_survives_recount_witness :
  option_map Order.total_amount (fst (snd placed_two_lines)) = Some (Some 6950%Q) /\
  (forall order, fst (snd placed_two_lines) = Some order ->
     DatabaseService.update_order_total (Order.id order) (fst placed_two_lines)
     = (fst placed_two_lines, Some order)).
Proof.
  split; [vm_compute; reflexivity|]. intros order Horder.
  apply (placed_order_total_survives_recount (fun p => p) "QB-ORDER-1" 7
           [CartLine.mk "QB001" 2; CartLine.mk "QB003" 5] 1 (Some "Mumbai Central")
           "user@example.com" db0 (fst placed_two_lines) order OrderCreated).
  - split; constructor.
  - revert Horder. vm_compute. intros [= <-]. reflexivity.
Defined.



Lemma apply_scheme_paid_monotone (scheme : option string) (q q' : Z) (price : Q) :
  q <= q' ->
  snd (fst (apply_scheme scheme q price)) <= snd (fst (apply_scheme scheme q' price)).
Proof.
  intros Hq.
  pose proof (Z.div_mod q 5 ltac:(lia)) as H5.
  pose proof (Z.mod_pos_bound q 5 ltac:(lia)) as B5.
  pose proof (Z.div_mod q 3 ltac:(lia)) as H3.
  pose proof (Z.mod_pos_bound q 3 ltac:(lia)) as B3.
  pose proof (Z.div_mod q' 5 ltac:(lia)) as H5'.
  pose proof (Z.mod_pos_bound q' 5 ltac:(lia)) as B5'.
  pose proof (Z.div_mod q' 3 ltac:(lia)) as H3'.
  pose proof (Z.mod_pos_bound q' 3 ltac:(lia)) as B3'.
  unfold apply_scheme. destruct scheme as [s|]; [|cbn; lia].
  destruct (negb (Py.truthy_str s)); [cbn; lia|].
  destruct (Py.contains "Buy 3 Get 2 Free" s), (Py.contains "Buy 2 Get 1 Free" s),
    (Py.contains "Buy 1 Get 20% Off" s), (Py.contains "Buy 1 Get 15% Off" s),
    (Py.contains "Buy 2 Get 25% Off" s); cbn [andb];
    repeat (match goal with
            | |- context [?a <=? ?b] => destruct (Z.leb_spec a b)
            | |- context [?a =? ?b] => destruct (Z.eqb_spec a b)
            end; cbn [andb negb]); cbn [fst snd]; lia.
Qed.

(** X23.  For a given product, asking for more units never lowers the number
    of units paid for, whatever the scheme label. *)
Theorem paid_quantity_is_monotone (products : list Product.t) (pid q q' : Z) :
  q <= q' ->
  Pricing.paid_quantity (get_product_pricing products pid q)
  <= Pricing.paid_quantity (get_product_pricing products pid q').
Proof.
  intros Hq. unfold get_product_pricing. destruct (query_get products pid) as [product|];
    [|cbn; lia].
  unfold pricing_try. destruct (_ && _)%bool; [cbn; lia|].
  match goal with
  | |- context [apply_scheme ?s q ?p] =>
    pose proof (apply_scheme_paid_monotone s q q' p Hq) as Hp;
    destruct (apply_scheme s q p) as [[fp paid] free];
    destruct (apply_scheme s q' p) as [[fp' paid'] free']
  end.
  cbn in Hp |- *. exact Hp.
Qed.

(** Witness: QB003 ("Buy 3 Get 2 Free"), 4 units pay for 3, 6 units for 4. *)
Lemma paid_quantity_is_monotone_witness :
  Pricing.paid_quantity (get_product_pricing sample_products 3 4)
  <= Pricing.paid_quantity (get_product_pricing sample_products 3 6) /\
  Pricing.paid_quantity (get_product_pricing sample_products 3 4) = 3 /\
  Pricing.paid_quantity (get_product_pricing sample_products 3 6) = 4.
Proof.
  split; [apply paid_quantity_is_monotone; lia|]. split; reflexivity.
Defined.

(** ** The chat handler: tracking, removing, adding *)
Lemma upper_ascii_not_lower (c : ascii) :
  let n := nat_of_ascii (Py.upper_ascii c) in (n < 97 \/ 122 < n)%nat.
Proof.
  destruct c as [[] [] [] [] [] [] [] []]; vm_compute; lia.
Qed.

Lemma prefix_upper_lowercase (c : ascii) (needle s : string) :
  (97 <= nat_of_ascii c <= 122)%nat ->
  String.prefix (String c needle) (Py.upper s) = false.
Proof.
  intros Hc. destruct s as [|d r]; [reflexivity|]. cbn [Py.upper String.prefix].
  pose proof (upper_ascii_not_lower d) as Hd. cbv zeta in Hd.
  destruct (Ascii.eqb_spec c (Py.upper_ascii d)) as [->|Hne].
  - lia.
  - destruct (ascii_dec c (Py.upper_ascii d)); [contradiction | reflexivity].
Qed.

Lemma contains_upper_lowercase (c : ascii) (needle s : string) :
  (97 <= nat_of_ascii c <= 122)%nat ->
  Py.contains (String c needle) (Py.upper s) = false.
Proof.
  intros Hc. induction s as [|d r IH].
  - reflexivity.
  - change (Py.contains (String c needle) (Py.upper (String d r)))
      with (String.prefix (String c needle) (Py.upper (String d r))
            || Py.contains (String c needle) (Py.upper r)).
    rewrite prefix_upper_lowercase by exact Hc. exact IH.
Qed.

(** X24.  The test [has_order_id] of the [TRACK_ORDER] intent looks for the
    patterns 'QB', 'order' and 'track' in the upper-cased message: the two
    lower-case patterns never match, so the test is true exactly when the
    upper-cased message contains 'QB'. *)
Theorem track_order_patterns_order_and_track_never_match (user_message : string) :
  Chatbot.has_order_id user_message = Py.contains "QB" (Py.upper user_message).
Proof.
  unfold Chatbot.has_order_id, Chatbot.order_id_patterns. cbn [List.existsb].
  change "order" with (String "o" "rder"). change "track" with (String "t" "rack").
  rewrite (contains_upper_lowercase "o") by (vm_compute; lia).
  rewrite (contains_upper_lowercase "t") by (vm_compute; lia).
  rewrite !orb_false_r. reflexivity.
Qed.

Lemma NoDup_codes_remove_at (i : nat) (items : list CartItem.t) :
  List.NoDup (List.map CartItem.product_code items) ->
  List.NoDup (List.map CartItem.product_code (Chatbot.remove_at i items)).
Proof.
  revert i. induction items as [|x r IH]; intros i H; [destruct i; exact H|].
  apply List.NoDup_cons_iff in H as [Hx Hr]. destruct i as [|i]; [exact Hr|].
  cbn [Chatbot.remove_at List.map]. constructor; [|apply IH, Hr].
  intros Hin. apply Hx. clear -Hin. revert i Hin.
  induction r as [|y r IH]; intros i Hin; [destruct i; contradiction|].
  destruct i as [|i]; [right; exact Hin|]. destruct Hin as [H|H]; [left; exact H|].
  right. exact (IH i H).
Qed.

Lemma length_remove_at {A} (i : nat) (l : list A) (x : A) :
  List.nth_error l i = Some x -> S (length (Chatbot.remove_at i l)) = length l.
Proof.
  revert i. induction l as [|y r IH]; intros [|i] H; try discriminate; [reflexivity|].
  cbn [Chatbot.remove_at length]. rewrite (IH i H). reflexivity.
Qed.

Lemma find_index_first {A} (f : A -> bool) (l : list A) (i : nat) :
  find_index f l = Some i ->
  forall (j : nat) (y : A), (j < i)%nat -> List.nth_error l j = Some y -> f y = false.
Proof.
  revert i. induction l as [|x r IH]; intros i; cbn [find_index]; [discriminate|].
  destruct (f x) eqn:Hx.
  - intros [= <-] j y Hj. lia.
  - destruct (find_index f r) as [k|] eqn:Hk; [|discriminate].
    intros [= <-] [|j] y Hj; cbn [List.nth_error].
    + intros [= <-]. exact Hx.
    + apply (IH k eq_refl). lia.
Qed.

(** X25.  The remove branch of the chat handler, for a message that one of
    the remove patterns matches with a group [g] and a cart that has a
    [total_cost].  When no line of the cart is named by the stripped group,
    the cart is unchanged and the reply says that the product was not
    found.  Otherwise the line deleted is the first one that the group
    names: it is at the position [i] that [find_index] gives, no line before
    it is named, the other lines keep their order, the cart has one line
    less, and a cart with one line per product code keeps that.  The
    [item_total] of the deleted line is subtracted once from [total_cost]
    and once from [final_total], and [discount_applied] stays; when it was
    the only line the cart becomes [idle] and the reply is that the cart was
    cleared, otherwise the stage is kept and the reply lists the lines left
    and the new [final_total].  Nothing is said about the sum of the lines:
    the totals are running totals. *)
Theorem chat_remove_deletes_first_named_line
    (re_search : string -> string -> option (list string))
    (user_message g : string) (groups : list string)
    (order_session : OrderSession.t) (total_cost : Q) :
  Chatbot.first_match re_search Chatbot.remove_patterns (Py.lower user_message)
    = Some (g :: groups) ->
  OrderSession.total_cost order_session = Some total_cost ->
  let items := OrderSession.items order_session in
  let '(order_session', response) :=
    Chatbot.remove_from_cart re_search user_message order_session in
  match find_index (Chatbot.names_item (Py.strip g)) items with
  | None => order_session' = order_session /\ response = Chatbot.NotFoundInCart
  | Some i =>
    exists item,
      List.nth_error items i = Some item /\
      Chatbot.names_item (Py.strip g) item = true /\
      (forall (j : nat) (other : CartItem.t),
          (j < i)%nat -> List.nth_error items j = Some other ->
          Chatbot.names_item (Py.strip g) other = false) /\
      OrderSession.items order_session' = Chatbot.remove_at i items /\
      S (length (OrderSession.items order_session')) = length items /\
      (List.NoDup (List.map CartItem.product_code items) ->
       List.NoDup (List.map CartItem.product_code (OrderSession.items order_session'))) /\
      OrderSession.total_cost order_session'
      = Some (total_cost - CartItem.item_total item)%Q /\
      OrderSession.final_total order_session'
      = (OrderSession.final_total order_session - CartItem.item_total item)%Q /\
      OrderSession.discount_applied order_session'
      = OrderSession.discount_applied order_session /\
      match Chatbot.remove_at i items with
      | [] =>
        OrderSession.status order_session' = Status.idle /\
        response = Chatbot.CartCleared
      | (_ :: _) as rest =>
        OrderSession.status order_session' = OrderSession.status order_session /\
        response
        = Chatbot.ProductsRemoved [CartItem.product_name item] rest
            (OrderSession.final_total order_session - CartItem.item_total item)%Q
      end
  end.
Proof.
  intros Hmatch Htotal. cbv zeta. unfold Chatbot.remove_from_cart. rewrite Hmatch.
  destruct (find_index _ _) as [i|] eqn:Hfind; [|split; reflexivity].
  destruct (find_index_nth_error _ _ _ Hfind) as (item & Hnth & Hnames).
  rewrite Hnth. cbn [OrderSession.total_cost OrderSession.set_items]. rewrite Htotal.
  pose proof (length_remove_at i _ _ Hnth) as Hlen.
  pose proof (NoDup_codes_remove_at i (OrderSession.items order_session)) as Hnodup.
  destruct (Chatbot.remove_at i (OrderSession.items order_session)) as [|y rest] eqn:Hrest;
    exists item; cbn; repeat split; try reflexivity; try assumption;
    try exact (find_index_first _ _ _ Hfind).
Qed.

(** Witness: "remove quantum" on a cart with QB002, QB001 and QB004, in that
    order: the first line that the word names is the second one. *)
Lemma chat_remove_deletes_first_named_line_witness :
  let order_session :=
    OrderSession.mk Status.confirming
      [CartItem.mk None "QB002" "Neural Interface" 1 1200 1100 (833 # 100)
         (Some "Buy 3 Get 2 Free") 1100 None;
       CartItem.mk None "QB001" "Quantum Processor" 2 2500 2350 6
         (Some "Buy 2 Get 1 Free") 4700 None;
       CartItem.mk None "QB004" "Quantum Sensors" 1 1800 1360 (1111 # 100)
         (Some "Buy 1 Get 15% Off") 1360 None]
      (Some 7160%Q) 0 7160 None None "t1" true in
  let '(order_session', response) :=
    Chatbot.remove_from_cart
      (fun pattern text =>
         if String.eqb pattern "remove\s+(.+?)$" then Some ["quantum"] else None)
      "remove quantum" order_session in
  List.map CartItem.product_code (OrderSession.items order_session') = ["QB002"; "QB004"] /\
  OrderSession.total_cost order_session' = Some (7160 - 4700)%Q /\
  OrderSession.final_total order_session' = (7160 - 4700)%Q /\
  OrderSession.status order_session' = Status.confirming.
Proof.
  pose proof (chat_remove_deletes_first_named_line
                (fun pattern text =>
                   if String.eqb pattern "remove\s+(.+?)$" then Some ["quantum"] else None)
                "remove quantum" "quantum" []
                (OrderSession.mk Status.confirming
                   [CartItem.mk None "QB002" "Neural Interface" 1 1200 1100 (833 # 100)
                      (Some "Buy 3 Get 2 Free") 1100 None;
                    CartItem.mk None "QB001" "Quantum Processor" 2 2500 2350 6
                      (Some "Buy 2 Get 1 Free") 4700 None;
                    CartItem.mk None "QB004" "Quantum Sensors" 1 1800 1360 (1111 # 100)
                      (Some "Buy 1 Get 15% Off") 1360 None]
                   (Some 7160%Q) 0 7160 None None "t1" true)
                7160%Q eq_refl eq_refl) as H.
  cbv zeta in H |- *.
  destruct (Chatbot.remove_from_cart _ _ _) as [os' response].
  change (find_index _ _) with (Some 1%nat) in H.
  destruct H as (item & Hnth & _ & _ & Hitems & _ & _ & Htc & Hft & _ & Hrest).
  injection Hnth as <-. rewrite Hitems. cbn in Hrest.
  destruct Hrest as [Hstatus _].
  split; [reflexivity|]. split; [exact Htc|]. split; [exact Hft | exact Hstatus].
Defined.

Lemma find_of_map {A B} (v : A -> B) (f : A -> bool) (l l' : list A) :
  (forall a a', v a = v a' -> f a = f a') ->
  List.map v l = List.map v l' ->
  option_map v (List.find f l) = option_map v (List.find f l').
Proof.
  intros Hf. revert l'. induction l as [|x r IH]; intros [|x' r'] H; try discriminate.
  - reflexivity.
  - cbn [List.map List.find] in H |- *.
    assert (Hx : v x = v x') by congruence.
    assert (Hr : List.map v r = List.map v r') by congruence.
    rewrite (Hf x x' Hx).
    destruct (f x'); [cbn; congruence | apply IH, Hr].
Qed.

Lemma filter_of_map {A B} (v : A -> B) (f : A -> bool) (l l' : list A) :
  (forall a a', v a = v a' -> f a = f a') ->
  List.map v l = List.map v l' ->
  List.map v (List.filter f l) = List.map v (List.filter f l').
Proof.
  intros Hf. revert l'. induction l as [|x r IH]; intros [|x' r'] H; try discriminate.
  - reflexivity.
  - cbn [List.map List.filter] in H |- *.
    assert (Hx : v x = v x') by congruence.
    assert (Hr : List.map v r = List.map v r') by congruence.
    rewrite (Hf x x' Hx).
    destruct (f x'); cbn [List.map]; rewrite ?Hx, (IH r' Hr); reflexivity.
Qed.

Lemma stock_blind_fields (p p' : Product.t) :
  stock_blind p = stock_blind p' ->
  Product.id p = Product.id p' /\
  Product.product_code p = Product.product_code p' /\
  Product.product_name p = Product.product_name p' /\
  Product.warehouse_id p = Product.warehouse_id p' /\
  pricing_view p = pricing_view p'.
Proof.
  unfold stock_blind, pricing_view. intros H.
  assert (H1 : Product.id p = Product.id p') by congruence.
  assert (H2 : Product.product_code p = Product.product_code p') by congruence.
  assert (H3 : Product.product_name p = Product.product_name p') by congruence.
  assert (H4 : Product.warehouse_id p = Product.warehouse_id p') by congruence.
  assert (H5 : Product.price_of_product p = Product.price_of_product p') by congruence.
  assert (H6 : Product.discount p = Product.discount p') by congruence.
  assert (H7 : Product.scheme p = Product.scheme p') by congruence.
  rewrite H1, H2, H5, H6, H7. auto.
Qed.

Lemma pricing_view_of_stock_blind (l l' : list Product.t) :
  List.map stock_blind l = List.map stock_blind l' ->
  List.map pricing_view l = List.map pricing_view l'.
Proof.
  revert l'. induction l as [|x r IH]; intros [|x' r'] H; try discriminate; [reflexivity|].
  cbn [List.map] in H |- *.
  assert (Hx : stock_blind x = stock_blind x') by congruence.
  assert (Hr : List.map stock_blind r = List.map stock_blind r') by congruence.
  destruct (stock_blind_fields _ _ Hx) as (_ & _ & _ & _ & ->). rewrite (IH r' Hr).
  reflexivity.
Qed.

Lemma match_product_of_stock_blind (l l' : list Product.t) (product_name : string) :
  List.map stock_blind l = List.map stock_blind l' ->
  option_map stock_blind (Chatbot.match_product l product_name)
  = option_map stock_blind (Chatbot.match_product l' product_name).
Proof.
  intros H. unfold Chatbot.match_product.
  pose proof (find_of_map stock_blind (Chatbot.exact_match (Py.lower product_name)) l l')
    as Hexact.
  pose proof (find_of_map stock_blind (Chatbot.partial_match (Py.lower product_name)) l l')
    as Hpartial.
  assert (He := Hexact ltac:(intros a a' Ha; destruct (stock_blind_fields _ _ Ha)
                               as (_ & Hc & Hn & _); unfold Chatbot.exact_match;
                             rewrite Hc, Hn; reflexivity) H).
  assert (Hp := Hpartial ltac:(intros a a' Ha; destruct (stock_blind_fields _ _ Ha)
                                 as (_ & Hc & Hn & _); unfold Chatbot.partial_match;
                               rewrite Hc, Hn; reflexivity) H).
  destruct (List.find (Chatbot.exact_match _) l), (List.find (Chatbot.exact_match _) l');
    cbn in He; try discriminate; [exact He | exact Hp].
Qed.

(** X26.  The add branch of the chat handler does not depend on the stock of
    any product: on two product tables that differ in the stock figures
    only, the same message gives the same session and the same answer.  (The
    cart service, in contrast, rejects an add above the stock.) *)
Theorem chat_add_never_reads_stock
    (re_search : string -> string -> option (list string))
    (products products' : list Product.t) (warehouse : option Z) (now user_message : string)
    (session : Session) :
  List.map stock_blind products = List.map stock_blind products' ->
  Chatbot.process_add_message re_search products warehouse now user_message session
  = Chatbot.process_add_message re_search products' warehouse now user_message session.
Proof.
  intros H. unfold Chatbot.process_add_message.
  assert (Hadd : forall os,
             Chatbot.add_to_cart re_search products warehouse user_message os
             = Chatbot.add_to_cart re_search products' warehouse user_message os).
  { intros os. unfold Chatbot.add_to_cart.
    set (shown := match warehouse with
                  | Some wid => get_products_by_warehouse products wid
                  | None => []
                  end).
    set (shown' := match warehouse with
                   | Some wid => get_products_by_warehouse products' wid
                   | None => []
                   end).
    assert (Hshown : List.map stock_blind shown = List.map stock_blind shown').
    { subst shown shown'. destruct warehouse as [wid|]; [|reflexivity].
      apply filter_of_map; [|exact H]. intros a a' Ha.
      destruct (stock_blind_fields _ _ Ha) as (_ & _ & _ & -> & _). reflexivity. }
    assert (Hclar : forall o, Chatbot.clarification shown o = Chatbot.clarification shown' o).
    { intros o. unfold Chatbot.clarification. f_equal.
      transitivity (List.map (fun v : Z * string * string * Z * Q * option Q * option string =>
                          let '(_, code, name, _, _, _, _) := v in (name, code))
                      (List.map stock_blind shown)).
      - rewrite List.map_map. reflexivity.
      - rewrite Hshown, List.map_map. reflexivity. }
    destruct (Chatbot.first_match _ _ _) as [groups|]; [|rewrite Hclar; reflexivity].
    destruct (Chatbot.quantity_and_name groups) as [[quantity name]|]; [|reflexivity].
    pose proof (match_product_of_stock_blind shown shown' name Hshown) as Hmatch.
    destruct (Chatbot.match_product shown name) as [p|],
      (Chatbot.match_product shown' name) as [p'|]; cbn in Hmatch; try discriminate;
      [|rewrite Hclar; reflexivity].
    assert (Hv : stock_blind p = stock_blind p') by congruence.
    destruct (stock_blind_fields _ _ Hv) as (Hid & Hcode & Hname & _ & _).
    unfold Chatbot.add_product.
    rewrite (get_product_pricing_of_view products products' _ _
               (pricing_view_of_stock_blind _ _ H)).
    rewrite Hid, Hcode, Hname. reflexivity. }
  destruct (_ !! "order_session") as [[os| |]|]; rewrite ?Hadd; reflexivity.
Qed.

(** Witness: "add 1 quantum sensors" builds the same cart when nothing of
    QB004 is left for sale. *)
Lemma chat_add_never_reads_stock_witness :
  Chatbot.process_add_message re_search_add_1_quantum_sensors sample_products (Some 1)
    "t1" "add 1 quantum sensors" ∅
  = Chatbot.process_add_message re_search_add_1_quantum_sensors sold_out_QB004 (Some 1)
      "t1" "add 1 quantum sensors" ∅ /\
  option_map Product.available_for_sale (get_product_by_code sold_out_QB004 "QB004")
  = Some 0 /\
  session_chat_QB004_x1
  = fst (Chatbot.process_add_message re_search_add_1_quantum_sensors sold_out_QB004 (Some 1)
           "t1" "add 1 quantum sensors" ∅).
Proof.
  assert (H := chat_add_never_reads_stock re_search_add_1_quantum_sensors sample_products
                 sold_out_QB004 (Some 1) "t1" "add 1 quantum sensors" ∅ eq_refl).
  split; [exact H|]. split; [reflexivity|].
  unfold session_chat_QB004_x1. rewrite H. reflexivity.
Defined.

(** X27.  The remove branch of the chat handler runs exactly when the intent
    was classified as [CALCULATE_COST], the message contains "remove" and
    not "add", and the cart is in the stage [confirming] or [calculating]:
    under any other intent a "remove ..." message is not handled by it. *)
Theorem remove_branch_needs_cost_intent (intent_is_calculate_cost : bool)
    (user_message : string) (order_session : OrderSession.t) :
  Chatbot.first_block intent_is_calculate_cost user_message order_session
  = Chatbot.RemoveBranch
  <-> intent_is_calculate_cost = true /\
      Py.contains "add" (Py.lower user_message) = false /\
      Py.contains "remove" (Py.lower user_message) = true /\
      in_order_stage (OrderSession.status order_session) = true.
Proof.
  unfold Chatbot.first_block.
  destruct intent_is_calculate_cost, (Py.contains "add" (Py.lower user_message)),
    (Py.contains "remove" (Py.lower user_message)),
    (in_order_stage (OrderSession.status order_session)); cbn;
    split; try discriminate; try tauto; intros (? & ? & ? & ?); discriminate.
Qed.

(** Witness: the cart whose second line asks for 500 units of QB003. *)
Lemma enhanced_create_order_aborts_on_short_line_witness :
  exists msg,
    EnhancedOrderService.create_order_from_cart (fun p => p) "QB-ORDER-1" 7
      lines_second_short 1 (Some "Mumbai Central") "user@example.com" db0
    = (db0, (None, msg)).
Proof.
  apply (enhanced_create_order_aborts_on_short_line (fun p => p) "QB-ORDER-1" 7
           lines_second_short 1 (Some "Mumbai Central") "user@example.com" db0
           (CartLine.mk "QB003" 500) QB003).
  - right. left. reflexivity.
  - reflexivity.
  - vm_compute. reflexivity.
Defined.

(** Witness: the line of 2 units of QB001 is set to 3 units and repriced:
    3 units at 2350, of which 2 are paid, 4700. *)
Lemma update_cart_replaces_quantity_witness :
  exists os',
    cart_of (fst (Chatbot.update_cart sample_products "t9" [("QB001", 3)]
                    session_QB001_x2)) = Some os' /\
    List.map shown (OrderSession.items os') = [("QB001", 3, 2350%Q, 4700%Q)].
Proof.
  let t := eval vm_compute in (cart_of session_QB001_x2) in
  match t with
  | Some ?o => pose (os0 := o)
  end.
  destruct (update_cart_replaces_quantity sample_products "t9" "QB001" 3
              session_QB001_x2 os0 0%nat
              (CartItem.mk (Some 1) "QB001" "Quantum Processor" 2 2500 2350 6
                 (Some "Buy 2 Get 1 Free") 4700 (Some "t1"))
              QB001)
    as (os' & Hcart & Hline & _).
  - vm_compute. reflexivity.
  - reflexivity.
  - reflexivity.
  - reflexivity.
  - exists os'. split; [exact Hcart|].
    assert (Hos : Some os' = cart_of (fst (Chatbot.update_cart sample_products "t9"
                                             [("QB001", 3)] session_QB001_x2)))
      by (symmetry; exact Hcart).
    vm_compute in Hos. injection Hos as ->. reflexivity.
Defined.

(** Witness: the cart with 2 units of QB001 is placed as an order. *)
Lemma finalize_order_resets_cart_witness :
  cart_of (fst (fst finalized_QB001_x2)) = Some (OrderSession.fresh "t3").
Proof.
  apply (finalize_order_resets_cart (fun p => p) "QB-ORDER-1" "t3" 7 1
           (Some "Mumbai Central") "user@example.com" session_QB001_x2
           (fst (fst finalized_QB001_x2)) db0 (snd (fst finalized_QB001_x2))
           (Order.mk 1 "QB-ORDER-1" 7 1 (Some "Mumbai Central") "user@example.com"
              (Some 4700%Q) (Some "confirmed"))
           [CartItem.mk (Some 1) "QB001" "Quantum Processor" 2 2500 2350 6
              (Some "Buy 2 Get 1 Free") 4700 (Some "t1")]).
  vm_compute. reflexivity.
Defined.

(** Witness: the cart of the confirmed order (2 units of QB001, [completed])
    is reset before the order from the conversation is placed; afterwards
    the session holds a cart without lines, [completed] and under the id of
    the new order. *)
Lemma finalize_from_conversation_keeps_cart_witness :
  exists session' db' order os,
    placed_from_conversation = Some ((session', db'), OrderPlaced order []) /\
    Order.order_id order = "QB-ORDER-2" /\
    cart_of (fst (fst confirmed_QB001_x2)) = Some os /\
    OrderSession.status os = Status.completed /\
    List.map CartItem.product_code (OrderSession.items os) = ["QB001"] /\
    cart_of session'
    = Some (OrderSession.set_order_id (Some "QB-ORDER-2")
              (OrderSession.set_status Status.completed (OrderSession.fresh "t6"))).
Proof.
  assert (Hrun : exists session' db' order,
             placed_from_conversation = Some ((session', db'), OrderPlaced order []) /\
             Order.order_id order = "QB-ORDER-2").
  { do 3 eexists. split; [vm_compute; reflexivity | reflexivity]. }
  destruct Hrun as (session' & db' & order & Hrun & Hid).
  destruct (finalize_from_conversation_keeps_cart (fun p => p) "t6"
              (Some [CartLine.mk "QB004" 1]) "QB-ORDER-2" 7 1 (Some "Mumbai Central")
              "user@example.com" (fst (fst confirmed_QB001_x2)) session'
              (snd (fst confirmed_QB001_x2)) db' order [])
    as (os & Hcart & _ & Hcart').
  - rewrite <- Hrun. unfold placed_from_conversation.
    destruct (fst confirmed_QB001_x2); reflexivity.
  - exists session', db', order, os.
    assert (Hos : Some os = cart_of (fst (fst confirmed_QB001_x2)))
      by (symmetry; exact Hcart).
    vm_compute in Hos. injection Hos as ->.
    rewrite Hid in Hcart'.
    split; [exact Hrun|]. split; [exact Hid|]. split; [exact Hcart|].
    split; [reflexivity|]. split; [reflexivity | exact Hcart'].
Defined.

(** ** Onboarding *)

Lemma length_substring_prefix (m : nat) (s : string) :
  (String.length (String.substring 0 m s) <= m)%nat.
Proof.
  revert s. induction m as [|m IH]; intros [|c s]; cbn; try lia.
  specialize (IH s). lia.
Qed.

Lemma run_snoc (requests : list Onboarding.Request) (request : Onboarding.Request)
    (session : Onboarding.t) :
  Onboarding.run (requests ++ [request])%list session
  = (fst (Onboarding.process_message request (fst (Onboarding.run requests session))),
     snd (Onboarding.process_message request (fst (Onboarding.run requests session)))
     :: snd (Onboarding.run requests session)).
Proof.
  unfold Onboarding.run. rewrite List.fold_left_app. cbn [fold_left].
  destruct (fold_left _ requests _) as [s replies]. cbn [fst snd].
  destruct (Onboarding.process_message request s) as [s' reply]. reflexivity.
Qed.

Lemma process_message_consistent (request : Onboarding.Request) (session : Onboarding.t) :
  onboarding_consistent session ->
  onboarding_consistent (fst (Onboarding.process_message request session)) /\
  snd (Onboarding.process_message request session) <> Onboarding.Failed.
Proof.
  unfold onboarding_consistent, Onboarding.process_message.
  destruct session as [[state|] details user wl sid]; cbn.
  - intros (d & -> & H). destruct (negb _); [cbn; split; [eauto|discriminate]|].
    destruct state; cbn.
    + split; [eauto|discriminate].
    + split; [|discriminate]. eexists. split; [reflexivity|]. cbn. split; [discriminate|exact H].
    + destruct H as [Hn Hu]. split; [|discriminate]. eexists. split; [reflexivity|]. cbn.
      split; [exact Hn|]. split; [discriminate|exact Hu].
    + destruct H as (Hn & He & Hu).
      destruct (Onboarding.name d); [|contradiction].
      destruct (Onboarding.email d); [|contradiction]. cbn.
      split; [|discriminate]. eexists. split; [reflexivity|]. cbn.
      split; [discriminate|]. split; [discriminate|exact Hu].
    + destruct H as (Hn & He & Hu).
      destruct (Onboarding.email d) eqn:E; [|contradiction].
      destruct (Onboarding.user_by_email request); [destruct (Onboarding.otp_verifies request)|];
        cbn; (split; [|discriminate]); eexists; (split; [reflexivity|]); rewrite ?E; auto.
    + destruct H as (Hn & He & Hu).
      destruct (Onboarding.email d) eqn:E; [|contradiction].
      destruct (Onboarding.user_by_email request); cbn; (split; [|discriminate]);
        eexists; (split; [reflexivity|]); rewrite ?E; auto.
    + destruct user as [u|]; [|contradiction].
      destruct (u =? 0); cbn; (split; [|discriminate]); eexists; (split; [reflexivity|]);
        exact H.
  - intros [-> ->]. destruct (negb _); cbn; [split; [auto|discriminate]|].
    split; [|discriminate]. eexists. split; reflexivity.
Qed.

Lemma run_consistent (requests : list Onboarding.Request) :
  onboarding_consistent (fst (Onboarding.run requests Onboarding.empty)) /\
  ~ In Onboarding.Failed (snd (Onboarding.run requests Onboarding.empty)).
Proof.
  induction requests as [|request requests IH] using List.rev_ind.
  - cbn. split; [split; reflexivity | tauto].
  - rewrite run_snoc. cbn [fst snd]. destruct IH as [Hc Hf].
    destruct (process_message_consistent request _ Hc) as [Hc' Hr].
    split; [exact Hc'|]. intros [H|H]; [exact (Hr H) | exact (Hf H)].
Qed.

(** X28.  Starting from a session without the onboarding keys, no sequence of
    requests makes the onboarding part of [process_message] fail, whatever
    the messages and whatever the database and the check of the one-time
    password answer: each state finds the entries of the ['onboarding']
    dictionary that it reads. *)
Theorem onboarding_never_fails (requests : list Onboarding.Request) :
  ~ In Onboarding.Failed (snd (Onboarding.run requests Onboarding.empty)).
Proof. exact (proj2 (run_consistent requests)). Qed.

Lemma process_message_gate (request : Onboarding.Request) (session : Onboarding.t) :
  let result := Onboarding.process_message request session in
  (onboarding_rank (fst result) <= S (onboarding_rank session))%nat /\
  ((5 <= onboarding_rank (fst result))%nat ->
   (5 <= onboarding_rank session)%nat \/ otp_accepted request) /\
  (forall user, snd result = Onboarding.MainFlow user -> onboarding_rank session = 6%nat).
Proof.
  unfold Onboarding.process_message, onboarding_rank, otp_accepted.
  destruct session as [[state|] details user wl sid]; cbn.
  - destruct (negb _); [cbn; split; [lia|]; split; [auto|discriminate]|].
    destruct state; cbn; try (split; [lia|]; split; [intros; lia|discriminate]).
    + destruct details as [d|]; cbn.
      * destruct (Onboarding.name d), (Onboarding.email d); cbn;
          (split; [lia|]; split; [intros; lia|discriminate]).
      * split; [lia|]. split; [intros; lia|discriminate].
    + destruct details as [d|]; cbn; [destruct (Onboarding.email d)|]; cbn;
        try (split; [lia|]; split; [intros; lia|discriminate]).
      destruct (Onboarding.user_by_email request) eqn:Hu;
        [destruct (Onboarding.otp_verifies request) eqn:Ho|]; cbn;
        (split; [lia|]; split; [|discriminate]); intros H; try lia.
      right. split; [reflexivity|discriminate].
    + destruct details as [d|]; cbn; [destruct (Onboarding.email d)|]; cbn;
        try (split; [lia|]; split; [intros; lia|discriminate]).
      destruct (Onboarding.user_by_email request); cbn;
        (split; [lia|]; split; [intros; lia|discriminate]).
    + destruct user as [u|]; [destruct (u =? 0)|]; cbn;
        (split; [lia|]; split; [intros; lia|]); intros; reflexivity || discriminate.
  - destruct (negb _); cbn; (split; [lia|]; split; [intros; lia|discriminate]).
Qed.

Lemma run_gate (requests : list Onboarding.Request) :
  let result := Onboarding.run requests Onboarding.empty in
  (onboarding_rank (fst result) <= length requests)%nat /\
  ((5 <= onboarding_rank (fst result))%nat -> Exists otp_accepted requests) /\
  (forall user, In (Onboarding.MainFlow user) (snd result) ->
     Exists otp_accepted requests /\ (6 < length requests)%nat).
Proof.
  induction requests as [|request requests IH] using List.rev_ind.
  - cbn. split; [lia|]. split; [lia|]. intros user [].
  - rewrite run_snoc. cbv zeta in *. cbn [fst snd]. destruct IH as (Hrank & Hgate & Hmain).
    pose proof (process_message_gate request (fst (Onboarding.run requests Onboarding.empty)))
      as (Hrank' & Hgate' & Hmain'). cbv zeta in *.
    rewrite List.length_app. cbn [length]. split; [lia|]. split.
    + intros H. apply List.Exists_app. destruct (Hgate' H) as [H5|Hotp].
      * left. exact (Hgate H5).
      * right. constructor. exact Hotp.
    + intros user [H|H].
      * pose proof (Hmain' user H) as H6. split; [|lia].
        apply List.Exists_app. left. apply Hgate. lia.
      * destruct (Hmain user H) as [He Hl]. split; [|lia].
        apply List.Exists_app. left. exact He.
Qed.

(** X29.  Starting from a session without the onboarding keys, [user_id] is
    set, and the main flow of the handler is run, only after a request for
    which a user was found and [verify_otp] accepted the message; it takes
    at least six requests. *)
Theorem onboarding_needs_an_accepted_otp (requests : list Onboarding.Request) :
  let '(session, replies) := Onboarding.run requests Onboarding.empty in
  (Onboarding.user_id session <> None \/ exists user, In (Onboarding.MainFlow user) replies) ->
  Exists otp_accepted requests /\ (6 <= length requests)%nat.
Proof.
  pose proof (run_gate requests) as (Hrank & Hgate & Hmain).
  pose proof (run_consistent requests) as [Hc _]. cbv zeta in *.
  destruct (Onboarding.run requests Onboarding.empty) as [session replies].
  cbn [fst snd] in *. intros [Huser|[user Hin]].
  - assert (H6 : onboarding_rank session = 6%nat).
    { unfold onboarding_consistent, onboarding_rank in *.
      destruct (Onboarding.onboarding_state session) as [[]|];
        try reflexivity; exfalso;
        try (destruct Hc as (d & _ & Hc)); intuition congruence. }
    split; [apply Hgate; lia | lia].
  - destruct (Hmain user Hin) as [He Hl]. split; [exact He | lia].
Qed.

(** Witness: greeting, name, address, phone, one-time password, warehouse. *)
Lemma onboarding_needs_an_accepted_otp_witness :
  Onboarding.user_id (fst (Onboarding.run six_requests Onboarding.empty)) = Some 7 /\
  Exists otp_accepted six_requests /\ (6 <= length six_requests)%nat.
Proof.
  split; [reflexivity|].
  pose proof (onboarding_needs_an_accepted_otp six_requests) as H.
  destruct (Onboarding.run six_requests Onboarding.empty) as [session replies] eqn:Hrun.
  apply H. left. vm_compute in Hrun. injection Hrun as <- _. discriminate.
Defined.

Lemma process_message_within_lengths (request : Onboarding.Request)
    (session : Onboarding.t) :
  details_within_lengths session ->
  details_within_lengths (fst (Onboarding.process_message request session)).
Proof.
  unfold details_within_lengths, Onboarding.process_message.
  pose proof (length_substring_prefix 100 (Py.strip (Onboarding.message request))) as H100.
  pose proof (length_substring_prefix 120 (Py.strip (Onboarding.message request))) as H120.
  pose proof (length_substring_prefix 50 (Py.strip (Onboarding.message request))) as H50.
  destruct session as [state details user wl sid]. cbn [Onboarding.onboarding
    Onboarding.onboarding_state Onboarding.user_id].
  intros H. destruct (negb _); [exact H|].
  assert (Hd : exists d,
             match details with
             | Some d => d
             | None => Onboarding.mk_details None None None
             end = d /\
             (forall s, Onboarding.name d = Some s -> (String.length s <= 100)%nat) /\
             (forall s, Onboarding.email d = Some s -> (String.length s <= 120)%nat) /\
             (forall s, Onboarding.phone d = Some s -> (String.length s <= 50)%nat)).
  { destruct details as [d|]; eexists; (split; [reflexivity|]); [exact H|].
    repeat split; discriminate. }
  destruct Hd as (d & -> & Hn & He & Hp).
  assert (Hsame : forall st, details_within_lengths
                               (Onboarding.set_state st
                                  (Onboarding.set_onboarding d
                                     (Onboarding.set_state
                                        match state with
                                        | Some s => s
                                        | None => Onboarding.ask_name
                                        end
                                        (Onboarding.mk state details user wl sid))))).
  { intros st. unfold details_within_lengths. cbn. auto. }
  unfold details_within_lengths in Hsame.
  destruct (match state with Some s => s | None => Onboarding.ask_name end) eqn:Hstate;
    cbn [fst].
  - apply Hsame.
  - cbn. repeat split; first [assumption | intros ? [= <-]; assumption].
  - cbn. repeat split; first [assumption | intros ? [= <-]; assumption].
  - destruct (Onboarding.name d), (Onboarding.email d); cbn [fst].
    + cbn. repeat split; first [assumption | intros ? [= <-]; assumption].
    + destruct state as [st|], details as [d0|]; cbn;
        first [exact H | repeat split; first [assumption | intros ? [= <-]; assumption]].
    + destruct state as [st|], details as [d0|]; cbn;
        first [exact H | repeat split; first [assumption | intros ? [= <-]; assumption]].
    + destruct state as [st|], details as [d0|]; cbn;
        first [exact H | repeat split; first [assumption | intros ? [= <-]; assumption]].
  - destruct (Onboarding.email d) eqn:E; [destruct (Onboarding.user_by_email request);
      [destruct (Onboarding.otp_verifies request)|]|]; cbn; repeat split;
      first [assumption | intros ? Hs; apply He; congruence].
  - destruct (Onboarding.email d) eqn:E; [destruct (Onboarding.user_by_email request)|];
      cbn; repeat split; first [assumption | intros ? Hs; apply He; congruence].
  - destruct user as [u|]; [destruct (u =? 0)|]; cbn; repeat split; assumption.
Qed.

(** X30.  Starting from a session without the onboarding keys, the name, the
    address and the phone number stored in the session are never longer than
    100, 120 and 50 characters. *)
Theorem onboarding_details_are_truncated (requests : list Onboarding.Request) :
  details_within_lengths (fst (Onboarding.run requests Onboarding.empty)).
Proof.
  induction requests as [|request requests IH] using List.rev_ind.
  - exact I.
  - rewrite run_snoc. cbn [fst]. apply process_message_within_lengths, IH.
Qed.
